(** * notex backend: retrieval, generation and slide segmentation

    A shallow embedding of the Go sources
      - backend/agent.go   (Agent.GenerateTransformation, Agent.Chat,
                            Agent.ParsePPTSlides, Agent.callDeepInsight)
      - backend/gemini.go  (GeminiClient.GenerateImage)
      - the GLM and Z-Image clients (GenerateImage)
      - the HTTP server    (Server.loadNotebookVectorIndex,
                            Server.handleTransform)
    Go strings are byte strings: [string] below is a sequence of bytes, a
    non-ASCII literal is its UTF-8 encoding, [len] counts bytes and slicing
    cuts at byte offsets.  Go's [int] is modelled by [Z]; every integer that
    occurs is a length, an index or a small counter, far from the 64-bit
    bounds.  A function with effects takes the answers of the outside world
    as a record of functions and returns, next to its result, the calls it
    made in order; a run-time panic (a slice out of range) is [None].  Log
    output is left out.

    The definitions come first, module by module along the sources; the
    properties follow under the heading Properties. *)

From Stdlib Require Import ZArith String Ascii DecimalString List Bool Lia.
From Stdlib Require DecimalPos DecimalZ.
From stdpp Require Import base option list gmap strings.

Local Open Scope string_scope.
Local Open Scope Z_scope.

(** ** The Go runtime functions the sources call *)

Module GoStr.

Definition nl : string := String "010" EmptyString.

(** [len(s)] *)
Definition len (s : string) : Z := Z.of_nat (String.length s).

Fixpoint take (n : nat) (s : string) : string :=
  match n, s with
  | S n', String c s' => String c (take n' s')
  | _, _ => EmptyString
  end.

Fixpoint drop (n : nat) (s : string) : string :=
  match n, s with
  | S n', String _ s' => drop n' s'
  | _, _ => s
  end.

(** [s[lo:hi]]; Go panics unless [0 <= lo <= hi <= len(s)], which is
    [None] here. *)
Definition slice (s : string) (lo hi : Z) : option string :=
  if (0 <=? lo) && (lo <=? hi) && (hi <=? len s)
  then Some (take (Z.to_nat (hi - lo)) (drop (Z.to_nat lo) s))
  else None.

(** [strings.Index]: byte offset of the first occurrence, or -1. *)
Fixpoint Index (s sub : string) : Z :=
  if String.prefix sub s then 0
  else match s with
       | EmptyString => -1
       | String _ s' => let r := Index s' sub in if r <? 0 then -1 else r + 1
       end.

(** [strings.Contains] *)
Definition Contains (s sub : string) : bool := 0 <=? Index s sub.

(** [strings.Split] for a non-empty separator: the pieces between the
    successive non-overlapping occurrences, found left to right.  Each
    round consumes at least [len(sep)] bytes, so [String.length s + 1]
    rounds are always enough. *)
Fixpoint SplitN (rounds : nat) (s sep : string) : list string :=
  match rounds with
  | O => [s]
  | S r =>
      let m := Index s sep in
      if m <? 0 then [s]
      else take (Z.to_nat m) s
             :: SplitN r (drop (Z.to_nat m + String.length sep) s) sep
  end.

Definition Split (s sep : string) : list string :=
  SplitN (S (String.length s)) s sep.

(** [strings.Join] *)
Fixpoint Join (elems : list string) (sep : string) : string :=
  match elems with
  | [] => ""
  | [e] => e
  | e :: rest => e +:+ sep +:+ Join rest sep
  end.

(** [%d] of [fmt.Sprintf] *)
Definition FormatInt (x : Z) : string := NilZero.string_of_int (Z.to_int x).

(** [strings.ReplaceAll] for a one-byte pattern. *)
Fixpoint ReplaceAllByte (s : string) (old : ascii) (new : string) : string :=
  match s with
  | EmptyString => EmptyString
  | String c s' =>
      (if Ascii.eqb c old then new else String c EmptyString)
        +:+ ReplaceAllByte s' old new
  end.

(** The byte-wise ASCII part of [strings.ToLower]. *)
Definition lower_byte (c : ascii) : ascii :=
  let n := nat_of_ascii c in
  if (65 <=? n)%nat && (n <=? 90)%nat then ascii_of_nat (n + 32) else c.

Fixpoint ToLowerASCII (s : string) : string :=
  match s with
  | EmptyString => EmptyString
  | String c s' => String (lower_byte c) (ToLowerASCII s')
  end.

End GoStr.

(** ** [path/filepath] on a Unix host *)

Module Filepath.
Import GoStr.

(** Components between slashes. *)
Fixpoint components (cur : string) (s : string) : list string :=
  match s with
  | EmptyString => [cur]
  | String c s' =>
      if Ascii.eqb c "/" then cur :: components "" s'
      else components (cur +:+ String c EmptyString) s'
  end.

Definition rooted (p : string) : bool :=
  match p with
  | String c _ => Ascii.eqb c "/"
  | EmptyString => false
  end.

(** One lexical step of [Clean]: [stack] holds the kept components,
    innermost first. *)
Definition clean_step (root : bool) (stack : list string) (e : string)
  : list string :=
  if String.eqb e "" || String.eqb e "." then stack
  else if String.eqb e ".." then
    match stack with
    | top :: below => if String.eqb top ".." then e :: stack else below
    | [] => if root then [] else [e]
    end
  else e :: stack.

(** [filepath.Clean]: drops empty and [.] components, resolves inner
    [..], keeps a leading slash, and returns [.] for an empty result. *)
Definition Clean (p : string) : string :=
  let root := rooted p in
  let kept := rev (fold_left (clean_step root) (components "" p) []) in
  let body := Join kept "/" in
  if root then "/" +:+ body
  else if String.eqb body "" then "." else body.

(** [filepath.Join]: joins from the first non-empty element on, then
    cleans. *)
Fixpoint JoinPath (elems : list string) : string :=
  match elems with
  | [] => ""
  | e :: rest =>
      if String.eqb e "" then JoinPath rest else Clean (Join elems "/")
  end.

Fixpoint last_nonempty (l : list string) (acc : option string)
  : option string :=
  match l with
  | [] => acc
  | e :: rest =>
      last_nonempty rest (if String.eqb e "" then acc else Some e)
  end.

(** [filepath.Base]: the last element, trailing slashes removed. *)
Definition Base (p : string) : string :=
  if String.eqb p "" then "."
  else match last_nonempty (components "" p) None with
       | Some e => e
       | None => "/"
       end.

End Filepath.

(** ** [regexp]: the leftmost-first matcher, for the constructs of the
       slide-heading pattern

    Go's [regexp] returns the leftmost match and, among those, the one a
    backtracking search finds first.  [run] is that search, written with a
    continuation for what follows the current node.  All classes and
    assertions of the pattern are ASCII, and a UTF-8 continuation byte never
    equals an ASCII byte, so matching bytes agrees with matching runes. *)

Module Regexp.
Import GoStr.

Inductive regex : Type :=
| Lit (s : string)
| Bol                                   (* ^ under (?m) *)
| Eol                                   (* $ under (?m) *)
| Seq (a b : regex)
| Alt (a b : regex)                     (* a|b, a preferred *)
| Opt (a : regex)                       (* a?, greedy *)
| Star (cls : ascii -> bool)            (* [cls]*, greedy *)
| Plus (cls : ascii -> bool)            (* [cls]+, greedy *)
| Rep (cls : ascii -> bool) (lo hi : nat). (* [cls]{lo,hi}, greedy *)

Definition is_nl (c : ascii) : bool := Ascii.eqb c "010".

(** [\s] of RE2: tab, newline, form feed, carriage return, space. *)
Definition is_space (c : ascii) : bool :=
  Ascii.eqb c "009" || Ascii.eqb c "010" || Ascii.eqb c "012"
  || Ascii.eqb c "013" || Ascii.eqb c " ".

(** [\d] *)
Definition is_digit (c : ascii) : bool :=
  let n := nat_of_ascii c in (48 <=? n)%nat && (n <=? 57)%nat.

Definition is_hash (c : ascii) : bool := Ascii.eqb c "#".

(** [[:\s]] *)
Definition is_colon_space (c : ascii) : bool := Ascii.eqb c ":" || is_space c.

(** [.] without the s flag *)
Definition not_nl (c : ascii) : bool := negb (is_nl c).

Definition at_bol (prev : option ascii) : bool :=
  match prev with
  | None => true
  | Some c => is_nl c
  end.

Definition at_eol (s : string) : bool :=
  match s with
  | EmptyString => true
  | String c _ => is_nl c
  end.

(** The continuation gets the byte before the current position and the
    text from the current position on. *)
Definition cont : Type := option ascii -> string -> option string.

Fixpoint lit (l : string) (prev : option ascii) (s : string) (k : cont)
  : option string :=
  match l with
  | EmptyString => k prev s
  | String c l' =>
      match s with
      | String d s' => if Ascii.eqb c d then lit l' (Some d) s' k else None
      | EmptyString => None
      end
  end.

Fixpoint star (cls : ascii -> bool) (prev : option ascii) (s : string)
  (k : cont) : option string :=
  match s with
  | String c s' =>
      if cls c then
        match star cls (Some c) s' k with
        | Some r => Some r
        | None => k prev s
        end
      else k prev s
  | EmptyString => k prev s
  end.

Fixpoint rep (cls : ascii -> bool) (lo hi : nat) (prev : option ascii)
  (s : string) (k : cont) : option string :=
  let stop := match lo with O => k prev s | S _ => None end in
  match hi with
  | O => stop
  | S hi' =>
      match s with
      | String c s' =>
          if cls c then
            match rep cls (Nat.pred lo) hi' (Some c) s' k with
            | Some r => Some r
            | None => stop
            end
          else stop
      | EmptyString => stop
      end
  end.

Fixpoint run (r : regex) (prev : option ascii) (s : string) (k : cont)
  : option string :=
  match r with
  | Lit l => lit l prev s k
  | Bol => if at_bol prev then k prev s else None
  | Eol => if at_eol s then k prev s else None
  | Seq a b => run a prev s (fun p' s' => run b p' s' k)
  | Alt a b =>
      match run a prev s k with
      | Some r => Some r
      | None => run b prev s k
      end
  | Opt a =>
      match run a prev s k with
      | Some r => Some r
      | None => k prev s
      end
  | Star cls => star cls prev s k
  | Plus cls =>
      match s with
      | String c s' => if cls c then star cls (Some c) s' k else None
      | EmptyString => None
      end
  | Rep cls lo hi => rep cls lo hi prev s k
  end.

(** Length of the match of [r] that starts exactly here, if any. *)
Definition match_here (r : regex) (prev : option ascii) (s : string)
  : option nat :=
  match run r prev s (fun _ rest => Some rest) with
  | Some rest => Some (String.length s - String.length rest)%nat
  | None => None
  end.

(** The scan of [FindAllStringIndex(s, -1)] for a pattern without empty
    matches: the leftmost match from the current position, then on from
    its end.  [pos] is the offset of [s] in the whole text and [skip] the
    number of bytes still covered by the last match. *)
Fixpoint scan (r : regex) (prev : option ascii) (s : string) (pos : nat)
  (skip : nat) : list (Z * Z) :=
  match s with
  | EmptyString => []
  | String c s' =>
      match skip with
      | S skip' => scan r (Some c) s' (S pos) skip'
      | O =>
          match match_here r prev s with
          | Some n =>
              (Z.of_nat pos, Z.of_nat (pos + n))
                :: scan r (Some c) s' (S pos) (Nat.pred n)
          | None => scan r (Some c) s' (S pos) O
          end
      end
  end.

Definition FindAllStringIndex (r : regex) (s : string) : list (Z * Z) :=
  scan r None s O O.

(** Match starts that increase strictly and lie in [lo, hi). *)
Fixpoint starts_within (lo hi : Z) (indices : list (Z * Z)) : Prop :=
  match indices with
  | [] => True
  | (start, _) :: rest => lo <= start < hi /\ starts_within (start + 1) hi rest
  end.

End Regexp.

(** ** backend/agent.go: the slide parser *)

Module SlideParser.
Import GoStr Regexp.

(** [type Slide struct { Style, Content string }] *)
Record Slide : Type := mkSlide { Style : string; Content : string }.

(** The pattern compiled in [ParsePPTSlides], node by node (blanks added
    between the nodes):
      (?m) ^                                  Bol
      (?: \s* #{1,6} \s* )?                    Opt (Star, Rep 1 6, Star)
      (?: Slide | 幻灯片 | 第 \d+ 张幻灯片 | ## )   Alt of the four heads
      \s* \d+ [:\s]* .* $                      Star, Plus, Star, Star, Eol *)
Definition slide_heading : regex :=
  Seq Bol
    (Seq (Opt (Seq (Star is_space) (Seq (Rep is_hash 1 6) (Star is_space))))
       (Seq (Alt (Lit "Slide")
               (Alt (Lit "幻灯片")
                  (Alt (Seq (Lit "第") (Seq (Plus is_digit) (Lit "张幻灯片")))
                     (Lit "##"))))
          (Seq (Star is_space)
             (Seq (Plus is_digit)
                (Seq (Star is_colon_space) (Seq (Star not_nl) Eol)))))).

Definition style_open : string := "<STYLE_INSTRUCTIONS>".
Definition style_close : string := "</STYLE_INSTRUCTIONS>".

Section WithToLower.

(** [strings.ToLower] maps every rune through the Unicode case tables of
    the Go runtime; the parser is stated for any such function, and
    [GoStr.ToLowerASCII] runs the examples. *)
Variable ToLower : string -> string.

(** Step 2 of the parser: the loop over the heading matches.  [None] is
    a slice out of range. *)
Fixpoint heading_slides (content style : string) (indices : list (Z * Z))
  (slides : list Slide) : option (list Slide) :=
  match indices with
  | [] => Some slides
  | (start, _) :: rest =>
      let end_ := match rest with
                  | (next, _) :: _ => next
                  | [] => len content
                  end in
      slideContent ← slice content start end_;
      let lower := ToLower slideContent in
      let slides' :=
        if Contains lower "叙事目标"
           || Contains lower "narrative goal"
           || Contains lower "关键内容"
        then (slides ++ [mkSlide style slideContent])%list
        else slides in
      heading_slides content style rest slides'
  end.

(** Step 3: one slide per split tail, re-prefixed with the marker. *)
Definition marker_slides (content style : string) : list Slide :=
  let marker := if Contains content "// 叙事目标"
                then "// 叙事目标" else "// NARRATIVE GOAL" in
  if Contains content marker
  then map (fun part => mkSlide style (marker +:+ part))
           (tail (Split content marker))
  else [].

(** [func (a *Agent) ParsePPTSlides(content string) []Slide] *)
Definition ParsePPTSlides (content : string) : option (list Slide) :=
  let styleStart := Index content style_open in
  let styleEnd := Index content style_close in
  style ← (if negb (styleStart =? -1) && (styleStart <? styleEnd)
           then slice content (styleStart + 20) styleEnd
           else Some "");
  let indices := FindAllStringIndex slide_heading content in
  slides ← heading_slides content style indices [];
  let slides :=
    match slides with
    | [] => marker_slides content style
    | _ => slides
    end in
  let slides :=
    match slides with
    | [] => [mkSlide style content]
    | _ => slides
    end in
  Some slides.

End WithToLower.

End SlideParser.

(** ** Go errors and the effects of the outside world *)

Module GoErr.

(** An [error] value: a plain message ([errors.New], or [fmt.Errorf]
    without [%w]) or a message that wraps an inner error ([fmt.Errorf]
    with [%w]). *)
Inductive error : Type :=
| errorString (msg : string)
| wrapError (msg : string) (inner : error).

(** [err.Error()] *)
Definition Error (e : error) : string :=
  match e with
  | errorString m => m
  | wrapError m _ => m
  end.

(** [errors.Unwrap] *)
Definition Unwrap (e : error) : option error :=
  match e with
  | errorString _ => None
  | wrapError _ inner => Some inner
  end.

(** [fmt.Errorf(prefix + "%w", e)] *)
Definition Errorf_w (prefix : string) (e : error) : error :=
  wrapError (prefix +:+ Error e) e.

(** A Go [(T, error)] result: the value when the error is nil. *)
Inductive result (A : Type) : Type :=
| Ok (a : A)
| Err (e : error).
Arguments Ok {A} a.
Arguments Err {A} e.

Definition is_ok {A} (r : result A) : bool :=
  match r with
  | Ok _ => true
  | Err _ => false
  end.

(** [time.Second] in [time.Duration] units (nanoseconds). *)
Definition Second : Z := 1000000000.
Definition Minute : Z := 60 * Second.

End GoErr.

(** ** backend/gemini.go: [GeminiClient.GenerateImage] *)

Module Gemini.
Import GoStr Filepath GoErr.

(** The part of a [genai.GenerateContentResponse] the client reads. *)
Record Blob : Type := mkBlob { Data : list ascii }.
Record Part : Type := mkPart { Text : string; InlineData : option Blob }.
Record Content : Type := mkContent { Parts : list Part }.
Record Candidate : Type := mkCandidate { CandContent : option Content }.
Record Response : Type := mkResponse { Candidates : list Candidate }.

(** What the call observes of the world: client construction, the
    upstream answer to the n-th [GenerateContent] call, the clock at the
    time of saving, and the file system. *)
Record World : Type := mkWorld {
  NewClient : option error;
  GenerateContent : Z -> string -> string -> result Response;
  UnixNano : Z;
  MkdirAll : string -> option error;
  WriteFile : string -> list ascii -> option error
}.

(** What the call does to the world, in order. *)
Inductive event : Type :=
| Sleep (d : Z)
| WithTimeout (d : Z)
| CallGenerateContent (attempt : Z) (model prompt : string)
| Cancel
| DoMkdirAll (dir : string)
| DoWriteFile (path : string) (data : list ascii).

(** The loop over [resp.Candidates[0].Content.Parts]: the data of the
    first part with inline data. *)
Fixpoint first_inline (parts : list Part) : list ascii :=
  match parts with
  | [] => []
  | p :: rest =>
      match InlineData p with
      | Some b => Data b
      | None => first_inline rest
      end
  end.

(** Lines 111-125: save the image and return its path. *)
Definition save_image (w : World) (imageData : list ascii)
  : list event * result string :=
  let fileName := "infograph_" +:+ FormatInt (UnixNano w) +:+ ".png" in
  let uploadDir := "./data/uploads" in
  match MkdirAll w uploadDir with
  | Some err =>
      ([DoMkdirAll uploadDir],
       Err (Errorf_w "failed to create upload directory: " err))
  | None =>
      let filePath := JoinPath [uploadDir; fileName] in
      match WriteFile w filePath imageData with
      | Some err =>
          ([DoMkdirAll uploadDir; DoWriteFile filePath imageData],
           Err (Errorf_w "failed to save image: " err))
      | None =>
          ([DoMkdirAll uploadDir; DoWriteFile filePath imageData],
           Ok filePath)
      end
  end.

(** One attempt up to its [cancel()]: the image bytes, or the error the
    loop records in [lastErr] before [continue]. *)
Definition attempt_once (w : World) (attempt : Z) (model prompt : string)
  : list event * result (list ascii) :=
  let pre := if 1 <? attempt then [Sleep (2 * Second)] else [] in
  let call := [WithTimeout (300 * Second);
               CallGenerateContent attempt model prompt; Cancel] in
  (pre ++ call,
   match GenerateContent w attempt model prompt with
   | Err err => Err err
   | Ok resp =>
       match Candidates resp with
       | [] => Err (errorString "no candidates generated")
       | c0 :: _ =>
           match CandContent c0 with
           | None => Err (errorString "no candidates generated")
           | Some content =>
               let imageData := first_inline (Parts content) in
               if (length imageData =? 0)%nat
               then Err (errorString "no image data in response")
               else Ok imageData
           end
       end
   end)%list.

(** [for attempt := 1; attempt <= 3; attempt++ { ... }] followed by the
    final [return]: [attempts] are the values the counter still takes. *)
Fixpoint attempt_loop (w : World) (model prompt : string)
  (attempts : list Z) (lastErr : option error)
  : list event * result string :=
  match attempts with
  | [] =>
      ([], Err match lastErr with
               | Some e => Errorf_w "failed to generate image after 3 attempts: " e
               | None => errorString
                   "failed to generate image after 3 attempts: %!w(<nil>)"
               end)
  | attempt :: rest =>
      let '(ev, r) := attempt_once w attempt model prompt in
      match r with
      | Err e =>
          let '(ev', r') := attempt_loop w model prompt rest (Some e) in
          ((ev ++ ev')%list, r')
      | Ok imageData =>
          let '(ev', r') := save_image w imageData in
          ((ev ++ ev')%list, r')
      end
  end.

(** [func (n *GeminiClient) GenerateImage(ctx, model, prompt string)
    (string, error)] *)
Definition GenerateImage (googleAPIKey : string) (w : World)
  (model prompt : string) : list event * result string :=
  if String.eqb googleAPIKey "" then
    ([], Err (errorString "google_api_key is not set"))
  else
    match NewClient w with
    | Some err => ([], Err (Errorf_w "failed to create genai client: " err))
    | None => attempt_loop w model prompt [1; 2; 3] None
    end.

(** Vocabulary for the retry policy: what the upstream gave at an attempt,
    the events of the first attempt and of a retry, and the number of
    upstream calls in a trace. *)
Definition outcome (w : World) (attempt : Z) (model prompt : string)
  : result (list ascii) :=
  snd (attempt_once w attempt model prompt).

Definition first_attempt (model prompt : string) : list event :=
  [WithTimeout (300 * Second); CallGenerateContent 1 model prompt; Cancel].

Definition retry (attempt : Z) (model prompt : string) : list event :=
  [Sleep (2 * Second); WithTimeout (300 * Second);
   CallGenerateContent attempt model prompt; Cancel].

Definition is_call (e : event) : bool :=
  match e with
  | CallGenerateContent _ _ _ => true
  | _ => false
  end.

Definition attempts_made (tr : list event) : nat :=
  length (List.filter is_call tr).

(** The trace [before] followed by the saving of the image. *)
Definition then_save (w : World) (before : list event) (imageData : list ascii)
  : list event * result string :=
  ((before ++ fst (save_image w imageData))%list, snd (save_image w imageData)).

Definition saved_path (w : World) : string :=
  JoinPath ["./data/uploads"; "infograph_" +:+ FormatInt (UnixNano w) +:+ ".png"].

(** Sample worlds: the first call fails in transport and the second returns
    an inline image; and an upstream that is down. *)
Definition sample_image : list ascii := ["P"; "N"; "G"]%char.

Definition flaky_world : World :=
  {| NewClient := None;
     GenerateContent := fun attempt _ _ =>
       if attempt =? 1 then Err (errorString "connection reset")
       else Ok (mkResponse
                  [mkCandidate
                     (Some (mkContent [mkPart "" (Some (mkBlob sample_image))]))]);
     UnixNano := 1700000000000000000;
     MkdirAll := fun _ => None;
     WriteFile := fun _ _ => None |}.

Definition down_world : World :=
  {| NewClient := None;
     GenerateContent := fun attempt _ _ =>
       Err (errorString ("timeout " +:+ FormatInt attempt));
     UnixNano := 1700000000000000000;
     MkdirAll := fun _ => None;
     WriteFile := fun _ _ => None |}.

End Gemini.

(** ** The GLM and Z-Image clients: [GenerateImage] *)

Module HTTPImage.
Import GoStr Filepath GoErr.

(** The decoded JSON answers, reduced to the fields the clients read. *)
Record GLMResult : Type := mkGLMResult {
  GLMData : list string;           (* data[i].url *)
  GLMErrorCode : string;           (* error.code *)
  GLMErrorMessage : string         (* error.message *)
}.

Record ZResult : Type := mkZResult {
  ZResults : list string;          (* output.results[i].url *)
  ZCode : string;
  ZMessage : string
}.

Record Download : Type := mkDownload {
  StatusCode : Z;
  Body : result (list ascii)       (* io.ReadAll(downloadResp.Body) *)
}.

Record World : Type := mkWorld {
  SignToken : string -> string -> result string;
  NewRequest : string -> string -> option error;
  Post : string -> string -> string -> string -> result string;
  DecodeGLM : string -> result GLMResult;
  DecodeZ : string -> result ZResult;
  Get : string -> result Download;
  UnixNano : Z;
  MkdirAll : string -> option error;
  WriteFile : string -> list ascii -> option error
}.

Inductive event : Type :=
| DoPost (url auth model prompt : string)
| DoGet (url : string)
| DoMkdirAll (dir : string)
| DoWriteFile (path : string) (data : list ascii).

(** [func (g *GLMImageClient) generateToken() (string, error)] *)
Definition generateToken (w : World) (apiKey : string) : result string :=
  match Split apiKey "." with
  | [apiID; apiSecret] =>
      match SignToken w apiID apiSecret with
      | Err err => Err (Errorf_w "failed to sign token: " err)
      | Ok tokenString => Ok tokenString
      end
  | _ => Err (errorString "invalid API key format, expected id.secret")
  end.

(** The download of the returned URL, shared text of both clients
    (GLM lines 121-140, Z-Image lines 115-134). *)
Definition download_image (w : World) (imageURL : string)
  : list event * result (list ascii) :=
  match NewRequest w "GET" imageURL with
  | Some err => ([], Err (Errorf_w "failed to create download request: " err))
  | None =>
      ([DoGet imageURL],
       match Get w imageURL with
       | Err err => Err (Errorf_w "failed to download image: " err)
       | Ok resp =>
           match Body resp with
           | Err err => Err (Errorf_w "failed to read image data: " err)
           | Ok imageData =>
               if negb (StatusCode resp =? 200)
               then Err (errorString
                           ("failed to download image, status: "
                              +:+ FormatInt (StatusCode resp)))
               else Ok imageData
           end
       end)
  end.

(** "Save the image to user-specific directory", the same text in both
    clients (GLM lines 144-164, Z-Image lines 138-158). *)
Definition save_user_image (w : World) (userID : string)
  (imageData : list ascii) : list event * result string :=
  let fileName := "infograph_" +:+ FormatInt (UnixNano w) +:+ ".png" in
  let uploadDir :=
    if negb (String.eqb userID "")
    then JoinPath ["./data/uploads"; userID]
    else "./data/uploads" in
  match MkdirAll w uploadDir with
  | Some err =>
      ([DoMkdirAll uploadDir],
       Err (Errorf_w "failed to create upload directory: " err))
  | None =>
      let filePath := JoinPath [uploadDir; fileName] in
      match WriteFile w filePath imageData with
      | Some err =>
          ([DoMkdirAll uploadDir; DoWriteFile filePath imageData],
           Err (Errorf_w "failed to save image: " err))
      | None =>
          ([DoMkdirAll uploadDir; DoWriteFile filePath imageData],
           Ok filePath)
      end
  end.

Definition then_save (w : World) (userID : string)
  (d : list event * result (list ascii)) (before : list event)
  : list event * result string :=
  match d with
  | (ev, Err err) => ((before ++ ev)%list, Err err)
  | (ev, Ok imageData) =>
      let '(ev', r) := save_user_image w userID imageData in
      ((before ++ ev ++ ev')%list, r)
  end.

Definition glm_baseURL : string :=
  "https://open.bigmodel.cn/api/paas/v4/images/generations".

(** [func (g *GLMImageClient) GenerateImage(ctx, model, prompt string,
    userID string) (string, error)] *)
Definition GLM_GenerateImage (apiKey : string) (w : World)
  (model prompt userID : string) : list event * result string :=
  if String.eqb apiKey "" then
    ([], Err (errorString "glm_api_key is not set"))
  else
    match generateToken w apiKey with
    | Err err => ([], Err (Errorf_w "failed to generate token: " err))
    | Ok token =>
        match NewRequest w "POST" glm_baseURL with
        | Some err => ([], Err (Errorf_w "failed to create request: " err))
        | None =>
            let auth := "Bearer " +:+ token in
            let sent := [DoPost glm_baseURL auth model prompt] in
            match Post w glm_baseURL auth model prompt with
            | Err err => (sent, Err (Errorf_w "failed to send request: " err))
            | Ok body =>
                match DecodeGLM w body with
                | Err err =>
                    (sent, Err (Errorf_w "failed to decode response: " err))
                | Ok result =>
                    if negb (String.eqb (GLMErrorCode result) "") then
                      (sent, Err (errorString
                         ("GLM API error (" +:+ GLMErrorCode result +:+ "): "
                            +:+ GLMErrorMessage result)))
                    else
                      match GLMData result with
                      | [] => (sent, Err (errorString "no image URL in response"))
                      | imageURL :: _ =>
                          if String.eqb imageURL "" then
                            (sent, Err (errorString "no image URL in response"))
                          else
                            then_save w userID (download_image w imageURL) sent
                      end
                end
            end
        end
    end.

Definition zimage_baseURL : string :=
  "https://dashscope.aliyuncs.com/api/v1/services/aigc/image-generation/generation".

(** [func (z *ZImageClient) GenerateImage(ctx, model, prompt string,
    userID string) (string, error)] *)
Definition ZImage_GenerateImage (apiKey : string) (w : World)
  (model prompt userID : string) : list event * result string :=
  if String.eqb apiKey "" then
    ([], Err (errorString "zimage_api_key is not set"))
  else
    match NewRequest w "POST" zimage_baseURL with
    | Some err => ([], Err (Errorf_w "failed to create request: " err))
    | None =>
        let auth := "Bearer " +:+ apiKey in
        let sent := [DoPost zimage_baseURL auth model prompt] in
        match Post w zimage_baseURL auth model prompt with
        | Err err => (sent, Err (Errorf_w "failed to send request: " err))
        | Ok body =>
            match DecodeZ w body with
            | Err err =>
                (sent, Err (Errorf_w "failed to decode response: " err))
            | Ok result =>
                if negb (String.eqb (ZCode result) "")
                   && negb (String.eqb (ZCode result) "200") then
                  (sent, Err (errorString
                     ("Z-Image API error (" +:+ ZCode result +:+ "): "
                        +:+ ZMessage result)))
                else
                  match ZResults result with
                  | [] => (sent, Err (errorString "no image URL in response"))
                  | imageURL :: _ =>
                      if String.eqb imageURL "" then
                        (sent, Err (errorString "no image URL in response"))
                      else
                        then_save w userID (download_image w imageURL) sent
                  end
            end
        end
    end.

(** A sample world in which every upstream step succeeds. *)
Definition served : World :=
  {| SignToken := fun apiID _ => Ok ("jwt-" +:+ apiID);
     NewRequest := fun _ _ => None;
     Post := fun _ _ _ _ => Ok "body";
     DecodeGLM := fun _ => Ok (mkGLMResult ["https://cdn.example/i.png"] "" "");
     DecodeZ := fun _ => Ok (mkZResult ["https://cdn.example/i.png"] "" "");
     Get := fun _ => Ok (mkDownload 200 (Ok ["P"; "N"; "G"]%char));
     UnixNano := 1700000000000000000;
     MkdirAll := fun _ => None;
     WriteFile := fun _ _ => None |}.

End HTTPImage.

(** ** Shared data types

    The struct declarations (types.go, config.go) are not among the sources
    at hand; the records below carry the fields the code reads and writes,
    under the names it uses. *)

Module Types.

(** A value stored in a [map[string]interface{}] or [map[string]any]. *)
Inductive any : Type :=
| AString (s : string)
| AInt (n : Z)
| AStrings (l : list string).

(** [m[k].(string)]: the value and [ok]. *)
Definition as_string (v : option any) : option string :=
  match v with
  | Some (AString s) => Some s
  | _ => None
  end.

Record Config : Type := mkConfig {
  MaxContextLength : Z;
  MaxSources : Z;
  AllowMultipleNotesOfSameType : bool;
  ImageProvider : string;
  GLMImageModel : string;
  ZImageModel : string;
  GeminiImageModel : string
}.

Record Source : Type := mkSource {
  SourceID : string;
  SourceNotebookID : string;
  SourceName : string;
  SourceType : string;
  SourceContent : string
}.

Record SourceSummary : Type := mkSourceSummary {
  SummaryID : string;
  SummaryName : string;
  SummaryType : string
}.

Record ChatMessage : Type := mkChatMessage {
  Role : string;
  MsgContent : string
}.

(** [schema.Document] of langchaingo. *)
Record Document : Type := mkDocument {
  PageContent : string;
  DocMetadata : gmap string any
}.

Record ChatResponse : Type := mkChatResponse {
  Message : string;
  Sources : list SourceSummary;
  SessionID : string;
  ChatMetadata : gmap string any
}.

Record TransformationRequest : Type := mkTransformationRequest {
  ReqType : string;
  ReqLength : string;
  ReqFormat : string;
  ReqPrompt : string;
  ReqSourceIDs : list string
}.

Record TransformationResponse : Type := mkTransformationResponse {
  RespType : string;
  RespContent : string;
  RespSources : list SourceSummary;
  RespCreatedAt : Z;
  RespMetadata : gmap string any
}.

Record Note : Type := mkNote {
  NoteID : string;
  NoteNotebookID : string;
  NoteTitle : string;
  NoteContent : string;
  NoteType : string;
  NoteSourceIDs : list string;
  NoteMetadata : gmap string any
}.

End Types.

(** ** backend/agent.go: prompt assembly, chat, the DeepInsight step *)

Module Agent.
Import GoStr GoErr Types.

(** *** [callDeepInsight] *)

Inductive context : Type :=
| Background               (* context.Background() *)
| WithTimeout (d : Z).     (* context.WithTimeout(context.Background(), d) *)

(** One [execCommandContext(ctx, name, args...)]. *)
Record command : Type := mkCommand {
  CmdCtx : context;
  CmdName : string;
  CmdArgs : list string
}.

(** [escapeShellArg]; the replacement text is the five bytes
    quote, double quote, quote, double quote, quote. *)
Definition quote_escape : string :=
  String "'" (String "034" (String "'" (String "034" (String "'" EmptyString)))).

Definition escapeShellArg (arg : string) : string :=
  "'" +:+ ReplaceAllByte arg "'" quote_escape +:+ "'".

(** The world of [callDeepInsight]: the clock and the outcome
    [(output, err)] of each command. *)
Record Shell : Type := mkShell {
  Unix : Z;
  CombinedOutput : command -> string * option error
}.

(** [func (a *Agent) callDeepInsight(ctx, summary string) (string, error)]:
    the commands executed, in order, and the result. *)
Definition callDeepInsight (sh : Shell) (summary : string)
  : list command * result string :=
  let tmpFile := "./tmp/deepinsight_report_" +:+ FormatInt (Unix sh) +:+ ".md" in
  let ctx := WithTimeout (10 * Minute) in
  let run1 := mkCommand ctx "./DeepInsight"
                ["-o"; tmpFile; escapeShellArg summary] in
  match CombinedOutput sh run1 with
  | (output, Some err) =>
      ([run1],
       Err (wrapError ("DeepInsight command failed: " +:+ Error err
                         +:+ ", output: " +:+ output) err))
  | (output, None) =>
      let run2 := mkCommand ctx "/bin/cat" [tmpFile] in
      match CombinedOutput sh run2 with
      | (_, Some err) =>
          ([run1; run2],
           Err (Errorf_w "failed to read DeepInsight report: " err))
      | (reportContent, None) =>
          let run3 := mkCommand Background "/bin/rm" ["-f"; tmpFile] in
          ([run1; run2; run3], Ok reportContent)
      end
  end.

(** The command that removes the temporary report file. *)
Definition removes (tmpFile : string) (c : command) : bool :=
  String.eqb (CmdName c) "/bin/rm"
  && existsb (String.eqb tmpFile) (CmdArgs c).

Definition tmpFile_of (sh : Shell) : string :=
  "./tmp/deepinsight_report_" +:+ FormatInt (Unix sh) +:+ ".md".

(** Sample shells: the tool exits with an error after it has started its
    report; the tool succeeds and the report cannot be read back; both
    commands succeed. *)
Definition tool_fails : Shell :=
  {| Unix := 1700000000;
     CombinedOutput := fun c =>
       if String.eqb (CmdName c) "./DeepInsight"
       then ("fatal: model quota exceeded", Some (errorString "exit status 1"))
       else ("", None) |}.

Definition read_fails : Shell :=
  {| Unix := 1700000000;
     CombinedOutput := fun c =>
       if String.eqb (CmdName c) "/bin/cat"
       then ("", Some (errorString "signal: killed"))
       else ("", None) |}.

Definition tool_works : Shell :=
  {| Unix := 1700000000;
     CombinedOutput := fun c =>
       if String.eqb (CmdName c) "/bin/cat" then ("# Report", None)
       else ("", None) |}.

(** *** [GenerateTransformation]: the source context *)

(** The body of [for i, src := range sources], appending to the
    [strings.Builder] contents [sb].  [None] is a slice out of range. *)
Definition write_source (cfg : Config) (i : Z) (src : Source) (sb : string)
  : option string :=
  let sb := sb +:+ (nl +:+ "## Source " +:+ FormatInt (i + 1) +:+ ": "
                      +:+ SourceName src +:+ nl) in
  let limit := MaxContextLength cfg in
  let limit := if limit <=? 0 then 100000 else limit in
  sb ← (if negb (String.eqb (SourceContent src) "") then
          if len (SourceContent src) <=? limit then
            Some (sb +:+ SourceContent src)
          else
            head_ ← slice (SourceContent src) 0 limit;
            let sb := sb +:+ head_ in
            Some (sb +:+ (nl +:+ "... [Content truncated, total length: "
                            +:+ FormatInt (len (SourceContent src)) +:+ "]"))
        else
          Some (sb +:+ ("[Source content: " +:+ SourceName src +:+ ", type: "
                          +:+ SourceType src +:+ "]")));
  Some (sb +:+ nl).

Fixpoint write_sources (cfg : Config) (i : Z) (sources : list Source)
  (sb : string) : option string :=
  match sources with
  | [] => Some sb
  | src :: rest =>
      sb' ← write_source cfg i src sb;
      write_sources cfg (i + 1) rest sb'
  end.

(** [sourceContext.String()] after the loop. *)
Definition sourceContext (cfg : Config) (sources : list Source)
  : option string :=
  write_sources cfg 0 sources "".

(** The section of one source as the specification words it: a label,
    then the content (whole, or its first [limit] bytes and the marker
    with the original length), or the placeholder for empty content. *)
Definition effective_limit (cfg : Config) : Z :=
  if MaxContextLength cfg <=? 0 then 100000 else MaxContextLength cfg.

Definition truncation_marker (total : Z) : string :=
  nl +:+ "... [Content truncated, total length: " +:+ FormatInt total +:+ "]".

Definition placeholder (src : Source) : string :=
  "[Source content: " +:+ SourceName src +:+ ", type: " +:+ SourceType src +:+ "]".

Definition section_label (i : Z) (src : Source) : string :=
  nl +:+ "## Source " +:+ FormatInt (i + 1) +:+ ": " +:+ SourceName src +:+ nl.

Definition spec_section_body (cfg : Config) (src : Source) : string :=
  let content := SourceContent src in
  if String.eqb content "" then placeholder src
  else if effective_limit cfg <? len content
       then take (Z.to_nat (effective_limit cfg)) content
              +:+ truncation_marker (len content)
       else content.

Definition spec_section (cfg : Config) (i : Z) (src : Source) : string :=
  section_label i src +:+ spec_section_body cfg src +:+ nl.

Fixpoint spec_sections (cfg : Config) (i : Z) (sources : list Source)
  : string :=
  match sources with
  | [] => ""
  | src :: rest => spec_section cfg i src +:+ spec_sections cfg (i + 1) rest
  end.

(** What [GenerateTransformation] calls: the template of the request type
    with its five variables filled in ([getTransformationPrompt] and
    [prompts.Format]), the provider's two text operations, the shell of
    the DeepInsight step and the clock. *)
Record TransformEnv : Type := mkTransformEnv {
  FormatPrompt : string -> string -> string -> string -> string
                 -> result string;
  GenerateTextWithModel : string -> string -> result string;
  GenerateText : string -> result string;
  DeepInsightShell : Shell;
  Now : Z
}.

(** The loop that builds [sourceSummaries] from the sources. *)
Definition summaries_of (sources : list Source) : list SourceSummary :=
  map (fun src => mkSourceSummary (SourceID src) (SourceName src)
                    (SourceType src)) sources.

(** [func (a *Agent) GenerateTransformation(ctx, req, sources)]: [None] is
    a run-time panic, otherwise the commands executed and the result. *)
Definition GenerateTransformation (env : TransformEnv) (cfg : Config)
  (req : TransformationRequest) (sources : list Source)
  : option (list command * result TransformationResponse) :=
  sources_text ← sourceContext cfg sources;
  let respond (response : string) :=
    Ok (mkTransformationResponse (ReqType req) response
          (summaries_of sources) (Now env)
          {[ "length" := AString (ReqLength req);
             "format" := AString (ReqFormat req) ]}) in
  Some
    match FormatPrompt env sources_text (ReqType req) (ReqLength req)
            (ReqFormat req) (ReqPrompt req) with
    | Err err => ([], Err (Errorf_w "failed to format prompt: " err))
    | Ok promptValue =>
        if String.eqb (ReqType req) "ppt" then
          match GenerateTextWithModel env promptValue
                  "gemini-3-flash-preview" with
          | Err genErr =>
              ([], Err (Errorf_w "failed to generate response: " genErr))
          | Ok response => ([], respond response)
          end
        else if String.eqb (ReqType req) "insight" then
          match GenerateText env promptValue with
          | Err err => ([], Err (Errorf_w "failed to generate summary: " err))
          | Ok summary =>
              match callDeepInsight (DeepInsightShell env) summary with
              | (cmds, Err err) =>
                  (cmds, Err (Errorf_w "failed to generate deep insight: " err))
              | (cmds, Ok response) => (cmds, respond response)
              end
          end
        else
          match GenerateText env promptValue with
          | Err genErr =>
              ([], Err (Errorf_w "failed to generate response: " genErr))
          | Ok response => ([], respond response)
          end
    end.

(** A sample configuration with a 5-byte limit and three sources: one over
    the limit, one within it, one without content. *)
Definition tiny_limit : Config := mkConfig 5 3 true "gemini" "" "" "imagen".

Definition three_sources : list Source :=
  [mkSource "s1" "nb" "long.txt" "file" "hello world";
   mkSource "s2" "nb" "short.txt" "file" "hi";
   mkSource "s3" "nb" "scan.pdf" "file" ""].

(** An agent whose model summarises every prompt to the same text and
    whose DeepInsight tool fails. *)
Definition insight_env (sh : Shell) : TransformEnv :=
  {| FormatPrompt := fun sources type _ _ _ => Ok (type +:+ ":" +:+ sources);
     GenerateTextWithModel := fun _ _ => Ok "deck";
     GenerateText := fun _ => Ok "summary";
     DeepInsightShell := sh;
     Now := 0 |}.

Definition insight_request : TransformationRequest :=
  mkTransformationRequest "insight" "medium" "markdown" "" [].

(** *** [Chat] *)

(** What [Chat] calls: the similarity search of the agent's vector store
    (in its current state), the chat template with its three variables
    filled in ([chatSystemPrompt] and [prompts.Format]), and the provider's
    default text generation. *)
Record ChatEnv : Type := mkChatEnv {
  SimilaritySearch : string -> Z -> result (list Document);
  FormatChatPrompt : string -> string -> string -> result string;
  GenerateFromSinglePrompt : string -> result string
}.

(** The loop that writes the retrieved documents. *)
Fixpoint write_docs (i : Z) (docs : list Document) (sb : string) : string :=
  match docs with
  | [] => sb
  | doc :: rest =>
      let sb := sb +:+ ("[来源 " +:+ FormatInt (i + 1) +:+ "] "
                          +:+ PageContent doc +:+ nl) in
      let sb := match as_string (DocMetadata doc !! "source") with
                | Some source => sb +:+ ("来源: " +:+ source +:+ nl +:+ nl)
                | None => sb
                end in
      write_docs (i + 1) rest sb
  end.

(** [contextBuilder.String()] *)
Definition contextBlock (docs : list Document) : string :=
  match docs with
  | [] => ""
  | _ => write_docs 0 docs ("来源中的相关信息：" +:+ nl +:+ nl)
  end.

Definition role_label (msg : ChatMessage) : string :=
  if String.eqb (Role msg) "assistant" then "助手" else "用户".

(** [for i, msg := range history { if i >= 10 { break } ... }] *)
Fixpoint write_history (i : Z) (history : list ChatMessage) (sb : string)
  : string :=
  match history with
  | [] => sb
  | msg :: rest =>
      if 10 <=? i then sb
      else write_history (i + 1) rest
             (sb +:+ (role_label msg +:+ ": " +:+ MsgContent msg +:+ nl))
  end.

(** [historyBuilder.String()] *)
Definition historyBlock (history : list ChatMessage) : string :=
  write_history 0 history "".

(** The history block as the specification words it: the given turns, one
    line each, labelled with the role. *)
Definition turn_line (msg : ChatMessage) : string :=
  role_label msg +:+ ": " +:+ MsgContent msg +:+ nl.

Fixpoint render_turns (turns : list ChatMessage) : string :=
  match turns with
  | [] => ""
  | msg :: rest => turn_line msg +:+ render_turns rest
  end.

(** The last [n] turns of a history. *)
Definition last_turns (n : nat) (history : list ChatMessage)
  : list ChatMessage :=
  skipn (length history - n) history.

(** A sample history of eleven turns, question and answer in turn. *)
Definition eleven_turns : list ChatMessage :=
  [mkChatMessage "user" "q1"; mkChatMessage "assistant" "a1";
   mkChatMessage "user" "q2"; mkChatMessage "assistant" "a2";
   mkChatMessage "user" "q3"; mkChatMessage "assistant" "a3";
   mkChatMessage "user" "q4"; mkChatMessage "assistant" "a4";
   mkChatMessage "user" "q5"; mkChatMessage "assistant" "a5";
   mkChatMessage "user" "q6"].

(** The loop that builds [sourceSummaries], with its [sourceMap]. *)
Fixpoint summarize (docs : list Document) (sourceMap : gmap string bool)
  (sourceSummaries : list SourceSummary) : list SourceSummary :=
  match docs with
  | [] => sourceSummaries
  | doc :: rest =>
      match as_string (DocMetadata doc !! "source") with
      | Some source =>
          if negb (default false (sourceMap !! source)) then
            summarize rest (<[source := true]> sourceMap)
              (sourceSummaries ++ [mkSourceSummary source source "file"])%list
          else summarize rest sourceMap sourceSummaries
      | None => summarize rest sourceMap sourceSummaries
      end
  end.

(** [func (a *Agent) Chat(ctx, notebookID, message string,
    history []ChatMessage)], returning a [ChatResponse] or an error. *)
Definition Chat (env : ChatEnv) (cfg : Config) (notebookID message : string)
  (history : list ChatMessage) : result ChatResponse :=
  match SimilaritySearch env message (MaxSources cfg) with
  | Err err => Err (Errorf_w "failed to search documents: " err)
  | Ok docs =>
      match FormatChatPrompt env (historyBlock history) (contextBlock docs)
              message with
      | Err err => Err (Errorf_w "failed to format prompt: " err)
      | Ok promptValue =>
          match GenerateFromSinglePrompt env promptValue with
          | Err err => Err (Errorf_w "failed to generate response: " err)
          | Ok response =>
              Ok (mkChatResponse response (summarize docs ∅ []) notebookID
                    {[ "docs_retrieved" := AInt (Z.of_nat (length docs)) ]})
          end
      end
  end.

(** The documents whose text and source name [Chat] writes into the
    prompt context. *)
Definition retrieved (env : ChatEnv) (cfg : Config) (message : string)
  : list Document :=
  match SimilaritySearch env message (MaxSources cfg) with
  | Ok docs => docs
  | Err _ => []
  end.

End Agent.

(** ** The vector index *)

Module VectorIndex.
Import GoStr GoErr Types.

(** Modelled from the spec: the vector store ([VectorStore] with
    [IngestText] and [SimilaritySearch]) is not among the sources at hand.
    Section 3 of the specification gives the chunk its tags, section 4.1
    the contracts: [Ingest] inserts every chunk of the text tagged with the
    notebook and the source name and never deduplicates; [Search] returns
    at most [k] chunks by descending similarity.  The chunker and the
    similarity are left open there and are parameters here.  The call
    sites fix the signatures: [IngestText(ctx, notebookID, sourceName,
    content)] and [SimilaritySearch(ctx, query, numDocs)]. *)
Record Chunk : Type := mkChunk {
  ChunkNotebookID : string;
  ChunkSourceName : string;
  ChunkText : string;
  ChunkIndex : Z
}.

Section WithModel.

Variable chunker : string -> list string.
Variable score : string -> string -> Z.

Fixpoint tag_chunks (notebookID sourceName : string) (i : Z)
  (texts : list string) : list Chunk :=
  match texts with
  | [] => []
  | t :: rest =>
      mkChunk notebookID sourceName t i
        :: tag_chunks notebookID sourceName (i + 1) rest
  end.

(** Modelled from the spec: [Ingest] of section 4.1. *)
Definition IngestText (vs : list Chunk) (notebookID sourceName content : string)
  : list Chunk * result Z :=
  let chunks := tag_chunks notebookID sourceName 0 (chunker content) in
  ((vs ++ chunks)%list, Ok (Z.of_nat (length chunks))).

(** Descending by score, earlier chunks first among equals. *)
Fixpoint insert_ranked (query : string) (c : Chunk) (ranked : list Chunk)
  : list Chunk :=
  match ranked with
  | [] => [c]
  | d :: rest =>
      if score query (ChunkText d) <=? score query (ChunkText c)
      then c :: d :: rest
      else d :: insert_ranked query c rest
  end.

Definition ranked (query : string) (chunks : list Chunk) : list Chunk :=
  fold_right (insert_ranked query) [] chunks.

Definition to_document (c : Chunk) : Document :=
  mkDocument (ChunkText c)
    {[ "source" := AString (ChunkSourceName c);
       "notebook_id" := AString (ChunkNotebookID c) ]}.

(** Modelled from the spec: [Search(notebookID, query, k)] of section
    4.1, scoped to the notebook. *)
Definition Search (vs : list Chunk) (notebookID query : string) (k : Z)
  : list Document :=
  map to_document
    (firstn (Z.to_nat k)
       (ranked query
          (List.filter (fun c => String.eqb (ChunkNotebookID c) notebookID) vs))).

(** Modelled from the spec: the search as [Agent.Chat] calls it,
    [SimilaritySearch(ctx, query, numDocs)].  The call carries no
    notebook, so the ranking is over the whole index. *)
Definition SimilaritySearch (vs : list Chunk) (query : string) (numDocs : Z)
  : result (list Document) :=
  Ok (map to_document (firstn (Z.to_nat numDocs) (ranked query vs))).

End WithModel.

(** The notebook a retrieved document is tagged with. *)
Definition notebook_of (d : Document) : option string :=
  as_string (DocMetadata d !! "notebook_id").

(** A chunker and a similarity to run examples with: one chunk per text,
    and 1 for a chunk that contains the query. *)
Definition whole_text (content : string) : list string := [content].
Definition contains_query (query text : string) : Z :=
  if Contains text query then 1 else 0.

End VectorIndex.

(** ** A chat over an index that holds two notebooks *)

Module ChatSamples.
Import GoStr GoErr Types Agent VectorIndex.

(** The index after the loader ingested notebook nb-A (one source) and
    notebook nb-B (one source). *)
Definition two_notebooks : list Chunk :=
  let vs := fst (IngestText whole_text [] "nb-A" "a.txt" "alpha: plans of team A") in
  fst (IngestText whole_text vs "nb-B" "b.txt" "beta: salaries of team B").

(** An agent on that index; the template joins its three variables and the
    model answers with a fixed text. *)
Definition agent_on (vs : list Chunk) : ChatEnv :=
  {| Agent.SimilaritySearch := VectorIndex.SimilaritySearch contains_query vs;
     FormatChatPrompt := fun history context question =>
       Ok (history +:+ context +:+ question);
     GenerateFromSinglePrompt := fun _ => Ok "answer" |}.

Definition chat_config : Config := mkConfig 100000 5 true "gemini" "" "" "imagen".

End ChatSamples.

(** ** The HTTP server: the on-demand index loader and the transformation
       handler *)

Module Server.
Import GoStr Filepath GoErr Types SlideParser.

(** What the server does to its collaborators, in order. *)
Inductive event : Type :=
| CallListSources (notebookID : string)
| CallIngestText (notebookID sourceName content : string)
| CallListNotes (notebookID : string)
| CallGenerateImage (model prompt userID : string)
| CallCreateNote (note : Note)
| CallLogActivity (userID action resourceID : string)
| CallCreateSource (src : Source)
| CallUpdateSourceChunkCount (sourceID : string) (chunkCount : Z).

(** The body of a JSON reply. *)
Inductive body : Type :=
| ErrorResponse (msg : string)
| NoteBody (note : Note).

Record reply : Type := mkReply { Status : Z; ReplyBody : body }.

(** The answers of the collaborators.  The persistent store may answer
    differently over time: [ListSources] is indexed by the number of store
    listings made so far.  [Transform] is [s.agent.GenerateTransformation]
    (see [Agent.GenerateTransformation]).  [GenerateImage] is the
    operation of the configured provider, called with the user id as the
    fourth argument and indexed by the number of image calls of the
    request. *)
Record World : Type := mkWorld {
  ListSources : nat -> string -> result (list Source);
  BindJSON : result TransformationRequest;
  ListNotes : string -> result (list Note);
  Transform : TransformationRequest -> list Source
              -> result TransformationResponse;
  GenerateImage : nat -> string -> string -> string -> result string;
  CreateNote : Note -> result string;
  CreateSource : Source -> result string
}.

Section WithVectorStore.

(** The vector store and its [IngestText] are not among the sources at
    hand; the server is stated for any store type and any ingestion. *)
Variable VectorStore : Type.
Variable IngestText :
  VectorStore -> string -> string -> string -> VectorStore * result Z.
Variable ToLower : string -> string.

(** The mutable fields of [Server], and the count of store listings. *)
Record state : Type := mkState {
  loadedNotebooks : gmap string bool;
  vectorStore : VectorStore;
  listings : nat
}.

(** The loop of the loader: sources with content are ingested, an
    ingestion error is logged and the loop goes on. *)
Fixpoint load_sources (notebookID : string) (sources : list Source)
  (vs : VectorStore) : VectorStore * list event :=
  match sources with
  | [] => (vs, [])
  | src :: rest =>
      if negb (String.eqb (SourceContent src) "") then
        let '(vs', _) :=
          IngestText vs notebookID (SourceName src) (SourceContent src) in
        let '(vs'', ev) := load_sources notebookID rest vs' in
        (vs'', CallIngestText notebookID (SourceName src) (SourceContent src)
                 :: ev)
      else load_sources notebookID rest vs
  end.

(** [func (s *Server) loadNotebookVectorIndex(ctx, notebookID string)
    error].  The whole body runs under [s.vectorMutex], so invocations
    never interleave: each is one atomic step on the state. *)
Definition loadNotebookVectorIndex (w : World) (s : state)
  (notebookID : string) : state * list event * option error :=
  if default false (loadedNotebooks s !! notebookID) then (s, [], None)
  else
    match ListSources w (listings s) notebookID with
    | Err err =>
        (mkState (loadedNotebooks s) (vectorStore s) (S (listings s)),
         [CallListSources notebookID],
         Some (Errorf_w "failed to list sources: " err))
    | Ok sources =>
        let '(vs, ev) := load_sources notebookID sources (vectorStore s) in
        (mkState (<[notebookID := true]> (loadedNotebooks s)) vs
           (S (listings s)),
         CallListSources notebookID :: ev,
         None)
    end.

(** [n] invocations of the loader for one notebook, one after the
    other. *)
Fixpoint load_repeatedly (w : World) (n : nat) (s : state)
  (notebookID : string) : state * list event :=
  match n with
  | O => (s, [])
  | S n' =>
      let '(s', ev, _) := loadNotebookVectorIndex w s notebookID in
      let '(s'', ev') := load_repeatedly w n' s' notebookID in
      (s'', (ev ++ ev')%list)
  end.

Definition is_ingest (e : event) : bool :=
  match e with
  | CallIngestText _ _ _ => true
  | _ => false
  end.

(** The ingestion calls one load of [sources] is expected to make: one
    per source with content, in order. *)
Definition ingests_of (notebookID : string) (sources : list Source)
  : list event :=
  map (fun src => CallIngestText notebookID (SourceName src)
                    (SourceContent src))
      (List.filter (fun src => negb (String.eqb (SourceContent src) ""))
                   sources).

(** [func getTitleForType(t string) string] *)
Definition getTitleForType (t : string) : string :=
  if String.eqb t "summary" then "摘要"
  else if String.eqb t "faq" then "常见问题解答"
  else if String.eqb t "study_guide" then "学习指南"
  else if String.eqb t "outline" then "大纲"
  else if String.eqb t "podcast" then "播客脚本"
  else if String.eqb t "timeline" then "时间线"
  else if String.eqb t "glossary" then "术语表"
  else if String.eqb t "quiz" then "测验"
  else if String.eqb t "infograph" then "信息图"
  else if String.eqb t "ppt" then "幻灯片"
  else if String.eqb t "mindmap" then "思维导图"
  else if String.eqb t "insight" then "洞察报告"
  else if String.eqb t "data_table" then "数据表格"
  else if String.eqb t "data_chart" then "数据图表"
  else "笔记".

(** [func (s *Server) getImageModelForProvider() string] *)
Definition getImageModelForProvider (cfg : Config) : string :=
  if String.eqb (ImageProvider cfg) "glm" then GLMImageModel cfg
  else if String.eqb (ImageProvider cfg) "zimage" then ZImageModel cfg
  else GeminiImageModel cfg.

Definition chinese_note : string :=
  "**注意：无论来源是什么语言，请务必使用中文**".

Definition slide_prompt (style0 : string) (slide : Slide) : string :=
  "Style: " +:+ style0 +:+ nl +:+ nl +:+ "Slide Content: " +:+ Content slide
    +:+ (nl +:+ nl +:+ chinese_note +:+ nl).

(** [for i, slide := range slides { ... }] of the ppt branch: [n] counts
    the image calls of the request, [style0] is [slides[0].Style]. *)
Fixpoint slide_images (w : World) (imageModel userID style0 : string)
  (slides : list Slide) (n : nat) (slideURLs : list string)
  : list event * list string :=
  match slides with
  | [] => ([], slideURLs)
  | slide :: rest =>
      let prompt := slide_prompt style0 slide in
      let slideURLs' :=
        match GenerateImage w n imageModel prompt userID with
        | Err _ => slideURLs
        | Ok imagePath =>
            (slideURLs ++ ["/api/files/" +:+ Base imagePath])%list
        end in
      let '(ev, urls) :=
        slide_images w imageModel userID style0 rest (S n) slideURLs' in
      (CallGenerateImage imageModel prompt userID :: ev, urls)
  end.

Definition over_limit_message : string :=
  "PPT页数超过20页上限，已停止生成图片".

(** Lines 978-992: the infograph branch. *)
Definition infograph_step (w : World) (cfg : Config) (userID : string)
  (req : TransformationRequest) (response : TransformationResponse)
  (metadata : gmap string any) : list event * gmap string any :=
  if String.eqb (ReqType req) "infograph" then
    let prompt := RespContent response +:+ nl +:+ nl +:+ chinese_note in
    let imageModel := getImageModelForProvider cfg in
    ([CallGenerateImage imageModel prompt userID],
     match GenerateImage w 0 imageModel prompt userID with
     | Err err => <["image_error" := AString (Error err)]> metadata
     | Ok imagePath =>
         <["image_url" := AString ("/api/files/" +:+ Base imagePath)]> metadata
     end)
  else ([], metadata).

(** Lines 994-1019: the ppt branch.  [None] is a run-time panic of the
    slide parser. *)
Definition ppt_step (w : World) (cfg : Config) (userID : string)
  (req : TransformationRequest) (response : TransformationResponse)
  (metadata : gmap string any) : option (list event * gmap string any) :=
  if String.eqb (ReqType req) "ppt" then
    slides ← ParsePPTSlides ToLower (RespContent response);
    if 10 <? Z.of_nat (length slides) then
      Some ([], <["image_error" := AString over_limit_message]> metadata)
    else
      let style0 := match slides with
                    | s0 :: _ => Style s0
                    | [] => ""
                    end in
      let '(ev, slideURLs) :=
        slide_images w (getImageModelForProvider cfg) userID style0
          slides 0 [] in
      Some (ev, <["slides" := AStrings slideURLs]> metadata)
  else Some ([], metadata).

(** Lines 1021-1031: the content of the note to save. *)
Definition note_content (req : TransformationRequest)
  (response : TransformationResponse) (metadata : gmap string any)
  : string :=
  if String.eqb (ReqType req) "infograph" then
    match metadata !! "image_url" with
    | Some _ => ""
    | None => RespContent response
    end
  else RespContent response.

(** Lines 1062-1085: an insight report becomes a source of its own. *)
Definition insight_step (w : World) (s : state) (notebookID : string)
  (req : TransformationRequest) (response : TransformationResponse)
  : state * list event :=
  if String.eqb (ReqType req) "insight" then
    let insightSource :=
      mkSource "" notebookID "洞察报告" "insight" (RespContent response) in
    match CreateSource w insightSource with
    | Err _ => (s, [CallCreateSource insightSource])
    | Ok id =>
        let '(vs, r) := IngestText (vectorStore s) notebookID "洞察报告"
                          (RespContent response) in
        (mkState (loadedNotebooks s) vs (listings s),
         [CallCreateSource insightSource;
          CallIngestText notebookID "洞察报告" (RespContent response)]
           ++ match r with
              | Ok chunkCount => [CallUpdateSourceChunkCount id chunkCount]
              | Err _ => []
              end)%list
    end
  else (s, []).

(** [handleTransform] from line 973 on, once the text is generated. *)
Definition save_transformation (w : World) (cfg : Config) (s : state)
  (notebookID userID : string) (req : TransformationRequest)
  (response : TransformationResponse)
  : option (state * list event * reply) :=
  let metadata : gmap string any :=
    {[ "length" := AString (ReqLength req);
       "format" := AString (ReqFormat req) ]} in
  let '(ev1, metadata) := infograph_step w cfg userID req response metadata in
  '(ev2, metadata) ← ppt_step w cfg userID req response metadata;
  let noteContent := note_content req response metadata in
  let note := mkNote "" notebookID (getTitleForType (ReqType req))
                noteContent (ReqType req) (ReqSourceIDs req) metadata in
  match CreateNote w note with
  | Err _ =>
      Some (s, (ev1 ++ ev2 ++ [CallCreateNote note])%list,
            mkReply 500 (ErrorResponse "Failed to save note"))
  | Ok id =>
      let saved := mkNote id notebookID (NoteTitle note) noteContent
                     (ReqType req) (ReqSourceIDs req) metadata in
      let '(s', ev3) := insight_step w s notebookID req response in
      Some (s', (ev1 ++ ev2
                   ++ [CallCreateNote note;
                       CallLogActivity userID "transform" id]
                   ++ ev3)%list,
            mkReply 200 (NoteBody saved))
  end.

(** Lines 940-959: the sources of the request. *)
Definition select_sources (req : TransformationRequest)
  (sources : list Source) : TransformationRequest * list Source :=
  match ReqSourceIDs req with
  | _ :: _ =>
      (req,
       List.filter (fun src => existsb (String.eqb (SourceID src))
                                 (ReqSourceIDs req)) sources)
  | [] =>
      (mkTransformationRequest (ReqType req) (ReqLength req) (ReqFormat req)
         (ReqPrompt req) (map SourceID sources),
       sources)
  end.

(** [func (s *Server) handleTransform(c *gin.Context)] *)
Definition handleTransform (w : World) (cfg : Config) (s : state)
  (notebookID userID : string) : option (state * list event * reply) :=
  let '(s, ev0, _) := loadNotebookVectorIndex w s notebookID in
  let fail (ev : list event) (status : Z) (msg : string) :=
    Some (s, (ev0 ++ ev)%list, mkReply status (ErrorResponse msg)) in
  match BindJSON w with
  | Err err => fail [] 400 (Error err)
  | Ok req =>
      let conflict :=
        if negb (AllowMultipleNotesOfSameType cfg) then
          match ListNotes w notebookID with
          | Err _ => Some (500, "Failed to check existing notes")
          | Ok existingNotes =>
              if existsb (fun note => String.eqb (NoteType note) (ReqType req))
                   existingNotes
              then Some (409, "该笔记本已存在相同类型的笔记，不允许创建重复类型")
              else None
          end
        else None in
      let ev1 := if negb (AllowMultipleNotesOfSameType cfg)
                 then [CallListNotes notebookID] else [] in
      match conflict with
      | Some (status, msg) => fail ev1 status msg
      | None =>
          let ev2 := (ev1 ++ [CallListSources notebookID])%list in
          let listed := ListSources w (listings s) notebookID in
          let s := mkState (loadedNotebooks s) (vectorStore s)
                     (S (listings s)) in
          match listed with
          | Err _ =>
              Some (s, (ev0 ++ ev2)%list,
                    mkReply 500 (ErrorResponse "Failed to get sources"))
          | Ok sources =>
              let '(req, sources) := select_sources req sources in
              match sources with
              | [] =>
                  Some (s, (ev0 ++ ev2)%list,
                        mkReply 400 (ErrorResponse "No sources available"))
              | _ =>
                  match Transform w req sources with
                  | Err err =>
                      Some (s, (ev0 ++ ev2)%list,
                            mkReply 500 (ErrorResponse
                              ("Generation failed: " +:+ Error err)))
                  | Ok response =>
                      '(s', ev3, r) ← save_transformation w cfg s notebookID
                                        userID req response;
                      Some (s', (ev0 ++ ev2 ++ ev3)%list, r)
                  end
              end
          end
      end
  end.

End WithVectorStore.

(** Vocabulary for the properties of the handler: the image calls and the
    saved notes of a trace, and the slide URLs as the specification words
    them, one per slide whose image call succeeds, in slide order. *)
Definition is_image_call (e : event) : bool :=
  match e with
  | CallGenerateImage _ _ _ => true
  | _ => false
  end.

Fixpoint saved_notes (ev : list event) : list Note :=
  match ev with
  | [] => []
  | CallCreateNote note :: rest => note :: saved_notes rest
  | _ :: rest => saved_notes rest
  end.

Fixpoint slide_urls (w : World) (imageModel userID style0 : string)
  (slides : list Slide) (n : nat) : list string :=
  match slides with
  | [] => []
  | slide :: rest =>
      match GenerateImage w n imageModel (slide_prompt style0 slide) userID with
      | Ok imagePath => ["/api/files/" +:+ Base imagePath]
      | Err _ => []
      end ++ slide_urls w imageModel userID style0 rest (S n)
  end.

(** The first successful listing among [tries] listings from [from] on. *)
Fixpoint first_listing (w : World) (notebookID : string) (from tries : nat)
  : option (list Source) :=
  match tries with
  | O => None
  | S t =>
      match ListSources w from notebookID with
      | Ok sources => Some sources
      | Err _ => first_listing w notebookID (S from) t
      end
  end.

Definition slide_calls (imageModel userID style0 : string)
  (slides : list Slide) : list event :=
  map (fun slide => CallGenerateImage imageModel (slide_prompt style0 slide)
                      userID) slides.

Definition first_style (slides : list Slide) : string :=
  match slides with
  | s0 :: _ => Style s0
  | [] => ""
  end.

(** Sample worlds.  The store lists three sources (one without content) and
    saves every note as note-1; the provider writes the image of the n-th
    call to a file of the user, and fails on the second call in
    [second_image_fails] and on every call in [no_images]. *)
Definition sample_sources : list Source :=
  [mkSource "s1" "nb" "long.txt" "file" "hello world";
   mkSource "s2" "nb" "scan.pdf" "file" "";
   mkSource "s3" "nb" "short.txt" "file" "hi"].

Definition image_world (image : nat -> result string) : World :=
  {| ListSources := fun _ _ => Ok sample_sources;
     BindJSON := Ok (mkTransformationRequest "ppt" "medium" "markdown" "" []);
     ListNotes := fun _ => Ok [];
     Transform := fun req _ =>
       Ok (mkTransformationResponse (ReqType req) "text" [] 0 ∅);
     GenerateImage := fun n _ _ _ => image n;
     CreateNote := fun _ => Ok "note-1";
     CreateSource := fun _ => Ok "source-9" |}.

Definition image_path (n : nat) : string :=
  "data/uploads/user-42/infograph_" +:+ FormatInt (Z.of_nat n) +:+ ".png".

Definition second_image_fails : World :=
  image_world (fun n => if (n =? 1)%nat
                        then Err (errorString "upstream timeout")
                        else Ok (image_path n)).

(** A store whose first listing fails. *)
Definition flaky_store : World :=
  {| ListSources := fun n _ =>
       if (n =? 0)%nat then Err (errorString "database is locked")
       else Ok sample_sources;
     BindJSON := Ok (mkTransformationRequest "ppt" "medium" "markdown" "" []);
     ListNotes := fun _ => Ok [];
     Transform := fun req _ =>
       Ok (mkTransformationResponse (ReqType req) "text" [] 0 ∅);
     GenerateImage := fun n _ _ _ => Ok (image_path n);
     CreateNote := fun _ => Ok "note-1";
     CreateSource := fun _ => Ok "source-9" |}.

Definition no_images : World :=
  image_world (fun _ => Err (errorString "upstream timeout")).

Definition all_images : World := image_world (fun n => Ok (image_path n)).

Definition sample_config : Config :=
  mkConfig 100000 5 true "gemini" "cogview" "z-image" "imagen".

(** A deck text of [n] well-formed slides, and texts of 3 and 11 slides. *)
Fixpoint deck (n : nat) : string :=
  match n with
  | O => ""
  | S n' =>
      deck n' +:+ "Slide " +:+ FormatInt (Z.of_nat n) +:+ ": title" +:+ nl
        +:+ "// NARRATIVE GOAL explain" +:+ nl +:+ nl
  end.

Definition ppt_request : TransformationRequest :=
  mkTransformationRequest "ppt" "medium" "markdown" "" ["s1"].

Definition infograph_request : TransformationRequest :=
  mkTransformationRequest "infograph" "medium" "markdown" "" ["s1"].

Definition generated (type text : string) : TransformationResponse :=
  mkTransformationResponse type text [mkSourceSummary "s1" "long.txt" "file"] 0
    {[ "length" := AString "medium"; "format" := AString "markdown" ]}.

(** A fresh server over the index of [VectorIndex]. *)
Definition fresh : state (list VectorIndex.Chunk) := mkState _ ∅ [] O.

End Server.

(** ** backend/middleware.go: the client address and the audit line *)

Module Middleware.
Import GoStr GoErr.

(** What the middleware reads of a request: its method and path, a header
    by name ([c.GetHeader], empty when absent), the address gin derives
    ([c.ClientIP()]) and the outcome of reading the body. *)
Record Request : Type := mkRequest {
  Method : string;
  Path : string;
  GetHeader : string -> string;
  ClientIP : string;
  ReadBody : result string
}.

(** [for i, char := range xff { if char == ',' { return xff[:i] } }]: the
    offset of the first comma, counted from [i]; -1 when the loop ends
    without one.  The loop walks runes and [i] is the byte offset of the
    rune; a comma is one ASCII byte and no byte of a longer rune equals it,
    so walking bytes finds the same offset. *)
Fixpoint first_comma (rest : string) (i : Z) : Z :=
  match rest with
  | EmptyString => -1
  | String char rest' =>
      if Ascii.eqb char "," then i else first_comma rest' (i + 1)
  end.

(** [func getClientIP(c *gin.Context) string] *)
Definition getClientIP (c : Request) : string :=
  let xff := GetHeader c "X-Forwarded-For" in
  if negb (String.eqb xff "") then
    let i := first_comma xff 0 in
    if 0 <=? i then take (Z.to_nat i) xff else xff
  else
    let xri := GetHeader c "X-Real-IP" in
    if negb (String.eqb xri "") then xri
    else
      let cfip := GetHeader c "CF-Connecting-IP" in
      if negb (String.eqb cfip "") then cfip
      else
        let tci := GetHeader c "True-Client-IP" in
        if negb (String.eqb tci "") then tci
        else ClientIP c.

(** The request body as [AuditMiddleware] keeps it for the log line. *)
Definition captured_request_body (c : Request) : string :=
  if String.eqb (Method c) "POST" || String.eqb (Method c) "PUT"
     || String.eqb (Method c) "PATCH" then
    match ReadBody c with
    | Ok bodyBytes =>
        if 1000 <? len bodyBytes
        then take 1000 bodyBytes +:+ "... (truncated)"
        else bodyBytes
    | Err _ => ""
    end
  else "".

(** The log line of [AuditMiddleware], built after [c.Next()] from the
    status, the latency in milliseconds, the response body written by the
    handler and the text of the errors gin collected ([None] when there
    are none). *)
Definition audit_line (c : Request) (status latency : Z)
  (responseBody : string) (errors : option string) : string :=
  let requestBody := captured_request_body c in
  let msg := "[AUDIT] client_ip=" +:+ getClientIP c +:+ " method=" +:+ Method c
               +:+ " path=" +:+ Path c +:+ " status=" +:+ FormatInt status
               +:+ " latency_ms=" +:+ FormatInt latency in
  let msg := if negb (String.eqb requestBody "")
             then msg +:+ (" request_body=" +:+ requestBody) else msg in
  let msg := if 0 <? len responseBody then
               if 1000 <? len responseBody
               then msg +:+ (" response_body=" +:+ take 1000 responseBody
                               +:+ "... (truncated)")
               else msg +:+ (" response_body=" +:+ responseBody)
             else msg in
  match errors with
  | Some text => msg +:+ (" errors=" +:+ text)
  | None => msg
  end.

(** The bytes of request and response body that the line carries. *)
Definition logged_response_body (responseBody : string) : string :=
  if 0 <? len responseBody then
    if 1000 <? len responseBody
    then take 1000 responseBody +:+ "... (truncated)"
    else responseBody
  else "".

(** Whether a text holds a comma. *)
Fixpoint has_comma (s : string) : bool :=
  match s with
  | EmptyString => false
  | String c s' => Ascii.eqb c "," || has_comma s'
  end.

(** A request that came through two proxies. *)
Definition proxied : Request :=
  {| Method := "POST"; Path := "/api/upload";
     GetHeader := fun name =>
       if String.eqb name "X-Forwarded-For" then "203.0.113.7, 10.0.0.2, 10.0.0.1"
       else if String.eqb name "X-Real-IP" then "10.0.0.2" else "";
     ClientIP := "10.0.0.1";
     ReadBody := Ok "name=a" |}.

Definition direct : Request :=
  {| Method := "GET"; Path := "/"; GetHeader := fun _ => "";
     ClientIP := "198.51.100.4"; ReadBody := Ok "" |}.

End Middleware.

(** ** backend/gemini.go: [GeminiClient.GenerateTextWithModel] *)

Module GeminiText.
Import GoStr GoErr Gemini.

(** The loop over the parts: the non-empty texts, concatenated. *)
Fixpoint join_texts (parts : list Part) : string :=
  match parts with
  | [] => ""
  | p :: rest =>
      (if negb (String.eqb (Text p) "") then Text p else "")
        +:+ join_texts rest
  end.

(** [func (n *GeminiClient) GenerateTextWithModel(ctx, prompt string,
    model string) (string, error)].  The one upstream call is the call
    number 1 of the world; the deferred [cancel()] closes the trace. *)
Definition GenerateTextWithModel (googleAPIKey : string) (w : World)
  (prompt model : string) : list event * result string :=
  if String.eqb googleAPIKey "" then
    ([], Err (errorString "google_api_key is not set"))
  else
    match NewClient w with
    | Some err => ([], Err (Errorf_w "failed to create genai client: " err))
    | None =>
        ([WithTimeout (300 * Second); CallGenerateContent 1 model prompt;
          Cancel],
         match GenerateContent w 1 model prompt with
         | Err err => Err (Errorf_w "failed to generate gemini text: " err)
         | Ok resp =>
             match Candidates resp with
             | [] => Err (errorString "no text generated")
             | c0 :: _ =>
                 match CandContent c0 with
                 | None => Err (errorString "no text generated")
                 | Some content =>
                     match Parts content with
                     | [] => Err (errorString "no text generated")
                     | _ =>
                         let result := join_texts (Parts content) in
                         if String.eqb result ""
                         then Err (errorString "empty response from model")
                         else Ok result
                     end
                 end
             end
         end)
    end.

(** An upstream that answers in two text parts around an empty one. *)
Definition talkative : World :=
  {| NewClient := None;
     GenerateContent := fun _ _ _ =>
       Ok (mkResponse
             [mkCandidate
                (Some (mkContent [mkPart "Slide 1" None; mkPart "" None;
                                  mkPart ": tides" None]))]);
     UnixNano := 0;
     MkdirAll := fun _ => None;
     WriteFile := fun _ _ => None |}.

Definition is_write (e : event) : bool :=
  match e with
  | DoWriteFile _ _ => true
  | _ => false
  end.

(** The file writes of a trace. *)
Definition writes (tr : list event) : list event := List.filter is_write tr.

End GeminiText.

(** ** Vocabulary for further properties of the slide parser *)

Module SlideParserMore.
Import GoStr Regexp SlideParser.

(** The validation of a heading region in [ParsePPTSlides]: the lower-cased
    region holds one of the three section markers. *)
Definition has_section_marker (ToLower : string -> string) (region : string)
  : bool :=
  Contains (ToLower region) "叙事目标"
  || Contains (ToLower region) "narrative goal"
  || Contains (ToLower region) "关键内容".

(** The contents of the slides, one after the other. *)
Fixpoint contents (slides : list Slide) : string :=
  match slides with
  | [] => ""
  | s :: rest => Content s +:+ contents rest
  end.

(** The marker the third step of the parser splits on. *)
Definition split_marker (content : string) : string :=
  if Contains content "// 叙事目标" then "// 叙事目标" else "// NARRATIVE GOAL".

(** The same slide under another style. *)
Definition restyle (style : string) (s : Slide) : Slide :=
  mkSlide style (Content s).

(** The heading regions the second step accepts, found without a style. *)
Definition accepted_headings (ToLower : string -> string) (content : string)
  : option (list Slide) :=
  heading_slides ToLower content ""
    (FindAllStringIndex slide_heading content) [].

End SlideParserMore.

(** ** unnamed/part_002: the earlier agent.go *)

Module AgentLegacy.
Import GoStr GoErr Types Agent.

(** The earlier [GenerateTransformation].  Its loop over the sources is
    line for line the one of backend/agent.go ([Agent.sourceContext]);
    after the prompt it knows two ways to generate, the slide model for
    the type ppt and the default model for every other type, and it runs
    no command. *)
Definition GenerateTransformation (env : TransformEnv) (cfg : Config)
  (req : TransformationRequest) (sources : list Source)
  : option (result TransformationResponse) :=
  sources_text ← sourceContext cfg sources;
  Some
    match FormatPrompt env sources_text (ReqType req) (ReqLength req)
            (ReqFormat req) (ReqPrompt req) with
    | Err err => Err (Errorf_w "failed to format prompt: " err)
    | Ok promptValue =>
        let generated :=
          if String.eqb (ReqType req) "ppt"
          then GenerateTextWithModel env promptValue "gemini-3-flash-preview"
          else GenerateText env promptValue in
        match generated with
        | Err genErr => Err (Errorf_w "failed to generate response: " genErr)
        | Ok response =>
            Ok (mkTransformationResponse (ReqType req) response
                  (summaries_of sources) (Now env)
                  {[ "length" := AString (ReqLength req);
                     "format" := AString (ReqFormat req) ]})
        end
    end.

(** An agent whose models answer and whose template joins the type and
    the sources. *)
Definition answering : TransformEnv :=
  {| FormatPrompt := fun sources type _ _ _ => Ok (type +:+ ":" +:+ sources);
     GenerateTextWithModel := fun _ _ => Ok "deck";
     GenerateText := fun _ => Ok "text";
     DeepInsightShell := tool_works;
     Now := 0 |}.

End AgentLegacy.

(** ** Vocabulary for further properties of the server *)

Module ServerMore.
Import GoStr GoErr Types Server.

Definition is_log_activity (e : event) : bool :=
  match e with
  | CallLogActivity _ _ _ => true
  | _ => false
  end.

(** A source answered by the search: the document is tagged with it. *)
Definition tagged_with (doc : Document) (source : string) : Prop :=
  as_string (DocMetadata doc !! "source") = Some source.

(** A world whose store refuses the insight source. *)
Definition no_new_sources : World :=
  {| ListSources := fun _ _ => Ok sample_sources;
     BindJSON := Ok (mkTransformationRequest "insight" "medium" "markdown" "" []);
     ListNotes := fun _ => Ok [];
     Transform := fun req _ =>
       Ok (mkTransformationResponse (ReqType req) "report" [] 0 ∅);
     GenerateImage := fun n _ _ _ => Ok (image_path n);
     CreateNote := fun _ => Ok "note-1";
     CreateSource := fun _ => Err (errorString "disk full") |}.

End ServerMore.

(** ** The HTTP server: access checks, sources, uploads, notes, chat and
       files *)

Module Handlers.
Import GoStr Filepath GoErr Types.

(** *** Paths *)

(** [filepath.Ext]: the loop walks from the last byte to the left, stops
    at a slash, and returns the text from the first dot it meets.  The
    state after the bytes to the right of a position: a dot was met, a
    slash was met first, or neither. *)
Inductive ext_scan : Type :=
| ExtFound (ext : string)
| ExtStopped
| ExtOpen.

Fixpoint scan_ext (path : string) : ext_scan :=
  match path with
  | EmptyString => ExtOpen
  | String c rest =>
      match scan_ext rest with
      | ExtFound ext => ExtFound ext
      | ExtStopped => ExtStopped
      | ExtOpen =>
          if Ascii.eqb c "." then ExtFound path
          else if Ascii.eqb c "/" then ExtStopped
          else ExtOpen
      end
  end.

Definition Ext (path : string) : string :=
  match scan_ext path with
  | ExtFound ext => ext
  | _ => ""
  end.

(** The file system as [handleServeFile] sees it: the working directory
    ([os.Getwd], the same for the two calls of [filepath.Abs] within one
    request) and whether [os.Stat] finds the path. *)
Record Files : Type := mkFiles {
  Getwd : result string;
  Exists : string -> bool
}.

(** [filepath.Abs]: a rooted path is cleaned, any other is joined to the
    working directory. *)
Definition Abs (fs : Files) (path : string) : result string :=
  if rooted path then Ok (Clean path)
  else match Getwd fs with
       | Err err => Err err
       | Ok wd => Ok (JoinPath [wd; path])
       end.

(** *** Data *)

(** The fields of [Notebook] the handlers read. *)
Record Notebook : Type := mkNotebook {
  NbID : string;
  NbUserID : string;
  NbName : string;
  NbIsPublic : bool
}.

(** [Source] with all the fields the source and upload handlers set
    ([Types.Source] holds the five that the agent reads). *)
Record SourceRecord : Type := mkSourceRecord {
  SrcID : string;
  SrcNotebookID : string;
  SrcName : string;
  SrcType : string;
  SrcURL : string;
  SrcContent : string;
  SrcFileName : string;
  SrcFileSize : Z;
  SrcChunkCount : Z;
  SrcMetadata : gmap string any
}.

Record ActivityLog : Type := mkActivityLog {
  LogUserID : string;
  LogAction : string;
  LogResourceType : string;
  LogResourceID : string;
  LogResourceName : string;
  LogDetails : string;
  LogIPAddress : string;
  LogUserAgent : string
}.

(** What a handler reads of the gin context besides the path parameters:
    [c.GetString("user_id")], [c.ClientIP()] and
    [c.GetHeader("User-Agent")]. *)
Record Caller : Type := mkCaller {
  UserID : string;
  CallerIP : string;
  UserAgent : string
}.

(** The request body of [handleAddSource]. *)
Record AddSourceRequest : Type := mkAddSourceRequest {
  AddName : string;
  AddType : string;
  AddURL : string;
  AddContent : string;
  AddMetadata : gmap string any
}.

(** The request body of [handleUpdateNotebook]. *)
Record UpdateNotebookRequest : Type := mkUpdateNotebookRequest {
  UpdName : string;
  UpdDescription : string;
  UpdMetadata : gmap string any
}.

(** The fields of [ChatRequest] the chat handlers read. *)
Record ChatRequest : Type := mkChatRequest {
  ChatReqMessage : string;
  ChatReqSessionID : string
}.

(** *** Collaborators *)

(** What a handler does to its collaborators, in order. *)
Inductive event : Type :=
| Loader (e : Server.event)
| CallExtractFromURL (url : string)
| CallCreateSource (src : SourceRecord)
| CallDeleteSource (sourceID : string)
| CallLogActivity (log : ActivityLog)
| CallIngestText (notebookID sourceName content : string)
| CallUpdateSourceChunkCount (sourceID : string) (chunkCount : Z)
| CallGetStats
| DoMkdirAll (dir : string)
| DoSaveUploadedFile (path : string)
| CallExtractDocument (path : string)
| DoRemove (path : string)
| CallUpdateNotebook (id name description : string)
| CallDeleteNotebook (id : string)
| CallSetNotebookPublic (id : string) (isPublic : bool)
| CallCreateChatSession (notebookID title : string)
| CallGetChatSession (sessionID : string)
| CallAddChatMessage (sessionID role content : string)
    (sourceIDs : list string).

(** The answers of the persistent store.  [CreateSource] takes a pointer
    and fills in the row; its answer is the row as the call left it.  The
    two lookups by file name answer with the notebook when the call
    returned no error and neither result was nil. *)
Record Store : Type := mkStore {
  GetNotebook : string -> result Notebook;
  UpdateNotebook : string -> string -> string -> gmap string any
                   -> result Notebook;
  DeleteNotebook : string -> option error;
  SetNotebookPublic : string -> bool -> result Notebook;
  ListSources : string -> result (list SourceRecord);
  GetSource : string -> result SourceRecord;
  CreateSource : SourceRecord -> result SourceRecord;
  DeleteSource : string -> option error;
  ListNotes : string -> result (list Note);
  CreateChatSession : string -> string -> result string;
  GetChatSession : string -> result (list ChatMessage);
  AddChatMessage : string -> string -> string -> list string -> option error;
  GetSourceByFileName : string -> option Notebook;
  GetNoteByFileName : string -> option Notebook
}.

(** The answers of the vector store to the source and upload handlers:
    the two extractors, the ingestion with its chunk count, and
    [GetStats().TotalDocuments] by the number of the call within the
    request. *)
Record Extractor : Type := mkExtractor {
  ExtractFromURL : string -> result string;
  ExtractDocument : string -> result string;
  IngestText : string -> string -> string -> result Z;
  TotalDocuments : nat -> Z
}.

(** The multipart form and the disk as [handleUpload] sees them: the file
    of the form (name and size), the text of a fresh UUID, and the
    outcome of creating the directory and of saving the file. *)
Record Upload : Type := mkUpload {
  FormFile : result (string * Z);
  NewUUID : string;
  MkdirAll : string -> option error;
  SaveUploadedFile : string -> option error
}.

(** The body of a reply. *)
Inductive body : Type :=
| ErrorResponse (msg : string)
| JSONNotebook (notebook : Notebook)
| JSONSource (src : SourceRecord)
| JSONSources (sources : list SourceRecord)
| JSONNotes (notes : list Note)
| JSONChat (response : ChatResponse)
| NoBody.

Record reply : Type := mkReply { Status : Z; ReplyBody : body }.

(** *** Access *)

(** [func (s *Server) checkNotebookAccess(ctx, notebookID, userID string)
    error] *)
Definition checkNotebookAccess (st : Store) (notebookID userID : string)
  : option error :=
  match GetNotebook st notebookID with
  | Err _ => Some (errorString "notebook not found")
  | Ok notebook =>
      if negb (String.eqb (NbUserID notebook) "")
         && negb (String.eqb (NbUserID notebook) userID)
      then Some (errorString "access denied")
      else None
  end.

(** The ownership test written out in the notebook handlers. *)
Definition foreign (existing : Notebook) (userID : string) : bool :=
  negb (String.eqb (NbUserID existing) "")
  && negb (String.eqb (NbUserID existing) userID).

(** *** Notebook handlers *)

(** [func (s *Server) handleGetNotebook(c *gin.Context)] *)
Definition handleGetNotebook (st : Store) (c : Caller) (id : string)
  : list event * reply :=
  match GetNotebook st id with
  | Err _ => ([], mkReply 404 (ErrorResponse "Notebook not found"))
  | Ok notebook =>
      if foreign notebook (UserID c)
      then ([], mkReply 403 (ErrorResponse "Access denied"))
      else ([], mkReply 200 (JSONNotebook notebook))
  end.

(** [func (s *Server) handleUpdateNotebook(c *gin.Context)] *)
Definition handleUpdateNotebook (st : Store) (c : Caller) (id : string)
  (bind : result UpdateNotebookRequest) : list event * reply :=
  match GetNotebook st id with
  | Err _ => ([], mkReply 404 (ErrorResponse "Notebook not found"))
  | Ok existing =>
      if foreign existing (UserID c)
      then ([], mkReply 403 (ErrorResponse "Access denied"))
      else
        match bind with
        | Err err => ([], mkReply 400 (ErrorResponse (Error err)))
        | Ok req =>
            ([CallUpdateNotebook id (UpdName req) (UpdDescription req)],
             match UpdateNotebook st id (UpdName req) (UpdDescription req)
                     (UpdMetadata req) with
             | Err _ => mkReply 500 (ErrorResponse "Failed to update notebook")
             | Ok notebook => mkReply 200 (JSONNotebook notebook)
             end)
        end
  end.

(** [func (s *Server) handleDeleteNotebook(c *gin.Context)] *)
Definition handleDeleteNotebook (st : Store) (c : Caller) (id : string)
  : list event * reply :=
  match GetNotebook st id with
  | Err _ => ([], mkReply 404 (ErrorResponse "Notebook not found"))
  | Ok existing =>
      if foreign existing (UserID c)
      then ([], mkReply 403 (ErrorResponse "Access denied"))
      else
        ([CallDeleteNotebook id],
         match DeleteNotebook st id with
         | Some _ => mkReply 500 (ErrorResponse "Failed to delete notebook")
         | None => mkReply 204 NoBody
         end)
  end.

(** [func (s *Server) handleSetNotebookPublic(c *gin.Context)]; the
    request body is the flag [is_public]. *)
Definition handleSetNotebookPublic (st : Store) (c : Caller) (id : string)
  (bind : result bool) : list event * reply :=
  match GetNotebook st id with
  | Err _ => ([], mkReply 404 (ErrorResponse "Notebook not found"))
  | Ok existing =>
      if foreign existing (UserID c)
      then ([], mkReply 403 (ErrorResponse "Access denied"))
      else
        match bind with
        | Err err => ([], mkReply 400 (ErrorResponse (Error err)))
        | Ok isPublic =>
            match SetNotebookPublic st id isPublic with
            | Err _ =>
                ([CallSetNotebookPublic id isPublic],
                 mkReply 500 (ErrorResponse "Failed to update notebook"))
            | Ok notebook =>
                let action := if negb isPublic then "make_private"
                              else "make_public" in
                ([CallSetNotebookPublic id isPublic;
                  CallLogActivity
                    (mkActivityLog (UserID c) action "notebook"
                       (NbID notebook) (NbName notebook) "" (CallerIP c)
                       (UserAgent c))],
                 mkReply 200 (JSONNotebook notebook))
            end
        end
  end.

(** *** Source handlers *)

(** [func (s *Server) handleListSources(c *gin.Context)] *)
Definition handleListSources (st : Store) (c : Caller) (notebookID : string)
  : list event * reply :=
  match checkNotebookAccess st notebookID (UserID c) with
  | Some err => ([], mkReply 403 (ErrorResponse (Error err)))
  | None =>
      match ListSources st notebookID with
      | Err _ => ([], mkReply 500 (ErrorResponse "Failed to list sources"))
      | Ok sources => ([], mkReply 200 (JSONSources sources))
      end
  end.

Definition dq : string := String "034" EmptyString.

(** A JSON member with a string value, as the [Details] formats write
    it. *)
Definition member (key value : string) : string :=
  dq +:+ key +:+ dq +:+ ": " +:+ dq +:+ value +:+ dq.

(** The ingestion at the end of [handleAddSource]. *)
Definition ingest_added (vs : Extractor) (notebookID : string)
  (source : SourceRecord) : list event :=
  if negb (String.eqb (SrcContent source) "") then
    CallIngestText notebookID (SrcName source) (SrcContent source)
      :: match IngestText vs notebookID (SrcName source)
                 (SrcContent source) with
         | Err _ => []
         | Ok chunkCount =>
             [CallUpdateSourceChunkCount (SrcID source) chunkCount]
         end
  else [].

(** [func (s *Server) handleAddSource(c *gin.Context)] *)
Definition handleAddSource (st : Store) (vs : Extractor) (c : Caller)
  (notebookID : string) (bind : result AddSourceRequest)
  : list event * reply :=
  match checkNotebookAccess st notebookID (UserID c) with
  | Some err => ([], mkReply 403 (ErrorResponse (Error err)))
  | None =>
      match bind with
      | Err err => ([], mkReply 400 (ErrorResponse (Error err)))
      | Ok req =>
          let source :=
            mkSourceRecord "" notebookID (AddName req) (AddType req)
              (AddURL req) (AddContent req) "" 0 0 (AddMetadata req) in
          let fetched : list event * result SourceRecord :=
            if negb (String.eqb (AddURL req) "") then
              ([CallExtractFromURL (AddURL req)],
               match ExtractFromURL vs (AddURL req) with
               | Err err => Err err
               | Ok content =>
                   Ok (mkSourceRecord "" notebookID (AddName req)
                         (AddType req) (AddURL req) content "" 0 0
                         (AddMetadata req))
               end)
            else ([], Ok source) in
          match fetched with
          | (ev, Err err) =>
              (ev, mkReply 500 (ErrorResponse
                                  ("Failed to fetch URL content: "
                                     +:+ Error err)))
          | (ev, Ok source) =>
              match CreateSource st source with
              | Err _ =>
                  ((ev ++ [CallCreateSource source])%list,
                   mkReply 500 (ErrorResponse "Failed to create source"))
              | Ok created =>
                  let activityLog :=
                    mkActivityLog (UserID c) "add_source" "source"
                      (SrcID created) (SrcName created)
                      ("{" +:+ member "notebook_id" notebookID +:+ ", "
                         +:+ member "source_type" (SrcType created) +:+ ", "
                         +:+ member "source_url" (SrcURL created) +:+ "}")
                      (CallerIP c) (UserAgent c) in
                  ((ev ++ [CallCreateSource source;
                           CallLogActivity activityLog]
                       ++ ingest_added vs notebookID created)%list,
                   mkReply 201 (JSONSource created))
              end
          end
      end
  end.

(** [func (s *Server) handleDeleteSource(c *gin.Context)] *)
Definition handleDeleteSource (st : Store) (c : Caller) (sourceID : string)
  : list event * reply :=
  match GetSource st sourceID with
  | Err _ => ([], mkReply 404 (ErrorResponse "Source not found"))
  | Ok source =>
      match checkNotebookAccess st (SrcNotebookID source) (UserID c) with
      | Some err => ([], mkReply 403 (ErrorResponse (Error err)))
      | None =>
          ([CallDeleteSource sourceID],
           match DeleteSource st sourceID with
           | Some _ => mkReply 500 (ErrorResponse "Failed to delete source")
           | None => mkReply 204 NoBody
           end)
      end
  end.

(** *** Upload *)

Definition with_content (source : SourceRecord) (content : string)
  : SourceRecord :=
  mkSourceRecord (SrcID source) (SrcNotebookID source) (SrcName source)
    (SrcType source) (SrcURL source) content (SrcFileName source)
    (SrcFileSize source) (SrcChunkCount source) (SrcMetadata source).

Definition with_chunk_count (source : SourceRecord) (chunkCount : Z)
  : SourceRecord :=
  mkSourceRecord (SrcID source) (SrcNotebookID source) (SrcName source)
    (SrcType source) (SrcURL source) (SrcContent source)
    (SrcFileName source) (SrcFileSize source) chunkCount
    (SrcMetadata source).

(** [func (s *Server) handleUpload(c *gin.Context)]; [notebookID] is the
    form value [notebook_id].  [None] is a slice out of range. *)
Definition handleUpload (st : Store) (vs : Extractor) (up : Upload)
  (c : Caller) (notebookID : string) : option (list event * reply) :=
  let userID := UserID c in
  if String.eqb notebookID "" then
    Some ([], mkReply 400 (ErrorResponse "notebook_id required"))
  else
    match checkNotebookAccess st notebookID userID with
    | Some err => Some ([], mkReply 403 (ErrorResponse (Error err)))
    | None =>
        match FormFile up with
        | Err _ => Some ([], mkReply 400 (ErrorResponse "file required"))
        | Ok (Filename, Size) =>
            let ext := Ext Filename in
            baseName ← slice Filename 0 (len Filename - len ext);
            short ← slice (NewUUID up) 0 8;
            let uniqueFileName := baseName +:+ "_" +:+ short +:+ ext in
            let userUploadDir := "./data/uploads/" +:+ userID in
            let tempPath := userUploadDir +:+ "/" +:+ uniqueFileName in
            match MkdirAll up userUploadDir with
            | Some _ =>
                Some ([DoMkdirAll userUploadDir],
                      mkReply 500
                        (ErrorResponse "Failed to create uploads directory"))
            | None =>
                let ev1 := [DoMkdirAll userUploadDir;
                            DoSaveUploadedFile tempPath] in
                match SaveUploadedFile up tempPath with
                | Some err =>
                    Some (ev1,
                          mkReply 500
                            (ErrorResponse ("Failed to save file: "
                                              +:+ Error err)))
                | None =>
                    let source :=
                      mkSourceRecord "" notebookID Filename "file" "" ""
                        uniqueFileName Size 0
                        {[ "path" := AString tempPath;
                           "user_id" := AString userID ]} in
                    match ExtractDocument vs tempPath with
                    | Err err =>
                        Some ((ev1 ++ [CallExtractDocument tempPath;
                                       DoRemove tempPath])%list,
                              mkReply 500
                                (ErrorResponse
                                   ("Failed to extract document content: "
                                      +:+ Error err)))
                    | Ok content =>
                        let source := with_content source content in
                        let ev2 := (ev1 ++ [CallExtractDocument tempPath;
                                            CallCreateSource source])%list in
                        match CreateSource st source with
                        | Err _ =>
                            Some ((ev2 ++ [DoRemove tempPath])%list,
                                  mkReply 500
                                    (ErrorResponse "Failed to create source"))
                        | Ok source =>
                            let activityLog :=
                              mkActivityLog userID "upload_file" "source"
                                (SrcID source) Filename
                                ("{" +:+ member "notebook_id" notebookID
                                   +:+ ", " +:+ dq +:+ "file_size" +:+ dq
                                   +:+ ": " +:+ FormatInt Size +:+ ", "
                                   +:+ member "file_type" (Ext Filename)
                                   +:+ "}")
                                (CallerIP c) (UserAgent c) in
                            let ev3 := (ev2 ++ [CallLogActivity activityLog;
                                                CallGetStats])%list in
                            let totalDocsBefore := TotalDocuments vs 0 in
                            if negb (String.eqb (SrcContent source) "") then
                              let ev4 :=
                                (ev3 ++ [CallIngestText notebookID
                                           (SrcName source)
                                           (SrcContent source)])%list in
                              match IngestText vs notebookID (SrcName source)
                                      (SrcContent source) with
                              | Err _ =>
                                  Some (ev4, mkReply 201 (JSONSource source))
                              | Ok _ =>
                                  let chunkCount :=
                                    TotalDocuments vs 1 - totalDocsBefore in
                                  Some ((ev4 ++ [CallGetStats;
                                                 CallUpdateSourceChunkCount
                                                   (SrcID source) chunkCount])%list,
                                        mkReply 201
                                          (JSONSource
                                             (with_chunk_count source
                                                chunkCount)))
                              end
                            else Some (ev3, mkReply 201 (JSONSource source))
                        end
                    end
                end
            end
        end
    end.

(** *** Notes *)

(** The loop that replaces the default title by the title of the type. *)
Definition fix_title (note : Note) : Note :=
  if String.eqb (NoteTitle note) "笔记"
  then mkNote (NoteID note) (NoteNotebookID note)
         (Server.getTitleForType (NoteType note)) (NoteContent note)
         (NoteType note) (NoteSourceIDs note) (NoteMetadata note)
  else note.

(** [func (s *Server) handleListNotes(c *gin.Context)] *)
Definition handleListNotes (st : Store) (notebookID : string) : reply :=
  match ListNotes st notebookID with
  | Err _ => mkReply 500 (ErrorResponse "Failed to list notes")
  | Ok notes => mkReply 200 (JSONNotes (map fix_title notes))
  end.

(** The fourteen types [getTitleForType] knows. *)
Definition known_types : list string :=
  ["summary"; "faq"; "study_guide"; "outline"; "podcast"; "timeline";
   "glossary"; "quiz"; "infograph"; "ppt"; "mindmap"; "insight";
   "data_table"; "data_chart"].

(** *** Files *)

Inductive file_reply : Type :=
| FileError (status : Z) (msg : string)
| FileServed (absPath contentType cacheControl : string).

(** The [switch ext] of [handleServeFile]. *)
Definition content_type (ext : string) : string :=
  if String.eqb ext ".jpg" || String.eqb ext ".jpeg" then "image/jpeg"
  else if String.eqb ext ".png" then "image/png"
  else if String.eqb ext ".gif" then "image/gif"
  else if String.eqb ext ".webp" then "image/webp"
  else if String.eqb ext ".svg" then "image/svg+xml"
  else if String.eqb ext ".pdf" then "application/pdf"
  else "application/octet-stream".

(** The notebook of a file: the sources table first, then the notes
    table. *)
Definition notebook_of_file (st : Store) (filename : string)
  : option Notebook :=
  match GetSourceByFileName st filename with
  | Some notebook => Some notebook
  | None => GetNoteByFileName st filename
  end.

(** [func (s *Server) handleServeFile(c *gin.Context)] *)
Definition handleServeFile (st : Store) (fs : Files)
  (filename userID : string) : file_reply :=
  if String.eqb filename "" then FileError 400 "filename required"
  else
    match notebook_of_file st filename with
    | None => FileError 404 "File not found"
    | Some notebook =>
        let ownerUserID := NbUserID notebook in
        let isPublic := NbIsPublic notebook in
        if negb isPublic && String.eqb userID "" then
          FileError 401 "Authorization required"
        else if negb isPublic && negb (String.eqb userID ownerUserID) then
          FileError 403 "Access denied"
        else
          let filePath := JoinPath ["./data/uploads"; ownerUserID; filename] in
          match Abs fs filePath with
          | Err _ => FileError 404 "File not found"
          | Ok absPath =>
              let absUploadDir := match Abs fs "./data/uploads" with
                                  | Ok dir => dir
                                  | Err _ => ""
                                  end in
              if negb (String.prefix absUploadDir absPath) then
                FileError 403 "Access denied"
              else if negb (Exists fs absPath) then
                FileError 404 "File not found"
              else
                FileServed absPath (content_type (Ext filename))
                  (if isPublic then "public, max-age=3600" else "no-cache")
          end
    end.

(** *** Chat *)

Section WithVectorStore.

Variable VectorStore : Type.
Variable StoreIngestText :
  VectorStore -> string -> string -> string -> VectorStore * result Z.

(** The agent over the current index (see [Agent.Chat]). *)
Variable agent : VectorStore -> Agent.ChatEnv.

(** The loop that collects the ids of the sources of an answer. *)
Definition sourceIDs_of (response : ChatResponse) : list string :=
  map SummaryID (Sources response).

(** [func (s *Server) handleSendMessage(c *gin.Context)] *)
Definition handleSendMessage (w : Server.World) (st : Store) (cfg : Config)
  (s : Server.state VectorStore) (notebookID sessionID : string)
  (bind : result ChatRequest)
  : Server.state VectorStore * list event * reply :=
  let '(s, loaded, _) :=
    Server.loadNotebookVectorIndex VectorStore StoreIngestText w s
      notebookID in
  let ev0 := map Loader loaded in
  match bind with
  | Err err => (s, ev0, mkReply 400 (ErrorResponse (Error err)))
  | Ok req =>
      let ev1 := (ev0 ++ [CallAddChatMessage sessionID "user"
                            (ChatReqMessage req) []])%list in
      match AddChatMessage st sessionID "user" (ChatReqMessage req) [] with
      | Some _ => (s, ev1, mkReply 500 (ErrorResponse "Failed to add message"))
      | None =>
          let ev2 := (ev1 ++ [CallGetChatSession sessionID])%list in
          match GetChatSession st sessionID with
          | Err _ =>
              (s, ev2, mkReply 500 (ErrorResponse "Failed to get session"))
          | Ok messages =>
              match Agent.Chat (agent (Server.vectorStore _ s)) cfg notebookID
                      (ChatReqMessage req) messages with
              | Err err =>
                  (s, ev2,
                   mkReply 500 (ErrorResponse ("Chat failed: " +:+ Error err)))
              | Ok response =>
                  let ev3 :=
                    (ev2 ++ [CallAddChatMessage sessionID "assistant"
                               (Message response) (sourceIDs_of response)])%list in
                  match AddChatMessage st sessionID "assistant"
                          (Message response) (sourceIDs_of response) with
                  | Some _ =>
                      (s, ev3,
                       mkReply 500 (ErrorResponse "Failed to save response"))
                  | None => (s, ev3, mkReply 200 (JSONChat response))
                  end
              end
          end
      end
  end.

(** [func (s *Server) handleChat(c *gin.Context)] *)
Definition handleChat (w : Server.World) (st : Store) (cfg : Config)
  (s : Server.state VectorStore) (notebookID : string)
  (bind : result ChatRequest)
  : Server.state VectorStore * list event * reply :=
  let '(s, loaded, _) :=
    Server.loadNotebookVectorIndex VectorStore StoreIngestText w s
      notebookID in
  let ev0 := map Loader loaded in
  match bind with
  | Err err => (s, ev0, mkReply 400 (ErrorResponse (Error err)))
  | Ok req =>
      let created : list event * result string :=
        if String.eqb (ChatReqSessionID req) "" then
          ([CallCreateChatSession notebookID ""],
           CreateChatSession st notebookID "")
        else ([], Ok (ChatReqSessionID req)) in
      match created with
      | (ev, Err _) =>
          (s, (ev0 ++ ev)%list,
           mkReply 500 (ErrorResponse "Failed to create session"))
      | (ev, Ok sessionID) =>
          let ev1 := (ev0 ++ ev ++ [CallGetChatSession sessionID])%list in
          match GetChatSession st sessionID with
          | Err _ =>
              (s, ev1, mkReply 500 (ErrorResponse "Failed to get session"))
          | Ok messages =>
              match Agent.Chat (agent (Server.vectorStore _ s)) cfg notebookID
                      (ChatReqMessage req) messages with
              | Err err =>
                  (s, ev1,
                   mkReply 500 (ErrorResponse ("Chat failed: " +:+ Error err)))
              | Ok response =>
                  let response :=
                    mkChatResponse (Message response) (Sources response)
                      sessionID (ChatMetadata response) in
                  (s,
                   (ev1 ++ [CallAddChatMessage sessionID "user"
                              (ChatReqMessage req) [];
                            CallAddChatMessage sessionID "assistant"
                              (Message response) (sourceIDs_of response)])%list,
                   mkReply 200 (JSONChat response))
              end
          end
      end
  end.

End WithVectorStore.

(** *** Samples *)

Definition alice : Caller := mkCaller "alice" "203.0.113.7" "curl/8".
Definition mallory : Caller := mkCaller "mallory" "198.51.100.4" "curl/8".

(** A store with one private notebook of alice that holds one uploaded
    file and one generated image. *)
Definition alice_notebook : Notebook := mkNotebook "nb-1" "alice" "Tides" false.

Definition alice_source : SourceRecord :=
  mkSourceRecord "s1" "nb-1" "tides.pdf" "file" "" "spring and neap"
    "tides_1a2b3c4d.pdf" 120 0 ∅.

Definition alice_store : Store :=
  {| GetNotebook := fun id =>
       if String.eqb id "nb-1" then Ok alice_notebook
       else Err (errorString "sql: no rows in result set");
     UpdateNotebook := fun _ _ _ _ => Ok alice_notebook;
     DeleteNotebook := fun _ => None;
     SetNotebookPublic := fun _ isPublic =>
       Ok (mkNotebook "nb-1" "alice" "Tides" isPublic);
     ListSources := fun _ => Ok [alice_source];
     GetSource := fun id =>
       if String.eqb id "s1" then Ok alice_source
       else Err (errorString "sql: no rows in result set");
     CreateSource := fun src =>
       Ok (mkSourceRecord "s2" (SrcNotebookID src) (SrcName src)
             (SrcType src) (SrcURL src) (SrcContent src) (SrcFileName src)
             (SrcFileSize src) (SrcChunkCount src) (SrcMetadata src));
     DeleteSource := fun _ => None;
     ListNotes := fun _ =>
       Ok [mkNote "n1" "nb-1" "笔记" "text" "faq" [] ∅;
           mkNote "n2" "nb-1" "笔记" "text" "haiku" [] ∅;
           mkNote "n3" "nb-1" "My title" "text" "summary" [] ∅];
     CreateChatSession := fun _ _ => Ok "session-7";
     GetChatSession := fun _ => Ok [];
     AddChatMessage := fun _ _ _ _ => Some (errorString "database is locked");
     GetSourceByFileName := fun name =>
       if String.eqb name "tides_1a2b3c4d.pdf" then Some alice_notebook
       else None;
     GetNoteByFileName := fun name =>
       if String.eqb name "infograph_17.png" then Some alice_notebook
       else None |}.

Definition disk : Files :=
  {| Getwd := Ok "/srv/notex"; Exists := fun _ => true |}.

(** A vector store that extracts a fixed text and counts two chunks. *)
Definition two_chunks : Extractor :=
  {| ExtractFromURL := fun _ => Ok "fetched text";
     ExtractDocument := fun _ => Ok "extracted text";
     IngestText := fun _ _ _ => Ok 2;
     TotalDocuments := fun n => if (n =? 0)%nat then 5 else 7 |}.

(** A vector store whose extractors fail. *)
Definition unreadable : Extractor :=
  {| ExtractFromURL := fun _ => Err (errorString "unsupported format");
     ExtractDocument := fun _ => Err (errorString "unsupported format");
     IngestText := fun _ _ _ => Ok 0;
     TotalDocuments := fun _ => 0 |}.

Definition pdf_upload : Upload :=
  {| FormFile := Ok ("my.notes.pdf", 120);
     NewUUID := "1a2b3c4d-0000-4000-8000-000000000000";
     MkdirAll := fun _ => None;
     SaveUploadedFile := fun _ => None |}.

End Handlers.

(** ** Vocabulary for the properties of the handlers *)

Module HandlersMore.
Import GoStr GoErr Types Handlers.

(** The caller may use the notebook: it exists, and it has no owner or
    the caller owns it. *)
Definition may_access (st : Store) (notebookID userID : string) : Prop :=
  exists notebook,
    GetNotebook st notebookID = Ok notebook
    /\ (NbUserID notebook = "" \/ NbUserID notebook = userID).

(** A reply that refuses the caller. *)
Definition refused (r : reply) : Prop :=
  (Status r = 403 \/ Status r = 404)
  /\ exists msg, ReplyBody r = ErrorResponse msg.

Definition is_ingest (e : event) : bool :=
  match e with
  | CallIngestText _ _ _ => true
  | _ => false
  end.

Definition is_fetch (e : event) : bool :=
  match e with
  | CallExtractFromURL _ => true
  | _ => false
  end.

End HandlersMore.

(** ** Sample collaborators of the chat handlers *)

Module ChatHandlerSamples.
Import GoStr GoErr Types Handlers.

(** The store of [alice_store], saving every chat message. *)
Definition saving_store : Store :=
  {| GetNotebook := GetNotebook alice_store;
     UpdateNotebook := UpdateNotebook alice_store;
     DeleteNotebook := DeleteNotebook alice_store;
     SetNotebookPublic := SetNotebookPublic alice_store;
     ListSources := ListSources alice_store;
     GetSource := GetSource alice_store;
     CreateSource := CreateSource alice_store;
     DeleteSource := DeleteSource alice_store;
     ListNotes := ListNotes alice_store;
     CreateChatSession := CreateChatSession alice_store;
     GetChatSession := GetChatSession alice_store;
     AddChatMessage := fun _ _ _ _ => None;
     GetSourceByFileName := GetSourceByFileName alice_store;
     GetNoteByFileName := GetNoteByFileName alice_store |}.

(** A server whose notebook nb is already loaded over the index of two
    notebooks. *)
Definition loaded_server : Server.state (list VectorIndex.Chunk) :=
  Server.mkState _ {[ "nb" := true ]} ChatSamples.two_notebooks O.

Definition question : result ChatRequest :=
  Ok (mkChatRequest "salaries" "").

(** A file name without extension, and a vector store that extracts
    nothing from a document. *)
Definition bare_upload : Upload :=
  {| FormFile := Ok ("README", 12);
     NewUUID := "1a2b3c4d-0000-4000-8000-000000000000";
     MkdirAll := fun _ => None;
     SaveUploadedFile := fun _ => None |}.

End ChatHandlerSamples.

(** ** A notebook that already holds a slide deck *)

Module TransformSamples.
Import GoStr GoErr Types Server.

Definition one_deck : World :=
  {| ListSources := fun _ _ => Ok sample_sources;
     BindJSON := Ok (mkTransformationRequest "ppt" "medium" "markdown" "" []);
     ListNotes := fun _ =>
       Ok [mkNote "note-0" "nb" "幻灯片" "old deck" "ppt" [] ∅];
     Transform := fun req _ =>
       Ok (mkTransformationResponse (ReqType req) "text" [] 0 ∅);
     GenerateImage := fun n _ _ _ => Ok (image_path n);
     CreateNote := fun _ => Ok "note-1";
     CreateSource := fun _ => Ok "source-9" |}.

(** One note per type. *)
Definition strict_config : Config :=
  mkConfig 100000 5 false "gemini" "cogview" "z-image" "imagen".

End TransformSamples.

(** ** The source context in the prompt, and lengths counted in
       characters *)

Module PromptContext.
Import GoStr GoErr Types Agent.

(** A byte of the form 10xxxxxx continues a UTF-8 sequence; any other
    byte starts a character. *)
Definition is_continuation (c : ascii) : bool :=
  let n := nat_of_ascii c in (128 <=? n)%nat && (n <? 192)%nat.

(** The number of characters of a UTF-8 text
    ([utf8.RuneCountInString] on valid UTF-8). *)
Fixpoint rune_count (s : string) : Z :=
  match s with
  | EmptyString => 0
  | String c s' =>
      (if is_continuation c then 0 else 1) + rune_count s'
  end.

(** The first [n] characters of a UTF-8 text. *)
Fixpoint take_runes (n : nat) (s : string) : string :=
  match s with
  | EmptyString => EmptyString
  | String c s' =>
      if is_continuation c then String c (take_runes n s')
      else match n with
           | O => EmptyString
           | S n' => String c (take_runes n' s')
           end
  end.

(** The section of a source as the specification words it, with the
    lengths and the cut counted in characters. *)
Definition claimed_section_body (cfg : Config) (src : Source) : string :=
  let content := SourceContent src in
  if String.eqb content "" then placeholder src
  else if effective_limit cfg <? rune_count content
       then take_runes (Z.to_nat (effective_limit cfg)) content
              +:+ truncation_marker (rune_count content)
       else content.

Definition claimed_section (cfg : Config) (i : Z) (src : Source) : string :=
  section_label i src +:+ claimed_section_body cfg src +:+ nl.

(** [GenerateTransformation] from "Generate response" on (lines 110-161):
    what the agent does with the assembled prompt. *)
Definition respond_to_prompt (env : TransformEnv)
  (req : TransformationRequest) (sources : list Source)
  (promptValue : string) : list command * result TransformationResponse :=
  let respond (response : string) :=
    Ok (mkTransformationResponse (ReqType req) response
          (summaries_of sources) (Now env)
          {[ "length" := AString (ReqLength req);
             "format" := AString (ReqFormat req) ]}) in
  if String.eqb (ReqType req) "ppt" then
    match GenerateTextWithModel env promptValue "gemini-3-flash-preview" with
    | Err genErr => ([], Err (Errorf_w "failed to generate response: " genErr))
    | Ok response => ([], respond response)
    end
  else if String.eqb (ReqType req) "insight" then
    match GenerateText env promptValue with
    | Err err => ([], Err (Errorf_w "failed to generate summary: " err))
    | Ok summary =>
        match callDeepInsight (DeepInsightShell env) summary with
        | (cmds, Err err) =>
            (cmds, Err (Errorf_w "failed to generate deep insight: " err))
        | (cmds, Ok response) => (cmds, respond response)
        end
    end
  else
    match GenerateText env promptValue with
    | Err genErr => ([], Err (Errorf_w "failed to generate response: " genErr))
    | Ok response => ([], respond response)
    end.

(** A source of four characters in twelve bytes, one of six characters
    in eighteen bytes, and an agent whose template puts the sources
    between two fixed texts and whose model answers with its prompt. *)
Definition wide_source : Source :=
  mkSource "s1" "nb" "wide.txt" "file" "你好世界".

Definition wider_source : Source :=
  mkSource "s2" "nb" "wider.txt" "file" "你好世界你好".

Definition echo_template : TransformEnv :=
  {| FormatPrompt := fun sources _ _ _ _ =>
       Ok ("Sources:" +:+ sources +:+ "Answer:");
     GenerateTextWithModel := fun promptValue _ => Ok promptValue;
     GenerateText := fun promptValue => Ok promptValue;
     DeepInsightShell := tool_works;
     Now := 0 |}.

Definition summary_request : TransformationRequest :=
  mkTransformationRequest "summary" "short" "markdown" "" [].

End PromptContext.

(** ** Where the image clients save *)

Module ProviderPaths.
Import GoStr Filepath GoErr.

Fixpoint no_slash (s : string) : bool :=
  match s with
  | EmptyString => true
  | String c s' => negb (Ascii.eqb c "/") && no_slash s'
  end.

(** One plain path element: not empty, no slash, neither [.] nor
    [..]. *)
Definition plain (e : string) : bool :=
  no_slash e && negb (String.eqb e "") && negb (String.eqb e ".")
  && negb (String.eqb e "..").

(** The file name of a generated image, from the clock reading in
    nanoseconds. *)
Definition image_name (unixNano : Z) : string :=
  "infograph_" +:+ FormatInt unixNano +:+ ".png".

(** The upload directory of the GLM and the Z-Image client. *)
Definition user_dir (userID : string) : string :=
  if negb (String.eqb userID "")
  then JoinPath ["./data/uploads"; userID]
  else "./data/uploads".

Definition is_http_write (e : HTTPImage.event) : bool :=
  match e with
  | HTTPImage.DoWriteFile _ _ => true
  | _ => false
  end.

(** What a successful call of the GLM or the Z-Image client has done:
    it created the directory of the user (the shared one for an empty
    user id), wrote the image once, to the file named after the clock in
    that directory, and returns the path it wrote to. *)
Definition saved_for_user (w : HTTPImage.World) (userID : string)
  (ev : list HTTPImage.event) (path : string) : Prop :=
  path = JoinPath [user_dir userID; image_name (HTTPImage.UnixNano w)]
  /\ (userID = "" ->
      path = "data/uploads/" +:+ image_name (HTTPImage.UnixNano w))
  /\ (plain userID = true ->
      path = "data/uploads/" +:+ userID +:+ "/"
               +:+ image_name (HTTPImage.UnixNano w))
  /\ exists before data,
       ev = (before ++ [HTTPImage.DoMkdirAll (user_dir userID);
                        HTTPImage.DoWriteFile path data])%list
       /\ List.filter is_http_write before = []
       /\ HTTPImage.MkdirAll w (user_dir userID) = None
       /\ HTTPImage.WriteFile w path data = None.

End ProviderPaths.

(** * Properties *)

(** ** Byte strings *)

Module GoStrFacts.
Import GoStr.

(** stdpp keeps [append] folded under [simpl]; these are its equations. *)
Lemma append_nil_l (s : string) : "" +:+ s = s.
Proof. reflexivity. Qed.

Lemma append_cons (c : ascii) (s t : string) :
  String c s +:+ t = String c (s +:+ t).
Proof. reflexivity. Qed.

Lemma append_nil_r (s : string) : s +:+ "" = s.
Proof.
  induction s as [|c s IH]; [reflexivity|]. now rewrite append_cons, IH.
Qed.

Lemma append_assoc (a b c : string) : (a +:+ b) +:+ c = a +:+ (b +:+ c).
Proof.
  induction a as [|x a IH]; [reflexivity|]. now rewrite !append_cons, IH.
Qed.

Lemma length_append (a b : string) :
  String.length (a +:+ b) = (String.length a + String.length b)%nat.
Proof.
  induction a as [|x a IH]; [reflexivity|].
  rewrite append_cons. simpl. now rewrite IH.
Qed.

Lemma length_take (n : nat) (s : string) :
  String.length (take n s) = Nat.min n (String.length s).
Proof.
  revert s; induction n as [|n IH]; intros [|c s]; simpl; auto.
Qed.

Lemma length_drop (n : nat) (s : string) :
  String.length (drop n s) = (String.length s - n)%nat.
Proof.
  revert s; induction n as [|n IH]; intros [|c s]; simpl; auto.
Qed.

Lemma drop_drop (n m : nat) (s : string) :
  drop n (drop m s) = drop (m + n) s.
Proof.
  revert s; induction m as [|m IH]; intros s; simpl; [reflexivity|].
  destruct s as [|c s]; simpl; [now destruct n | apply IH].
Qed.

Lemma take_all (n : nat) (s : string) :
  (String.length s <= n)%nat -> take n s = s.
Proof.
  revert s; induction n as [|n IH]; intros [|c s] H; simpl in *;
    try reflexivity; try lia.
  f_equal. apply IH. lia.
Qed.

Lemma len_nonneg (s : string) : 0 <= len s.
Proof. unfold len. lia. Qed.

Lemma len_zero_empty (s : string) : len s = 0 -> s = "".
Proof. destruct s; unfold len; simpl; [reflexivity | lia]. Qed.

(** A slice within range is defined. *)
Lemma slice_in_range (s : string) (lo hi : Z) :
  0 <= lo -> lo <= hi -> hi <= len s ->
  slice s lo hi = Some (take (Z.to_nat (hi - lo)) (drop (Z.to_nat lo) s)).
Proof.
  intros H1 H2 H3. unfold slice.
  destruct (Z.leb_spec 0 lo); [|lia].
  destruct (Z.leb_spec lo hi); [|lia].
  destruct (Z.leb_spec hi (len s)); [|lia].
  reflexivity.
Qed.

Lemma prefix_length (p s : string) :
  String.prefix p s = true -> (String.length p <= String.length s)%nat.
Proof.
  revert p; induction s as [|d s IH]; intros [|c p] H; simpl in *;
    try lia; try discriminate.
  destruct (ascii_dec c d); [|discriminate].
  apply IH in H. lia.
Qed.

(** A prefix fixes the bytes at its offsets. *)
Lemma prefix_get (p s : string) (d : nat) :
  String.prefix p s = true -> (d < String.length p)%nat ->
  String.get d s = String.get d p.
Proof.
  revert p d; induction s as [|x s IH]; intros [|c p] d H Hd; simpl in *;
    try lia; try discriminate.
  destruct (ascii_dec c x) as [->|]; [|discriminate].
  destruct d as [|d]; [reflexivity|].
  apply IH; [assumption | lia].
Qed.

Lemma prefix_drop_get (c : ascii) (p s : string) (d : nat) :
  String.prefix (String c p) (drop d s) = true -> String.get d s = Some c.
Proof.
  revert s; induction d as [|d IH]; intros s H.
  - destruct s as [|x s]; simpl in H; [discriminate|].
    destruct (ascii_dec c x) as [->|]; [reflexivity | discriminate].
  - destruct s as [|x s]; [simpl in H; discriminate|].
    simpl. apply IH. exact H.
Qed.

Lemma Index_cons (c : ascii) (s sub : string) :
  Index (String c s) sub =
  if String.prefix sub (String c s) then 0
  else if Index s sub <? 0 then -1 else Index s sub + 1.
Proof. reflexivity. Qed.

Lemma Index_nil (sub : string) :
  Index "" sub = if String.prefix sub "" then 0 else -1.
Proof. reflexivity. Qed.

Lemma Index_lower (s sub : string) : -1 <= Index s sub.
Proof.
  induction s as [|c s IH].
  - rewrite Index_nil. destruct (String.prefix sub ""); lia.
  - rewrite Index_cons. destruct (String.prefix sub (String c s)); [lia|].
    destruct (Z.ltb_spec (Index s sub) 0); lia.
Qed.

(** A found occurrence lies inside the text. *)
Lemma Index_found (s sub : string) :
  0 <= Index s sub ->
  String.prefix sub (drop (Z.to_nat (Index s sub)) s) = true
  /\ Index s sub + len sub <= len s.
Proof.
  induction s as [|c s IH].
  - rewrite Index_nil. destruct (String.prefix sub "") eqn:E; [|lia].
    intros _. split; [exact E|]. apply prefix_length in E.
    unfold len. simpl in *. lia.
  - rewrite Index_cons. destruct (String.prefix sub (String c s)) eqn:E.
    + intros _. split; [exact E|]. apply prefix_length in E.
      unfold len. simpl in *. lia.
    + destruct (Z.ltb_spec (Index s sub) 0) as [Hlt|Hge]; [lia|].
      intros _. destruct (IH Hge) as [Hp Hl].
      replace (Z.to_nat (Index s sub + 1)) with (S (Z.to_nat (Index s sub)))
        by lia.
      split; [exact Hp|]. unfold len in *. simpl String.length. lia.
Qed.

(** [Split] always yields a piece, and two at least when the separator
    occurs. *)
Lemma SplitN_nonempty (n : nat) (s sep : string) : SplitN n s sep <> [].
Proof.
  destruct n; simpl; [discriminate|].
  destruct (Index s sep <? 0); discriminate.
Qed.

Lemma Split_tail_nonempty (s sep : string) :
  Contains s sep = true -> tail (Split s sep) <> [].
Proof.
  unfold Contains, Split. intros H. simpl.
  destruct (Z.ltb_spec (Index s sep) 0) as [Hlt|Hge].
  - apply Z.leb_le in H. lia.
  - simpl. apply SplitN_nonempty.
Qed.

(** The rounds [Split] allows are enough: one more changes nothing. *)
Lemma SplitN_enough (sep : string) :
  sep <> "" ->
  forall n s, (String.length s < n)%nat -> SplitN n s sep = SplitN (S n) s sep.
Proof.
  intros Hsep. assert (Hlen : (1 <= String.length sep)%nat).
  { destruct sep; [contradiction | simpl; lia]. }
  induction n as [|n IH]; intros s Hs; [lia|].
  cbn [SplitN]. destruct (Z.ltb_spec (Index s sep) 0) as [Hlt|Hge];
    [reflexivity|].
  f_equal. apply IH. rewrite length_drop.
  destruct (Index_found s sep Hge) as [_ Hin]. unfold len in Hin. lia.
Qed.

End GoStrFacts.

(** ** The slide parser *)

Module SlideParserFacts.
Import GoStr GoStrFacts Regexp SlideParser.

Lemma starts_within_weaken (lo lo' hi : Z) (l : list (Z * Z)) :
  lo' <= lo -> starts_within lo hi l -> starts_within lo' hi l.
Proof.
  destruct l as [|[a b] l]; simpl; [tauto|].
  intros Hle [Ha Hr]. split; [lia | exact Hr].
Qed.

(** The scan reports starts inside the text, left to right, whatever the
    pattern. *)
Lemma scan_starts (r : regex) (s : string) :
  forall prev pos skip,
    starts_within (Z.of_nat pos) (Z.of_nat (pos + String.length s))
      (scan r prev s pos skip).
Proof.
  induction s as [|c s IH]; intros prev pos skip; simpl; [exact I|].
  replace (Z.of_nat (pos + S (String.length s)))
    with (Z.of_nat (S pos + String.length s)) by lia.
  destruct skip as [|skip].
  - destruct (match_here r prev (String c s)) as [n|].
    + simpl. split; [lia|].
      replace (Z.of_nat pos + 1) with (Z.of_nat (S pos)) by lia. apply IH.
    + apply starts_within_weaken with (lo := Z.of_nat (S pos)); [lia | apply IH].
  - apply starts_within_weaken with (lo := Z.of_nat (S pos)); [lia | apply IH].
Qed.

Lemma FindAllStringIndex_starts (r : regex) (s : string) :
  starts_within 0 (len s) (FindAllStringIndex r s).
Proof. exact (scan_starts r s None O O). Qed.

(** With such starts no slice of the heading loop is out of range. *)
Lemma heading_slides_defined (ToLower : string -> string)
  (content style : string) (indices : list (Z * Z)) :
  forall lo slides,
    0 <= lo -> starts_within lo (len content) indices ->
    exists out, heading_slides ToLower content style indices slides = Some out.
Proof.
  induction indices as [|[start e] rest IH]; intros lo slides Hlo Hs.
  - exists slides. reflexivity.
  - destruct Hs as [Hstart Hrest].
    assert (Hend : start <= match rest with
                            | [] => len content
                            | (next, _) :: _ => next
                            end <= len content).
    { destruct rest as [|[next e'] rest']; [lia|].
      destruct Hrest as [Hn _]. lia. }
    cbn [heading_slides].
    rewrite slice_in_range by lia. cbn [mbind option_bind].
    eapply IH; [|exact Hrest]. lia.
Qed.

(** No byte of the opening tag after its first is the first byte of the
    closing tag, so the two cannot overlap. *)
Lemma style_tags_apart (content : string) :
  let styleStart := Index content style_open in
  let styleEnd := Index content style_close in
  0 <= styleStart -> styleStart < styleEnd -> styleStart + 20 <= styleEnd.
Proof.
  intros a b Ha Hab.
  destruct (Z.le_gt_cases (a + 20) b) as [Hok|Hbad]; [exact Hok | exfalso].
  destruct (Index_found content style_open Ha) as [Hopen _].
  assert (Hb : 0 <= b) by lia.
  destruct (Index_found content style_close Hb) as [Hclose _].
  fold a in Hopen. fold b in Hclose.
  set (d := Z.to_nat (b - a)).
  assert (Hd : (1 <= d < 20)%nat) by (unfold d; lia).
  replace (Z.to_nat b) with (Z.to_nat a + d)%nat in Hclose by (unfold d; lia).
  rewrite <- drop_drop in Hclose.
  apply prefix_drop_get in Hclose.
  rewrite (prefix_get style_open _ d Hopen) in Hclose
    by (change (String.length style_open) with 20%nat; lia).
  clear -Hd Hclose.
  do 20 (destruct d as [|d]; [first [lia | discriminate Hclose]|]).
  lia.
Qed.

Lemma style_defined (content : string) :
  let styleStart := Index content style_open in
  let styleEnd := Index content style_close in
  exists style,
    (if negb (styleStart =? -1) && (styleStart <? styleEnd)
     then slice content (styleStart + 20) styleEnd
     else Some "") = Some style.
Proof.
  intros a b.
  destruct (negb (a =? -1) && (a <? b)) eqn:E; [|eexists; reflexivity].
  apply andb_true_iff in E. destruct E as [E1 E2].
  apply negb_true_iff, Z.eqb_neq in E1. apply Z.ltb_lt in E2.
  assert (Ha : 0 <= a) by (pose proof (Index_lower content style_open); fold a in H; lia).
  pose proof (style_tags_apart content Ha E2) as Hap.
  assert (Hb : 0 <= b) by lia.
  destruct (Index_found content style_close Hb) as [_ Hlen].
  pose proof (len_nonneg style_close).
  fold a b in Hap, Hlen.
  rewrite slice_in_range by lia. eexists; reflexivity.
Qed.

(** The parser never hits a slice out of range. *)
Lemma ParsePPTSlides_defined (ToLower : string -> string) (content : string) :
  exists slides, ParsePPTSlides ToLower content = Some slides.
Proof.
  unfold ParsePPTSlides.
  destruct (style_defined content) as [style Hstyle]. cbv zeta in Hstyle.
  rewrite Hstyle. cbn [mbind option_bind].
  destruct (heading_slides_defined ToLower content style
              (FindAllStringIndex slide_heading content) 0 [])
    as [out Hout]; [lia | apply FindAllStringIndex_starts |].
  rewrite Hout. cbn [mbind option_bind]. eexists; reflexivity.
Qed.

Lemma ParsePPTSlides_result_nonempty (ToLower : string -> string)
  (content : string) (slides : list Slide) :
  ParsePPTSlides ToLower content = Some slides -> slides <> [].
Proof.
  unfold ParsePPTSlides. intros H.
  destruct (if negb (Index content style_open =? -1)
               && (Index content style_open <? Index content style_close)
            then slice content (Index content style_open + 20)
                   (Index content style_close)
            else Some "") as [style|]; [|discriminate H].
  cbn [mbind option_bind] in H.
  destruct (heading_slides ToLower content style
              (FindAllStringIndex slide_heading content) []) as [out|];
    [|discriminate H].
  cbn [mbind option_bind] in H. injection H as <-.
  destruct out as [|s0 out]; [|discriminate].
  destruct (marker_slides content style); discriminate.
Qed.

Lemma marker_slides_none (content style : string) :
  Contains content "// 叙事目标" = false ->
  Contains content "// NARRATIVE GOAL" = false ->
  marker_slides content style = [].
Proof.
  intros H1 H2. unfold marker_slides. rewrite H1, H2. reflexivity.
Qed.

(** C9. For every input text the slide parser returns (it never stops on a
    slice out of range) and the sequence it returns is not empty; for a text
    in which the heading pattern matches nowhere and neither narrative-goal
    marker occurs, it returns exactly one slide, whose content is the whole
    text. *)
Theorem ParsePPTSlides_nonempty (ToLower : string -> string) (content : string) :
  (exists slides,
      ParsePPTSlides ToLower content = Some slides /\ slides <> [])
  /\ (FindAllStringIndex slide_heading content = [] ->
      Contains content "// 叙事目标" = false ->
      Contains content "// NARRATIVE GOAL" = false ->
      exists style,
        ParsePPTSlides ToLower content = Some [mkSlide style content]).
Proof.
  split.
  - destruct (ParsePPTSlides_defined ToLower content) as [slides H].
    exists slides. split; [exact H|].
    exact (ParsePPTSlides_result_nonempty ToLower content slides H).
  - intros Hnone Hcn Hen. unfold ParsePPTSlides.
    destruct (style_defined content) as [style Hstyle]. cbv zeta in Hstyle.
    rewrite Hstyle, Hnone. cbn [mbind option_bind heading_slides].
    rewrite (marker_slides_none content style Hcn Hen).
    exists style. reflexivity.
Qed.

Lemma ParsePPTSlides_nonempty_witness :
  (exists slides,
      ParsePPTSlides ToLowerASCII "Plain notes without structure" = Some slides
      /\ slides <> [])
  /\ exists style,
      ParsePPTSlides ToLowerASCII "Plain notes without structure"
      = Some [mkSlide style "Plain notes without structure"].
Proof.
  destruct (ParsePPTSlides_nonempty ToLowerASCII "Plain notes without structure")
    as [Hne Hone].
  split; [exact Hne|]. apply Hone; reflexivity.
Defined.

(** The scenarios of the specification. *)
Example two_headed_slides :
  ParsePPTSlides ToLowerASCII
    ("<STYLE_INSTRUCTIONS>flat, blue</STYLE_INSTRUCTIONS>" +:+ nl
       +:+ "Slide 1: Tides" +:+ nl +:+ "// 叙事目标 open" +:+ nl
       +:+ "Slide 2: Moon" +:+ nl +:+ "// 叙事目标 explain")
  = Some [mkSlide "flat, blue"
            ("Slide 1: Tides" +:+ nl +:+ "// 叙事目标 open" +:+ nl);
          mkSlide "flat, blue"
            ("Slide 2: Moon" +:+ nl +:+ "// 叙事目标 explain")].
Proof. vm_compute. reflexivity. Qed.

Example marker_only_slides :
  ParsePPTSlides ToLowerASCII
    ("intro // NARRATIVE GOAL first" +:+ nl +:+ "// NARRATIVE GOAL second")
  = Some [mkSlide "" ("// NARRATIVE GOAL first" +:+ nl);
          mkSlide "" "// NARRATIVE GOAL second"].
Proof. vm_compute. reflexivity. Qed.

(** A heading directly under a heading line is swallowed by the first match:
    the class after the number takes the newline. *)
Example heading_swallows_next_line :
  FindAllStringIndex slide_heading ("Slide 1:" +:+ nl +:+ "Slide 2: b")
  = [(0, 19)].
Proof. vm_compute. reflexivity. Qed.

End SlideParserFacts.

(** ** The retry policy of the Gemini image call *)

Module GeminiFacts.
Import GoStr Filepath GoErr Gemini.

Lemma attempt_loop_ok (w : World) (model prompt : string) (attempt : Z)
  (rest : list Z) (lastErr : option error) (d : list ascii) :
  outcome w attempt model prompt = Ok d ->
  attempt_loop w model prompt (attempt :: rest) lastErr
  = then_save w (fst (attempt_once w attempt model prompt)) d.
Proof.
  unfold outcome, then_save. cbn [attempt_loop].
  destruct (attempt_once w attempt model prompt) as [ev r]. cbn [fst snd].
  intros ->. destruct (save_image w d) as [ev' r']. reflexivity.
Qed.

Lemma attempt_loop_err (w : World) (model prompt : string) (attempt : Z)
  (rest : list Z) (lastErr : option error) (e : error) :
  outcome w attempt model prompt = Err e ->
  attempt_loop w model prompt (attempt :: rest) lastErr
  = ((fst (attempt_once w attempt model prompt)
        ++ fst (attempt_loop w model prompt rest (Some e)))%list,
     snd (attempt_loop w model prompt rest (Some e))).
Proof.
  unfold outcome. cbn [attempt_loop].
  destruct (attempt_once w attempt model prompt) as [ev r]. cbn [fst snd].
  intros ->. destruct (attempt_loop w model prompt rest (Some e)) as [ev' r'].
  reflexivity.
Qed.

Lemma attempts_made_app (a b : list event) :
  attempts_made (a ++ b) = (attempts_made a + attempts_made b)%nat.
Proof. unfold attempts_made. now rewrite List.filter_app, length_app. Qed.

Lemma attempts_made_save (w : World) (d : list ascii) :
  attempts_made (fst (save_image w d)) = O.
Proof.
  unfold save_image. destruct (MkdirAll w _); [reflexivity|].
  destruct (WriteFile w _ _); reflexivity.
Qed.

Lemma attempts_made_once (w : World) (attempt : Z) (model prompt : string) :
  attempts_made (fst (attempt_once w attempt model prompt)) = 1%nat.
Proof.
  unfold attempt_once. cbn [fst]. destruct (1 <? attempt); reflexivity.
Qed.

(** The loop calls upstream at most once per value of its counter. *)
Lemma attempt_loop_bound (w : World) (model prompt : string) (attempts : list Z) :
  forall lastErr,
    (attempts_made (fst (attempt_loop w model prompt attempts lastErr))
     <= length attempts)%nat.
Proof.
  induction attempts as [|a rest IH]; intros lastErr.
  - cbn. lia.
  - destruct (outcome w a model prompt) as [d|e] eqn:E.
    + rewrite (attempt_loop_ok _ _ _ _ _ _ _ E). unfold then_save. cbn [fst].
      rewrite attempts_made_app, attempts_made_once, attempts_made_save.
      cbn [length]. lia.
    + rewrite (attempt_loop_err _ _ _ _ _ _ _ E). cbn [fst].
      rewrite attempts_made_app, attempts_made_once.
      specialize (IH (Some e)). cbn [length]. lia.
Qed.

Lemma attempt_once_first (w : World) (model prompt : string) :
  fst (attempt_once w 1 model prompt) = first_attempt model prompt.
Proof. reflexivity. Qed.

Lemma attempt_once_retry (w : World) (attempt : Z) (model prompt : string) :
  1 < attempt ->
  fst (attempt_once w attempt model prompt) = retry attempt model prompt.
Proof.
  intros H. unfold attempt_once, retry. cbn [fst].
  destruct (Z.ltb_spec 1 attempt); [reflexivity | lia].
Qed.

(** What counts as a failed attempt. *)
Lemma outcome_failures (w : World) (attempt : Z) (model prompt : string) :
  (forall err, GenerateContent w attempt model prompt = Err err ->
               outcome w attempt model prompt = Err err)
  /\ (forall resp, GenerateContent w attempt model prompt = Ok resp ->
                   Candidates resp = [] ->
                   outcome w attempt model prompt
                   = Err (errorString "no candidates generated"))
  /\ (forall resp c0 rest content,
         GenerateContent w attempt model prompt = Ok resp ->
         Candidates resp = c0 :: rest -> CandContent c0 = Some content ->
         first_inline (Parts content) = [] ->
         outcome w attempt model prompt
         = Err (errorString "no image data in response")).
Proof.
  unfold outcome, attempt_once. cbn [snd]. repeat split.
  - intros err ->. reflexivity.
  - intros resp -> ->. reflexivity.
  - intros resp c0 rest content -> -> -> ->. reflexivity.
Qed.

Lemma save_image_ok (w : World) (d : list ascii) :
  MkdirAll w "./data/uploads" = None ->
  WriteFile w (saved_path w) d = None ->
  save_image w d
  = ([DoMkdirAll "./data/uploads"; DoWriteFile (saved_path w) d],
     Ok (saved_path w)).
Proof.
  intros Hm Hw. unfold save_image. rewrite Hm.
  fold (saved_path w). rewrite Hw. reflexivity.
Qed.



(** Three failures in a row: three calls, and the error of the third inside
    the returned one. *)
Example GenerateImage_three_failures :
  GenerateImage "key" down_world "imagen" "a cat"
  = ([WithTimeout (300 * Second); CallGenerateContent 1 "imagen" "a cat";
      Cancel;
      Sleep (2 * Second); WithTimeout (300 * Second);
      CallGenerateContent 2 "imagen" "a cat"; Cancel;
      Sleep (2 * Second); WithTimeout (300 * Second);
      CallGenerateContent 3 "imagen" "a cat"; Cancel],
     Err (wrapError "failed to generate image after 3 attempts: timeout 3"
            (errorString "timeout 3"))).
Proof. reflexivity. Qed.

End GeminiFacts.

(** ** The DeepInsight step *)

Module DeepInsightFacts.
Import GoStr GoErr Agent.

(** The command that removes the report is issued exactly when both the tool
    and the read succeed: the two error returns leave before it. *)
Lemma cleanup_only_on_success (sh : Shell) (summary : string) :
  existsb (removes (tmpFile_of sh)) (fst (callDeepInsight sh summary))
  = is_ok (snd (callDeepInsight sh summary)).
Proof.
  unfold callDeepInsight. fold (tmpFile_of sh).
  destruct (CombinedOutput sh _) as [output [err|]]; [reflexivity|].
  destruct (CombinedOutput sh _) as [report [err|]]; [reflexivity|].
  cbn [fst snd is_ok]. unfold removes. cbn.
  rewrite String.eqb_refl. cbn. reflexivity.
Qed.

(** C3, at a failing input.  When the DeepInsight command exits with an
    error, [callDeepInsight] returns that error after the one command: no
    command removes the temporary report file.  The same holds when the
    report cannot be read back.  Only the run in which both commands succeed
    ends with the removal. *)
Theorem callDeepInsight_failure_leaves_report :
  callDeepInsight tool_fails "summary"
  = ([mkCommand (WithTimeout (10 * Minute)) "./DeepInsight"
        ["-o"; "./tmp/deepinsight_report_1700000000.md"; "'summary'"]],
     Err (wrapError
            "DeepInsight command failed: exit status 1, output: fatal: model quota exceeded"
            (errorString "exit status 1")))
  /\ existsb (removes "./tmp/deepinsight_report_1700000000.md")
       (fst (callDeepInsight tool_fails "summary")) = false
  /\ existsb (removes "./tmp/deepinsight_report_1700000000.md")
       (fst (callDeepInsight read_fails "summary")) = false
  /\ existsb (removes "./tmp/deepinsight_report_1700000000.md")
       (fst (callDeepInsight tool_works "summary")) = true.
Proof. repeat split. Qed.

(** The same inside an insight transformation: the request fails and the
    one command it ran is the tool. *)
Example insight_failure_leaves_report :
  GenerateTransformation (insight_env tool_fails) tiny_limit insight_request
    three_sources
  = Some ([mkCommand (WithTimeout (10 * Minute)) "./DeepInsight"
             ["-o"; "./tmp/deepinsight_report_1700000000.md"; "'summary'"]],
          Err (wrapError
                 "failed to generate deep insight: DeepInsight command failed: exit status 1, output: fatal: model quota exceeded"
                 (wrapError
                    "DeepInsight command failed: exit status 1, output: fatal: model quota exceeded"
                    (errorString "exit status 1")))).
Proof. vm_compute. reflexivity. Qed.

Example escapeShellArg_quote :
  escapeShellArg "it's" = String "'" ("it" +:+ quote_escape +:+ "s'").
Proof. reflexivity. Qed.

End DeepInsightFacts.

(** ** Prompt assembly for transformations *)

Module SourceContextFacts.
Import GoStr GoStrFacts GoErr Types Agent PromptContext.

Lemma effective_limit_pos (cfg : Config) : 0 < effective_limit cfg.
Proof.
  unfold effective_limit. destruct (Z.leb_spec (MaxContextLength cfg) 0); lia.
Qed.

Lemma effective_limit_spec (cfg : Config) :
  (MaxContextLength cfg <= 0 -> effective_limit cfg = 100000)
  /\ (0 < MaxContextLength cfg -> effective_limit cfg = MaxContextLength cfg).
Proof.
  unfold effective_limit.
  destruct (Z.leb_spec (MaxContextLength cfg) 0); split; intros; lia.
Qed.

(** One round of the loop appends the section of the source. *)
Lemma write_source_section (cfg : Config) (i : Z) (src : Source) (sb : string) :
  write_source cfg i src sb = Some (sb +:+ spec_section cfg i src).
Proof.
  unfold write_source, spec_section, spec_section_body.
  fold (effective_limit cfg). fold (section_label i src).
  fold (placeholder src). fold (truncation_marker (len (SourceContent src))).
  pose proof (effective_limit_pos cfg) as Hpos.
  destruct (String.eqb_spec (SourceContent src) "") as [Hempty|Hfull];
    cbn [negb].
  - cbn [mbind option_bind]. now rewrite ?append_assoc.
  - destruct (Z.leb_spec (len (SourceContent src)) (effective_limit cfg))
      as [Hfit|Hover].
    + destruct (Z.ltb_spec (effective_limit cfg) (len (SourceContent src)));
        [lia|].
      cbn [mbind option_bind]. now rewrite ?append_assoc.
    + destruct (Z.ltb_spec (effective_limit cfg) (len (SourceContent src)));
        [|lia].
      rewrite slice_in_range by lia.
      cbn [mbind option_bind drop]. rewrite Z.sub_0_r.
      change (Z.to_nat 0) with O. cbn [drop].
      now rewrite ?append_assoc.
Qed.

Lemma write_sources_sections (cfg : Config) (sources : list Source) :
  forall i sb,
    write_sources cfg i sources sb = Some (sb +:+ spec_sections cfg i sources).
Proof.
  induction sources as [|src rest IH]; intros i sb; cbn [write_sources spec_sections].
  - now rewrite append_nil_r.
  - rewrite write_source_section. cbn [mbind option_bind].
    rewrite IH. now rewrite append_assoc.
Qed.

Lemma take_length_exact (n : Z) (s : string) :
  0 <= n -> n < len s -> len (take (Z.to_nat n) s) = n.
Proof.
  intros H0 Hlt. unfold len in *. rewrite length_take. lia.
Qed.

Lemma spec_sections_app (cfg : Config) (pre : list Source) :
  forall i post,
    spec_sections cfg i (pre ++ post)
    = spec_sections cfg i pre
        +:+ spec_sections cfg (i + Z.of_nat (length pre)) post.
Proof.
  induction pre as [|src pre IH]; intros i post.
  - cbn [app spec_sections length]. rewrite append_nil_l.
    now replace (i + Z.of_nat 0) with i by lia.
  - cbn [app spec_sections length]. rewrite IH, append_assoc.
    now replace (i + 1 + Z.of_nat (length pre))
      with (i + Z.of_nat (S (length pre))) by lia.
Qed.

Lemma spec_section_body_cases (cfg : Config) (src : Source) :
  let limit := if MaxContextLength cfg <=? 0 then 100000
               else MaxContextLength cfg in
  let content := SourceContent src in
  (limit < len content ->
   spec_section_body cfg src
   = take (Z.to_nat limit) content
       +:+ (nl +:+ "... [Content truncated, total length: "
              +:+ FormatInt (len content) +:+ "]")
   /\ len (take (Z.to_nat limit) content) = limit)
  /\ (content <> "" -> len content <= limit ->
      spec_section_body cfg src = content)
  /\ (content = "" ->
      spec_section_body cfg src
      = "[Source content: " +:+ SourceName src +:+ ", type: "
          +:+ SourceType src +:+ "]").
Proof.
  intros limit content.
  assert (Hlimit : limit = effective_limit cfg) by reflexivity.
  pose proof (effective_limit_pos cfg) as Hpos.
  unfold spec_section_body. fold content. rewrite <- Hlimit.
  split; [|split].
  - intros Hover. split; [|apply take_length_exact; lia].
    destruct (String.eqb_spec content "") as [He|_].
    + rewrite He in Hover. unfold len in Hover. simpl in Hover. lia.
    + now destruct (Z.ltb_spec limit (len content)); [|lia].
  - intros Hne Hfit.
    destruct (String.eqb_spec content ""); [contradiction|].
    now destruct (Z.ltb_spec limit (len content)); [lia|].
  - intros He. now destruct (String.eqb_spec content ""); [|contradiction].
Qed.

Lemma GenerateTransformation_prompt (env : TransformEnv) (cfg : Config)
  (req : TransformationRequest) (sources : list Source) :
  GenerateTransformation env cfg req sources
  = Some match FormatPrompt env (spec_sections cfg 0 sources) (ReqType req)
                 (ReqLength req) (ReqFormat req) (ReqPrompt req) with
         | Err err => ([], Err (Errorf_w "failed to format prompt: " err))
         | Ok promptValue => respond_to_prompt env req sources promptValue
         end.
Proof.
  unfold GenerateTransformation, sourceContext.
  rewrite write_sources_sections, append_nil_l. cbn [mbind option_bind].
  reflexivity.
Qed.




End SourceContextFacts.

(** ** Chat *)

Module ChatFacts.
Import GoStr GoStrFacts GoErr Types Agent VectorIndex ChatSamples.

(** The history loop writes the turns it meets before its counter reaches
    10. *)
Lemma write_history_firstn (history : list ChatMessage) :
  forall (i : nat) (sb : string),
    write_history (Z.of_nat i) history sb
    = sb +:+ render_turns (firstn (10 - i) history).
Proof.
  induction history as [|msg rest IH]; intros i sb; cbn [write_history].
  - rewrite firstn_nil. cbn [render_turns]. now rewrite append_nil_r.
  - destruct (Z.leb_spec 10 (Z.of_nat i)) as [Hstop|Hgo].
    + replace (10 - i)%nat with O by lia. cbn [firstn render_turns].
      now rewrite append_nil_r.
    + replace (10 - i)%nat with (S (10 - S i)) by lia.
      cbn [firstn render_turns].
      replace (Z.of_nat i + 1) with (Z.of_nat (S i)) by lia.
      rewrite IH. fold (turn_line msg). now rewrite append_assoc.
Qed.




(** The notebook id reaches nothing in [Chat] but the session id of the
    answer: the search, the prompt and the source list are the same for any
    two notebooks. *)
Lemma Chat_notebook_only_session (env : ChatEnv) (cfg : Config)
  (nb1 nb2 message : string) (history : list ChatMessage) :
  match Chat env cfg nb1 message history, Chat env cfg nb2 message history with
  | Ok r1, Ok r2 =>
      Message r1 = Message r2 /\ Sources r1 = Sources r2
      /\ ChatMetadata r1 = ChatMetadata r2
      /\ SessionID r1 = nb1 /\ SessionID r2 = nb2
  | Err e1, Err e2 => e1 = e2
  | _, _ => False
  end.
Proof.
  unfold Chat.
  destruct (Agent.SimilaritySearch env message (MaxSources cfg)) as [docs|e];
    [|reflexivity].
  destruct (FormatChatPrompt env _ _ message) as [promptValue|e]; [|reflexivity].
  destruct (GenerateFromSinglePrompt env promptValue) as [response|e];
    [|reflexivity].
  cbn. auto.
Qed.

Lemma In_firstn {A : Type} (x : A) (n : nat) (l : list A) :
  In x (firstn n l) -> In x l.
Proof.
  revert l; induction n as [|n IH]; intros [|a l] H; cbn in *; try tauto.
  destruct H as [->|H]; [now left | right; now apply IH].
Qed.

(** Whatever the search is: a document it returns for a message is written
    into the context of a chat against any notebook, so the context is not
    scoped to the requested one. *)
Lemma retrieval_cannot_be_scoped (env : ChatEnv) (cfg : Config)
  (message nb nb' : string) (d : Document) :
  In d (retrieved env cfg message) -> notebook_of d = Some nb' -> nb <> nb' ->
  ~ (forall d', In d' (retrieved env cfg message) -> notebook_of d' = Some nb).
Proof.
  intros Hin Htag Hne Hall. specialize (Hall d Hin).
  rewrite Htag in Hall. injection Hall as ->. contradiction.
Qed.

(** The search of the specification, given the notebook, stays inside it. *)
Lemma Search_scoped (score : string -> string -> Z) (vs : list Chunk)
  (nb query : string) (k : Z) (d : Document) :
  In d (Search score vs nb query k) -> notebook_of d = Some nb.
Proof.
  unfold Search. intros Hin. apply in_map_iff in Hin.
  destruct Hin as (c & <- & Hc).
  assert (Hall : forall l, (forall x, In x l -> ChunkNotebookID x = nb) ->
                           forall x, In x (ranked score query l) ->
                                     ChunkNotebookID x = nb).
  { induction l as [|a l IH]; intros Hl x Hx; [contradiction|].
    cbn [ranked fold_right] in Hx. fold (ranked score query l) in Hx.
    assert (Hins : forall r, In x (insert_ranked score query a r) ->
                             x = a \/ In x r).
    { induction r as [|b r IHr]; cbn [insert_ranked]; intros Hr.
      - destruct Hr as [<-|[]]. now left.
      - destruct (_ <=? _).
        + destruct Hr as [<-|Hr]; [now left | now right].
        + destruct Hr as [<-|Hr]; [right; now left|].
          destruct (IHr Hr) as [->|Hr']; [now left | right; now right]. }
    destruct (Hins _ Hx) as [->|Hx'].
    - apply Hl. now left.
    - apply IH; [|exact Hx']. intros y Hy. apply Hl. now right. }
  apply In_firstn in Hc.
  specialize (Hall _ (fun x Hx =>
    proj1 (String.eqb_eq _ _) (proj2 (proj1 (filter_In _ x vs) Hx))) c Hc).
  unfold notebook_of, to_document. cbn [DocMetadata].
  rewrite lookup_insert_ne by discriminate.
  rewrite lookup_singleton_eq. cbn. now rewrite Hall.
Qed.

(** C1, at a failing input.  The index holds a source of notebook nb-A and a
    source of notebook nb-B.  A chat against nb-A retrieves the chunk of
    nb-B first, writes its text and source name into the prompt context and
    lists its source in the answer. *)
Theorem Chat_retrieves_other_notebook :
  map notebook_of (retrieved (agent_on two_notebooks) chat_config "salaries")
  = [Some "nb-B"; Some "nb-A"]
  /\ contextBlock (retrieved (agent_on two_notebooks) chat_config "salaries")
     = "来源中的相关信息：" +:+ nl +:+ nl
        +:+ "[来源 1] beta: salaries of team B" +:+ nl
        +:+ "来源: b.txt" +:+ nl +:+ nl
        +:+ "[来源 2] alpha: plans of team A" +:+ nl
        +:+ "来源: a.txt" +:+ nl +:+ nl
  /\ (exists r,
        Chat (agent_on two_notebooks) chat_config "nb-A" "salaries" [] = Ok r
        /\ SessionID r = "nb-A"
        /\ Sources r = [mkSourceSummary "b.txt" "b.txt" "file";
                        mkSourceSummary "a.txt" "a.txt" "file"])
  /\ map notebook_of (Search contains_query two_notebooks "nb-A" "salaries" 5)
     = [Some "nb-A"].
Proof.
  split; [vm_compute; reflexivity|].
  split; [vm_compute; reflexivity|].
  split; [|vm_compute; reflexivity].
  eexists. split; [reflexivity|]. split; vm_compute; reflexivity.
Qed.

End ChatFacts.

(** ** The on-demand index loader *)

Module LoaderFacts.
Import GoStr GoErr Types Server.

Section AnyVectorStore.

Variable VectorStore : Type.
Variable IngestText :
  VectorStore -> string -> string -> string -> VectorStore * result Z.

Local Abbreviation state := (Server.state VectorStore).
Local Abbreviation load := (loadNotebookVectorIndex VectorStore IngestText).
Local Abbreviation load_many := (load_repeatedly VectorStore IngestText).
Local Abbreviation loaded s nb :=
  (default false (loadedNotebooks VectorStore s !! nb)).

(** One pass over the sources calls the ingestion once per source with
    content, in order, and skips the others, whatever each call returns. *)
Lemma load_sources_events (notebookID : string) (sources : list Source) :
  forall vs,
    snd (load_sources VectorStore IngestText notebookID sources vs)
    = ingests_of notebookID sources.
Proof.
  induction sources as [|src rest IH]; intros vs; [reflexivity|].
  cbn [load_sources]. unfold ingests_of. cbn [List.filter].
  destruct (negb (String.eqb (SourceContent src) "")).
  - destruct (IngestText vs notebookID (SourceName src) (SourceContent src))
      as [vs' r].
    specialize (IH vs').
    destruct (load_sources VectorStore IngestText notebookID rest vs')
      as [vs'' ev].
    cbn [snd map] in *. now rewrite IH.
  - apply IH.
Qed.

Lemma load_when_loaded (w : World) (s : state) (notebookID : string) :
  loaded s notebookID = true ->
  load w s notebookID = (s, [], None).
Proof. intros H. unfold loadNotebookVectorIndex. now rewrite H. Qed.

Lemma load_many_when_loaded (w : World) (n : nat) (s : state)
  (notebookID : string) :
  loaded s notebookID = true ->
  load_many w n s notebookID = (s, []).
Proof.
  intros H. induction n as [|n IH]; [reflexivity|].
  cbn [load_repeatedly]. rewrite (load_when_loaded w s notebookID H).
  now rewrite IH.
Qed.

Lemma load_first (w : World) (s : state) (notebookID : string)
  (sources : list Source) :
  loaded s notebookID = false ->
  ListSources w (listings VectorStore s) notebookID = Ok sources ->
  exists s',
    load w s notebookID
    = (s', CallListSources notebookID :: ingests_of notebookID sources, None)
    /\ loaded s' notebookID = true.
Proof.
  intros Hnot Hlist. unfold loadNotebookVectorIndex. rewrite Hnot, Hlist.
  pose proof (load_sources_events notebookID sources
                (vectorStore VectorStore s)) as Hev.
  destruct (load_sources VectorStore IngestText notebookID sources
              (vectorStore VectorStore s)) as [vs ev].
  cbn [snd] in Hev. subst ev. eexists. split; [reflexivity|].
  cbn [loadedNotebooks]. now rewrite lookup_insert_eq.
Qed.

Lemma ingests_have_content (notebookID : string) (sources : list Source)
  (name : string) :
  ~ In (CallIngestText notebookID name "") (ingests_of notebookID sources).
Proof.
  unfold ingests_of. intros Hin. apply in_map_iff in Hin.
  destruct Hin as (src & Heq & Hsrc). apply filter_In in Hsrc.
  destruct Hsrc as [_ Hne]. injection Heq as _ Hc.
  rewrite Hc in Hne. discriminate Hne.
Qed.

Lemma ingests_are_ingests (notebookID : string) (sources : list Source) :
  List.filter is_ingest (ingests_of notebookID sources)
  = ingests_of notebookID sources.
Proof.
  unfold ingests_of.
  induction (List.filter _ sources) as [|src rest IH]; [reflexivity|].
  cbn [map List.filter is_ingest]. now rewrite IH.
Qed.

(** Any number of invocations on a notebook that is not loaded: listings
    that fail change nothing, the first one that succeeds is the one load. *)
Lemma load_many_ingests (w : World) (notebookID : string) (n : nat) :
  forall s,
    loaded s notebookID = false ->
    List.filter is_ingest (snd (load_many w n s notebookID))
    = match first_listing w notebookID (listings VectorStore s) n with
      | Some sources => ingests_of notebookID sources
      | None => []
      end.
Proof.
  induction n as [|n IH]; intros s Hnot; [reflexivity|].
  cbn [first_listing].
  destruct (ListSources w (listings VectorStore s) notebookID)
    as [sources|err] eqn:Hlist.
  - destruct (load_first w s notebookID sources Hnot Hlist) as (s' & Hload & Hs').
    cbn [load_repeatedly]. rewrite Hload.
    rewrite (load_many_when_loaded w n s' notebookID Hs').
    cbn [snd]. rewrite app_nil_r. cbn [List.filter is_ingest].
    apply ingests_are_ingests.
  - cbn [load_repeatedly]. unfold loadNotebookVectorIndex at 1.
    rewrite Hnot, Hlist.
    set (s1 := mkState VectorStore (loadedNotebooks VectorStore s)
                 (vectorStore VectorStore s) (S (listings VectorStore s))).
    specialize (IH s1 Hnot).
    destruct (load_repeatedly VectorStore IngestText w n s1 notebookID)
      as [s2 ev]. cbn [snd app List.filter is_ingest] in *. exact IH.
Qed.

(** C8. Once a notebook is marked loaded, an invocation of the loader
    returns at once: no listing, no ingestion, no error, the state as it
    was.  A load whose listing succeeds lists once, calls the ingestion once
    for every source with content, in order, skips a source without content,
    returns no error and marks the notebook; so any number of invocations,
    one after the other as the mutex serialises them, makes exactly the
    calls of that one load.  When listings fail first, the ingestion calls
    of any number of invocations are those of the first listing that
    succeeds, each once. *)
Theorem loadNotebookVectorIndex_idempotent (w : World) (s : state)
  (notebookID : string) :
  (loaded s notebookID = true ->
   load w s notebookID = (s, [], None)
   /\ forall n, load_many w n s notebookID = (s, []))
  /\ (forall sources,
         loaded s notebookID = false ->
         ListSources w (listings VectorStore s) notebookID = Ok sources ->
         exists s',
           load w s notebookID
           = (s', CallListSources notebookID :: ingests_of notebookID sources, None)
           /\ loaded s' notebookID = true
           /\ (forall n,
                  load_many w (S n) s notebookID
                  = (s', CallListSources notebookID
                           :: ingests_of notebookID sources))
           /\ (forall name,
                  ~ In (CallIngestText notebookID name "")
                       (ingests_of notebookID sources)))
  /\ (forall n,
         loaded s notebookID = false ->
         List.filter is_ingest (snd (load_many w n s notebookID))
         = match first_listing w notebookID (listings VectorStore s) n with
           | Some sources => ingests_of notebookID sources
           | None => []
           end).
Proof.
  split; [|split].
  - intros H. split; [exact (load_when_loaded w s notebookID H)|].
    intros n. exact (load_many_when_loaded w n s notebookID H).
  - intros sources Hnot Hlist.
    destruct (load_first w s notebookID sources Hnot Hlist) as (s' & Hload & Hs').
    exists s'. split; [exact Hload|]. split; [exact Hs'|]. split.
    + intros n. cbn [load_repeatedly]. rewrite Hload.
      rewrite (load_many_when_loaded w n s' notebookID Hs').
      now rewrite app_nil_r.
    + intros name. apply ingests_have_content.
  - intros n Hnot. exact (load_many_ingests w notebookID n s Hnot).
Qed.

End AnyVectorStore.

(** Three invocations on a fresh server whose store lists three sources, one
    of them without content: one listing and two ingestions in all. *)
Lemma loadNotebookVectorIndex_idempotent_witness :
  snd (load_repeatedly (list VectorIndex.Chunk)
         (VectorIndex.IngestText VectorIndex.whole_text) all_images 3
         (mkState _ ∅ [] O) "nb")
  = [CallListSources "nb";
     CallIngestText "nb" "long.txt" "hello world";
     CallIngestText "nb" "short.txt" "hi"]
  /\ load_repeatedly (list VectorIndex.Chunk)
       (VectorIndex.IngestText VectorIndex.whole_text) all_images 2
       (mkState _ {[ "nb" := true ]} [] O) "nb"
     = (mkState _ {[ "nb" := true ]} [] O, [])
  /\ List.filter is_ingest
       (snd (load_repeatedly (list VectorIndex.Chunk)
               (VectorIndex.IngestText VectorIndex.whole_text) flaky_store 3
               (mkState _ ∅ [] O) "nb"))
     = [CallIngestText "nb" "long.txt" "hello world";
        CallIngestText "nb" "short.txt" "hi"].
Proof.
  pose (IngestText := VectorIndex.IngestText VectorIndex.whole_text).
  split; [|split].
  - destruct (loadNotebookVectorIndex_idempotent (list VectorIndex.Chunk)
                IngestText all_images (mkState _ ∅ [] O) "nb")
      as (_ & Hfresh & _).
    destruct (Hfresh sample_sources eq_refl eq_refl) as (s' & _ & _ & Hmany & _).
    pose proof (Hmany 2%nat) as H. fold IngestText.
    rewrite H. reflexivity.
  - destruct (loadNotebookVectorIndex_idempotent (list VectorIndex.Chunk)
                IngestText all_images (mkState _ {[ "nb" := true ]} [] O) "nb")
      as (Hloaded & _ & _).
    exact (proj2 (Hloaded eq_refl) 2%nat).
  - destruct (loadNotebookVectorIndex_idempotent (list VectorIndex.Chunk)
                IngestText flaky_store (mkState _ ∅ [] O) "nb")
      as (_ & _ & Hany).
    exact (Hany 3%nat eq_refl).
Defined.

End LoaderFacts.

(** ** The transformation handler after generation *)

Module HandlerFacts.
Import GoStr Filepath GoErr Types SlideParser Server.

Section AnyVectorStore.

Variable VectorStore : Type.
Variable IngestText :
  VectorStore -> string -> string -> string -> VectorStore * result Z.
Variable ToLower : string -> string.

Local Abbreviation state := (Server.state VectorStore).
Local Abbreviation save := (save_transformation VectorStore IngestText ToLower).

(** The slide loop calls the provider once per slide, in order, and keeps
    the URL of every call that succeeds. *)
Lemma slide_images_spec (w : World) (imageModel userID style0 : string)
  (slides : list Slide) :
  forall n slideURLs,
    slide_images w imageModel userID style0 slides n slideURLs
    = (slide_calls imageModel userID style0 slides,
       (slideURLs ++ slide_urls w imageModel userID style0 slides n)%list).
Proof.
  induction slides as [|slide rest IH]; intros n slideURLs.
  - cbn. now rewrite app_nil_r.
  - cbn [slide_images slide_urls slide_calls map]. rewrite IH.
    fold (slide_calls imageModel userID style0 rest).
    destruct (GenerateImage w n imageModel (slide_prompt style0 slide) userID);
      cbn [app]; [now rewrite <- app_assoc | reflexivity].
Qed.

(** The ppt branch, by the number of slides. *)
Lemma ppt_step_slides (w : World) (cfg : Config) (userID : string)
  (req : TransformationRequest) (response : TransformationResponse)
  (metadata : gmap string any) (slides : list Slide) :
  ReqType req = "ppt" ->
  ParsePPTSlides ToLower (RespContent response) = Some slides ->
  ppt_step ToLower w cfg userID req response metadata
  = Some (if 10 <? Z.of_nat (length slides)
          then ([], <["image_error" := AString over_limit_message]> metadata)
          else (slide_calls (getImageModelForProvider cfg) userID
                  (first_style slides) slides,
                <["slides" := AStrings
                     (slide_urls w (getImageModelForProvider cfg) userID
                        (first_style slides) slides 0)]> metadata)).
Proof.
  intros Hppt Hparse. unfold ppt_step. rewrite Hppt, Hparse.
  cbn [String.eqb Ascii.eqb Bool.eqb mbind option_bind].
  destruct (10 <? Z.of_nat (length slides)); [reflexivity|].
  fold (first_style slides). rewrite slide_images_spec. reflexivity.
Qed.

Lemma saved_notes_app (a b : list event) :
  saved_notes (a ++ b) = (saved_notes a ++ saved_notes b)%list.
Proof.
  induction a as [|e a IH]; [reflexivity|].
  destruct e; cbn [app saved_notes]; rewrite IH; reflexivity.
Qed.

Lemma saved_notes_slide_calls (m u st : string) (slides : list Slide) :
  saved_notes (slide_calls m u st slides) = [].
Proof. induction slides; [reflexivity | exact IHslides]. Qed.

Lemma image_calls_slide_calls (m u st : string) (slides : list Slide) :
  List.filter is_image_call (slide_calls m u st slides)
  = slide_calls m u st slides.
Proof.
  induction slides as [|sl rest IH]; [reflexivity|].
  cbn [slide_calls map List.filter is_image_call].
  fold (slide_calls m u st rest). now rewrite IH.
Qed.

(** What [save_transformation] does for a slide deck, up to the reply. *)
Lemma save_ppt (w : World) (cfg : Config) (s : state)
  (notebookID userID : string) (req : TransformationRequest)
  (response : TransformationResponse) (slides : list Slide) :
  ReqType req = "ppt" ->
  ParsePPTSlides ToLower (RespContent response) = Some slides ->
  let metadata : gmap string any :=
    {[ "length" := AString (ReqLength req);
       "format" := AString (ReqFormat req) ]} in
  let step :=
    if 10 <? Z.of_nat (length slides)
    then ([], <["image_error" := AString over_limit_message]> metadata)
    else (slide_calls (getImageModelForProvider cfg) userID
            (first_style slides) slides,
          <["slides" := AStrings
               (slide_urls w (getImageModelForProvider cfg) userID
                  (first_style slides) slides 0)]> metadata) in
  let note := mkNote "" notebookID (getTitleForType "ppt")
                (RespContent response) "ppt" (ReqSourceIDs req) (snd step) in
  save w cfg s notebookID userID req response
  = Some match CreateNote w note with
         | Err _ =>
             (s, (fst step ++ [CallCreateNote note])%list,
              mkReply 500 (ErrorResponse "Failed to save note"))
         | Ok id =>
             (s, (fst step ++ [CallCreateNote note;
                               CallLogActivity userID "transform" id])%list,
              mkReply 200
                (NoteBody (mkNote id notebookID (getTitleForType "ppt")
                             (RespContent response) "ppt" (ReqSourceIDs req)
                             (snd step))))
         end.
Proof.
  intros Hppt Hparse metadata step note.
  unfold save_transformation.
  unfold infograph_step, note_content, insight_step. rewrite !Hppt.
  cbn [String.eqb Ascii.eqb Bool.eqb].
  rewrite (ppt_step_slides w cfg userID req response _ slides Hppt Hparse).
  fold metadata. fold step. cbn [mbind option_bind].
  destruct step as [ev2 md] eqn:Estep. cbn [fst snd] in *.
  subst note. cbn [app NoteTitle].
  destruct (CreateNote w _); rewrite ?app_nil_r; reflexivity.
Qed.

(** C6. For a slide-deck request whose generated text parses into more
    than 10 slides the handler makes no image call and the note it saves and
    returns carries the over-limit message under image_error, and no slide
    list.  For 10 slides or fewer it makes one image call per slide, in slide
    order, and the note carries under slides the URLs of the calls that
    succeeded, in order: a slide whose call fails is left out and the loop
    goes on. *)
Theorem ppt_images_bounded (w : World) (cfg : Config) (s : state)
  (notebookID userID : string) (req : TransformationRequest)
  (response : TransformationResponse) (slides : list Slide) :
  ReqType req = "ppt" ->
  ParsePPTSlides ToLower (RespContent response) = Some slides ->
  exists s' ev reply note,
    save w cfg s notebookID userID req response = Some (s', ev, reply)
    /\ saved_notes ev = [note]
    /\ ((10 < length slides)%nat ->
        List.filter is_image_call ev = []
        /\ NoteMetadata note !! "image_error"
           = Some (AString over_limit_message)
        /\ NoteMetadata note !! "slides" = None)
    /\ ((length slides <= 10)%nat ->
        List.filter is_image_call ev
        = slide_calls (getImageModelForProvider cfg) userID
            (first_style slides) slides
        /\ NoteMetadata note !! "slides"
           = Some (AStrings (slide_urls w (getImageModelForProvider cfg) userID
                               (first_style slides) slides 0))
        /\ NoteMetadata note !! "image_error" = None)
    /\ (forall id,
           CreateNote w note = Ok id ->
           exists saved,
             reply = mkReply 200 (NoteBody saved)
             /\ NoteID saved = id
             /\ NoteMetadata saved = NoteMetadata note).
Proof.
  intros Hppt Hparse.
  pose proof (save_ppt w cfg s notebookID userID req response slides
                Hppt Hparse) as Hsave.
  cbv zeta in Hsave.
  set (metadata := ({[ "length" := AString (ReqLength req);
                       "format" := AString (ReqFormat req) ]}
                    : gmap string any)) in *.
  set (step := if 10 <? Z.of_nat (length slides)
               then ([], <["image_error" := AString over_limit_message]> metadata)
               else (slide_calls (getImageModelForProvider cfg) userID
                       (first_style slides) slides,
                     <["slides" := AStrings
                          (slide_urls w (getImageModelForProvider cfg) userID
                             (first_style slides) slides 0)]> metadata)) in *.
  set (note := mkNote "" notebookID (getTitleForType "ppt")
                 (RespContent response) "ppt" (ReqSourceIDs req) (snd step)) in *.
  assert (Hnotes : saved_notes (fst step) = []).
  { subst step. destruct (10 <? Z.of_nat (length slides)); cbn [fst];
      [reflexivity | apply saved_notes_slide_calls]. }
  assert (Hcalls : List.filter is_image_call (fst step) = fst step).
  { subst step. destruct (10 <? Z.of_nat (length slides)); cbn [fst];
      [reflexivity | apply image_calls_slide_calls]. }
  assert (Hshape :
    exists s' ev reply,
      save w cfg s notebookID userID req response = Some (s', ev, reply)
      /\ saved_notes ev = [note]
      /\ List.filter is_image_call ev = fst step
      /\ (forall id, CreateNote w note = Ok id ->
                     exists saved, reply = mkReply 200 (NoteBody saved)
                                   /\ NoteID saved = id
                                   /\ NoteMetadata saved = NoteMetadata note)).
  { rewrite Hsave. destruct (CreateNote w note) as [id|e].
    - do 3 eexists. split; [reflexivity|].
      rewrite saved_notes_app, List.filter_app, Hnotes, Hcalls.
      cbn. rewrite app_nil_r. repeat split.
      intros id' Hid. injection Hid as <-. eexists. repeat split.
    - do 3 eexists. split; [reflexivity|].
      rewrite saved_notes_app, List.filter_app, Hnotes, Hcalls.
      cbn. rewrite app_nil_r. repeat split.
      intros id' Hid. discriminate Hid. }
  destruct Hshape as (s' & ev & reply & Hs & Hn & Hc & Hr).
  exists s', ev, reply, note.
  split; [exact Hs|]. split; [exact Hn|]. split; [|split; [|exact Hr]].
  - intros Hover. rewrite Hc. subst note step. cbn [NoteMetadata].
    destruct (Z.ltb_spec 10 (Z.of_nat (length slides))); [|lia].
    cbn [fst snd]. split; [reflexivity|]. split.
    + apply lookup_insert_eq.
    + rewrite lookup_insert_ne by discriminate. subst metadata.
      rewrite lookup_insert_ne by discriminate.
      now rewrite lookup_singleton_ne by discriminate.
  - intros Hunder. rewrite Hc. subst note step. cbn [NoteMetadata].
    destruct (Z.ltb_spec 10 (Z.of_nat (length slides))); [lia|].
    cbn [fst snd]. split; [reflexivity|]. split.
    + apply lookup_insert_eq.
    + rewrite lookup_insert_ne by discriminate. subst metadata.
      rewrite lookup_insert_ne by discriminate.
      now rewrite lookup_singleton_ne by discriminate.
Qed.

(** What [save_transformation] does for an infograph, up to the reply. *)
Lemma save_infograph (w : World) (cfg : Config) (s : state)
  (notebookID userID : string) (req : TransformationRequest)
  (response : TransformationResponse) :
  ReqType req = "infograph" ->
  let metadata : gmap string any :=
    {[ "length" := AString (ReqLength req);
       "format" := AString (ReqFormat req) ]} in
  let prompt := RespContent response +:+ nl +:+ nl +:+ chinese_note in
  let call := CallGenerateImage (getImageModelForProvider cfg) prompt userID in
  let image := GenerateImage w 0 (getImageModelForProvider cfg) prompt userID in
  let note :=
    mkNote "" notebookID (getTitleForType "infograph")
      match image with
      | Ok _ => ""
      | Err _ => RespContent response
      end
      "infograph" (ReqSourceIDs req)
      match image with
      | Err err => <["image_error" := AString (Error err)]> metadata
      | Ok imagePath =>
          <["image_url" := AString ("/api/files/" +:+ Base imagePath)]> metadata
      end in
  save w cfg s notebookID userID req response
  = Some match CreateNote w note with
         | Err _ =>
             (s, [call; CallCreateNote note],
              mkReply 500 (ErrorResponse "Failed to save note"))
         | Ok id =>
             (s, [call; CallCreateNote note;
                  CallLogActivity userID "transform" id],
              mkReply 200
                (NoteBody (mkNote id notebookID (NoteTitle note)
                             (NoteContent note) "infograph" (ReqSourceIDs req)
                             (NoteMetadata note))))
         end.
Proof.
  intros Hinfo metadata prompt call image note.
  unfold save_transformation.
  unfold infograph_step, ppt_step, note_content, insight_step. rewrite !Hinfo.
  cbn [String.eqb Ascii.eqb Bool.eqb mbind option_bind].
  fold metadata. fold prompt. fold image. subst note call.
  destruct image as [imagePath|err].
  - rewrite lookup_insert_eq. cbn [app NoteTitle NoteContent NoteMetadata].
    destruct (CreateNote w _); reflexivity.
  - rewrite lookup_insert_ne by discriminate. subst metadata.
    rewrite lookup_insert_ne by discriminate.
    rewrite lookup_singleton_ne by discriminate.
    cbn [app NoteTitle NoteContent NoteMetadata].
    destruct (CreateNote w _); reflexivity.
Qed.

(** C10, as the code has it.  For an infograph the handler makes one image
    call and saves one note.  When the call succeeds the note's content is
    empty and its metadata carries the web path of the image under
    image_url; when it fails the content is the generated text and the
    metadata carries the failure message under image_error.  Either way the
    reply is 200 with the saved note once the store has saved it.  So the
    content is empty exactly when the image call succeeded, provided the
    generated text is not itself empty. *)
Theorem infograph_note_content (w : World) (cfg : Config) (s : state)
  (notebookID userID : string) (req : TransformationRequest)
  (response : TransformationResponse) :
  ReqType req = "infograph" ->
  let image := GenerateImage w 0 (getImageModelForProvider cfg)
                 (RespContent response +:+ nl +:+ nl +:+ chinese_note) userID in
  exists s' ev reply note,
    save w cfg s notebookID userID req response = Some (s', ev, reply)
    /\ saved_notes ev = [note]
    /\ length (List.filter is_image_call ev) = 1%nat
    /\ (forall imagePath,
           image = Ok imagePath ->
           NoteContent note = ""
           /\ NoteMetadata note !! "image_url"
              = Some (AString ("/api/files/" +:+ Base imagePath))
           /\ NoteMetadata note !! "image_error" = None)
    /\ (forall err,
           image = Err err ->
           NoteContent note = RespContent response
           /\ NoteMetadata note !! "image_error" = Some (AString (Error err))
           /\ NoteMetadata note !! "image_url" = None)
    /\ (forall id,
           CreateNote w note = Ok id ->
           exists saved,
             reply = mkReply 200 (NoteBody saved)
             /\ NoteID saved = id
             /\ NoteContent saved = NoteContent note
             /\ NoteMetadata saved = NoteMetadata note)
    /\ (RespContent response <> "" ->
        (NoteContent note = "" <-> is_ok image = true)).
Proof.
  intros Hinfo image.
  pose proof (save_infograph w cfg s notebookID userID req response Hinfo)
    as Hsave.
  cbv zeta in Hsave. fold image in Hsave.
  set (metadata := ({[ "length" := AString (ReqLength req);
                       "format" := AString (ReqFormat req) ]}
                    : gmap string any)) in *.
  match type of Hsave with
  | context [CreateNote w ?n] => set (note := n) in *
  end.
  assert (Hshape :
    exists s' ev reply,
      save w cfg s notebookID userID req response = Some (s', ev, reply)
      /\ saved_notes ev = [note]
      /\ length (List.filter is_image_call ev) = 1%nat
      /\ (forall id, CreateNote w note = Ok id ->
                     exists saved, reply = mkReply 200 (NoteBody saved)
                                   /\ NoteID saved = id
                                   /\ NoteContent saved = NoteContent note
                                   /\ NoteMetadata saved = NoteMetadata note)).
  { rewrite Hsave. destruct (CreateNote w note) as [id|e].
    - do 3 eexists. split; [reflexivity|]. repeat split.
      intros id' Hid. injection Hid as <-. eexists. repeat split.
    - do 3 eexists. split; [reflexivity|]. repeat split.
      intros id' Hid. discriminate Hid. }
  destruct Hshape as (s' & ev & reply & Hs & Hn & Hc & Hr).
  exists s', ev, reply, note.
  split; [exact Hs|]. split; [exact Hn|]. split; [exact Hc|].
  subst note. cbn [NoteContent NoteMetadata].
  split; [|split; [|split; [exact Hr|]]].
  - intros imagePath ->. split; [reflexivity|]. split.
    + apply lookup_insert_eq.
    + rewrite lookup_insert_ne by discriminate. subst metadata.
      rewrite lookup_insert_ne by discriminate.
      now rewrite lookup_singleton_ne by discriminate.
  - intros err ->. split; [reflexivity|]. split.
    + apply lookup_insert_eq.
    + rewrite lookup_insert_ne by discriminate. subst metadata.
      rewrite lookup_insert_ne by discriminate.
      now rewrite lookup_singleton_ne by discriminate.
  - intros Hne. destruct image as [imagePath|err]; cbn [is_ok].
    + split; reflexivity.
    + split; [intros H; contradiction | intros H; discriminate H].
Qed.

End AnyVectorStore.

Local Abbreviation save_on_index :=
  (save_transformation (list VectorIndex.Chunk)
     (VectorIndex.IngestText VectorIndex.whole_text) ToLowerASCII).

Lemma ppt_images_bounded_witness :
  (exists s' ev reply note,
      save_on_index second_image_fails sample_config fresh "nb" "user-42"
        ppt_request (generated "ppt" (deck 3)) = Some (s', ev, reply)
      /\ saved_notes ev = [note]
      /\ length (List.filter is_image_call ev) = 3%nat
      /\ NoteMetadata note !! "slides"
         = Some (AStrings ["/api/files/infograph_0.png";
                           "/api/files/infograph_2.png"])
      /\ NoteMetadata note !! "image_error" = None
      /\ (exists saved, reply = mkReply 200 (NoteBody saved)
                        /\ NoteMetadata saved = NoteMetadata note))
  /\ (exists s' ev reply note,
        save_on_index all_images sample_config fresh "nb" "user-42"
          ppt_request (generated "ppt" (deck 11)) = Some (s', ev, reply)
        /\ saved_notes ev = [note]
        /\ List.filter is_image_call ev = []
        /\ NoteMetadata note !! "image_error"
           = Some (AString over_limit_message)).
Proof.
  split.
  - destruct (ppt_images_bounded (list VectorIndex.Chunk)
                (VectorIndex.IngestText VectorIndex.whole_text) ToLowerASCII
                second_image_fails sample_config fresh "nb" "user-42"
                ppt_request (generated "ppt" (deck 3))
                (default [] (ParsePPTSlides ToLowerASCII (deck 3)))
                eq_refl ltac:(vm_compute; reflexivity))
      as (s' & ev & reply & note & Hs & Hn & _ & Hunder & Hreply).
    destruct (Hunder ltac:(vm_compute; lia)) as (Hcalls & Hurls & Herr).
    destruct (Hreply "note-1" eq_refl) as (saved & Hr & _ & Hmd).
    exists s', ev, reply, note.
    split; [exact Hs|]. split; [exact Hn|].
    split; [|split; [|split; [exact Herr|]]].
    + rewrite Hcalls. reflexivity.
    + rewrite Hurls. vm_compute. reflexivity.
    + exists saved. split; [exact Hr | exact Hmd].
  - destruct (ppt_images_bounded (list VectorIndex.Chunk)
                (VectorIndex.IngestText VectorIndex.whole_text) ToLowerASCII
                all_images sample_config fresh "nb" "user-42"
                ppt_request (generated "ppt" (deck 11))
                (default [] (ParsePPTSlides ToLowerASCII (deck 11)))
                eq_refl ltac:(vm_compute; reflexivity))
      as (s' & ev & reply & note & Hs & Hn & Hover & _ & _).
    destruct (Hover ltac:(vm_compute; lia)) as (Hcalls & Herr & _).
    exists s', ev, reply, note.
    split; [exact Hs|]. split; [exact Hn|]. split; [exact Hcalls | exact Herr].
Defined.

Lemma infograph_note_content_witness :
  (exists s' ev reply note,
      save_on_index no_images sample_config fresh "nb" "user-42"
        infograph_request (generated "infograph" "A poster about tides")
      = Some (s', ev, reply)
      /\ saved_notes ev = [note]
      /\ NoteContent note = "A poster about tides"
      /\ NoteMetadata note !! "image_error" = Some (AString "upstream timeout")
      /\ (exists saved, reply = mkReply 200 (NoteBody saved)
                        /\ NoteContent saved = NoteContent note))
  /\ (exists s' ev reply note,
        save_on_index all_images sample_config fresh "nb" "user-42"
          infograph_request (generated "infograph" "A poster about tides")
        = Some (s', ev, reply)
        /\ saved_notes ev = [note]
        /\ NoteContent note = ""
        /\ NoteMetadata note !! "image_url"
           = Some (AString "/api/files/infograph_0.png")
        /\ (NoteContent note = ""
            <-> is_ok (GenerateImage all_images 0 "imagen"
                         ("A poster about tides" +:+ nl +:+ nl +:+ chinese_note)
                         "user-42") = true)).
Proof.
  split.
  2: {
    destruct (infograph_note_content (list VectorIndex.Chunk)
                (VectorIndex.IngestText VectorIndex.whole_text) ToLowerASCII
                all_images sample_config fresh "nb" "user-42"
                infograph_request (generated "infograph" "A poster about tides")
                eq_refl)
      as (s' & ev & reply & note & Hs & Hn & _ & Hok & _ & _ & Hiff).
    destruct (Hok (image_path 0) eq_refl) as (Hc & Hu & _).
    exists s', ev, reply, note.
    split; [exact Hs|]. split; [exact Hn|]. split; [exact Hc|].
    split; [exact Hu|]. exact (Hiff ltac:(discriminate)). }
  destruct (infograph_note_content (list VectorIndex.Chunk)
              (VectorIndex.IngestText VectorIndex.whole_text) ToLowerASCII
              no_images sample_config fresh "nb" "user-42"
              infograph_request (generated "infograph" "A poster about tides")
              eq_refl)
    as (s' & ev & reply & note & Hs & Hn & _ & _ & Hfail & Hreply & _).
  destruct (Hfail (errorString "upstream timeout") eq_refl) as (Hc & He & _).
  destruct (Hreply "note-1" eq_refl) as (saved & Hr & _ & Hsc & _).
  exists s', ev, reply, note.
  split; [exact Hs|]. split; [exact Hn|]. split; [exact Hc|].
  split; [exact He|]. exists saved. split; [exact Hr | exact Hsc].
Defined.

(** C10 as stated fails: when the generated text is empty and the image
    call fails, the saved note's content is empty although no image was
    generated. *)
Lemma infograph_empty_text_counterexample :
  is_ok (GenerateImage no_images 0 (getImageModelForProvider sample_config)
           ("" +:+ nl +:+ nl +:+ chinese_note) "user-42") = false
  /\ (exists s' reply note,
        save_on_index no_images sample_config fresh "nb" "user-42"
          infograph_request (generated "infograph" "")
        = Some (s', [CallGenerateImage "imagen"
                       ("" +:+ nl +:+ nl +:+ chinese_note) "user-42";
                     CallCreateNote note;
                     CallLogActivity "user-42" "transform" "note-1"], reply)
        /\ NoteContent note = ""
        /\ NoteMetadata note !! "image_url" = None
        /\ ~ (NoteContent note = ""
              <-> is_ok (GenerateImage no_images 0
                           (getImageModelForProvider sample_config)
                           ("" +:+ nl +:+ nl +:+ chinese_note) "user-42")
                  = true)).
Proof.
  split; [reflexivity|].
  do 3 eexists. split; [reflexivity|]. split; [reflexivity|].
  split; [vm_compute; reflexivity|].
  cbn. intros [H _]. specialize (H eq_refl). discriminate H.
Qed.

(** The whole handler on a fresh server: the index is loaded, the deck of
    one slide gets its image and the note is returned. *)
Example handleTransform_ppt :
  option_map (fun r => (snd (fst r), Status (snd r)))
    (handleTransform (list VectorIndex.Chunk)
       (VectorIndex.IngestText VectorIndex.whole_text) ToLowerASCII
       all_images sample_config fresh "nb" "user-42")
  = Some ([CallListSources "nb";
           CallIngestText "nb" "long.txt" "hello world";
           CallIngestText "nb" "short.txt" "hi";
           CallListSources "nb";
           CallGenerateImage "imagen"
             ("Style: " +:+ nl +:+ nl +:+ "Slide Content: text"
                +:+ nl +:+ nl +:+ chinese_note +:+ nl) "user-42";
           CallCreateNote
             (mkNote "" "nb" "幻灯片" "text" "ppt" ["s1"; "s2"; "s3"]
                (<["slides" := AStrings ["/api/files/infograph_0.png"]]>
                   {[ "length" := AString "medium";
                      "format" := AString "markdown" ]}));
           CallLogActivity "user-42" "transform" "note-1"],
          200).
Proof. vm_compute. reflexivity. Qed.

End HandlerFacts.

(** ** More of the code: the shell argument, the middleware, text
       generation *)

Module EscapeFacts.
Import GoStr GoStrFacts Agent.

Lemma append_inj_l (a b c : string) : a +:+ b = a +:+ c -> b = c.
Proof.
  induction a as [|x a IH]; [now rewrite !append_nil_l|].
  rewrite !append_cons. intros H. injection H as H. now apply IH.
Qed.

Lemma append_inj_r (a b c : string) : a +:+ c = b +:+ c -> a = b.
Proof.
  revert b; induction a as [|x a IH]; intros [|y b] H.
  - reflexivity.
  - exfalso. apply (f_equal String.length) in H.
    rewrite append_nil_l, length_append in H. simpl in H. lia.
  - exfalso. apply (f_equal String.length) in H.
    rewrite append_nil_l, length_append in H. simpl in H. lia.
  - rewrite !append_cons in H. injection H as -> H. f_equal. now apply IH.
Qed.

Lemma ReplaceAllByte_cons (c old : ascii) (s new : string) :
  ReplaceAllByte (String c s) old new
  = (if Ascii.eqb c old then new else String c EmptyString)
      +:+ ReplaceAllByte s old new.
Proof. reflexivity. Qed.

(** Replacing every quote by the five-byte escape loses nothing. *)
Lemma escape_body_inj (a b : string) :
  ReplaceAllByte a "'" quote_escape = ReplaceAllByte b "'" quote_escape ->
  a = b.
Proof.
  revert b; induction a as [|c a IH]; intros [|d b] H.
  - reflexivity.
  - exfalso. rewrite ReplaceAllByte_cons in H.
    destruct (Ascii.eqb d "'"); discriminate H.
  - exfalso. rewrite ReplaceAllByte_cons in H.
    destruct (Ascii.eqb c "'"); discriminate H.
  - rewrite !ReplaceAllByte_cons in H.
    destruct (Ascii.eqb_spec c "'") as [->|Hc];
      destruct (Ascii.eqb_spec d "'") as [->|Hd].
    + apply append_inj_l in H. f_equal. now apply IH.
    + exfalso. unfold quote_escape in H. rewrite !append_cons in H.
      injection H as H _. now subst d.
    + exfalso. unfold quote_escape in H. rewrite !append_cons in H.
      injection H as H _. now subst c.
    + rewrite !append_cons, !append_nil_l in H. injection H as -> H.
      f_equal. now apply IH.
Qed.

(** X1. [escapeShellArg] wraps its argument in single quotes and loses
    nothing: two arguments with the same escaped form are the same
    argument, and the escaped form starts and ends with a quote and is at
    least 2 bytes longer than the argument. *)
Theorem escapeShellArg_injective (a b : string) :
  (escapeShellArg a = escapeShellArg b -> a = b)
  /\ String.get 0 (escapeShellArg a) = Some "'"%char
  /\ String.get (String.length (escapeShellArg a) - 1) (escapeShellArg a)
     = Some "'"%char
  /\ (String.length (escapeShellArg a) >= String.length a + 2)%nat.
Proof.
  unfold escapeShellArg. repeat split.
  - intros H. apply append_inj_l in H. apply append_inj_r in H.
    now apply escape_body_inj.
  - rewrite length_append. cbn [String.length].
    rewrite length_append. cbn [String.length].
    replace (1 + (String.length (ReplaceAllByte a "'" quote_escape) + 1) - 1)%nat
      with (0 + String.length ("'" +:+ ReplaceAllByte a "'" quote_escape))%nat
      by (rewrite length_append; cbn [String.length]; lia).
    rewrite <- append_assoc, <- append_correct2. reflexivity.
  - rewrite !length_append. cbn [String.length].
    assert (H : (String.length a
                 <= String.length (ReplaceAllByte a "'" quote_escape))%nat).
    { clear. induction a as [|c a IH]; [cbn; lia|].
      rewrite ReplaceAllByte_cons, length_append.
      destruct (Ascii.eqb c "'"); cbn [String.length quote_escape]; lia. }
    lia.
Qed.

Lemma escapeShellArg_injective_witness :
  escapeShellArg "it's" = String "'" ("it" +:+ quote_escape +:+ "s'")
  /\ "it's" = "it's".
Proof.
  split; [reflexivity|].
  exact (proj1 (escapeShellArg_injective "it's" "it's") eq_refl).
Defined.

End EscapeFacts.

Module MiddlewareFacts.
Import GoStr GoStrFacts GoErr Middleware.

Lemma first_comma_none (s : string) (i : Z) :
  first_comma s i < 0 -> 0 <= i -> has_comma s = false.
Proof.
  revert i; induction s as [|c s IH]; intros i H Hi; [reflexivity|].
  cbn [first_comma has_comma] in *.
  destruct (Ascii.eqb c ","); [lia|]. cbn. apply (IH (i + 1)); lia.
Qed.

Lemma first_comma_found (s : string) (i : Z) :
  0 <= i -> 0 <= first_comma s i ->
  let n := Z.to_nat (first_comma s i - i) in
  i <= first_comma s i
  /\ has_comma (take n s) = false
  /\ s = take n s +:+ "," +:+ drop (S n) s.
Proof.
  revert i; induction s as [|c s IH]; intros i Hi H; cbn [first_comma] in *;
    [lia|].
  destruct (Ascii.eqb_spec c ",") as [->|Hc].
  - rewrite Z.sub_diag. cbn. repeat split; lia.
  - destruct (IH (i + 1) ltac:(lia) H) as (Hle & Hno & Heq).
    cbv zeta. replace (Z.to_nat (first_comma s (i + 1) - i))
      with (S (Z.to_nat (first_comma s (i + 1) - (i + 1)))) by lia.
    cbn [take drop has_comma]. split; [lia|]. split.
    + destruct (Ascii.eqb_spec c ","); [contradiction|]. exact Hno.
    + rewrite append_cons. f_equal. exact Heq.
Qed.

(** X2. The client address is taken from the first non-empty header among
    X-Forwarded-For, X-Real-IP, CF-Connecting-IP and True-Client-IP, and
    from the connection otherwise.  From X-Forwarded-For it is the text
    before the first comma, as it stands (blanks are kept): it holds no
    comma, and the header is that text alone or that text, a comma and the
    rest. *)
Theorem getClientIP_first_forwarded (c : Request) :
  let xff := GetHeader c "X-Forwarded-For" in
  (xff <> "" ->
   has_comma (getClientIP c) = false
   /\ (xff = getClientIP c
       \/ exists rest, xff = getClientIP c +:+ "," +:+ rest))
  /\ (xff = "" ->
      getClientIP c
      = if negb (String.eqb (GetHeader c "X-Real-IP") "")
        then GetHeader c "X-Real-IP"
        else if negb (String.eqb (GetHeader c "CF-Connecting-IP") "")
             then GetHeader c "CF-Connecting-IP"
             else if negb (String.eqb (GetHeader c "True-Client-IP") "")
                  then GetHeader c "True-Client-IP"
                  else ClientIP c).
Proof.
  intros xff. unfold getClientIP. fold xff. split.
  - intros Hne. destruct (String.eqb_spec xff ""); [contradiction|].
    cbn [negb].
    destruct (Z.leb_spec 0 (first_comma xff 0)) as [Hfound|Hnone].
    + destruct (first_comma_found xff 0 ltac:(lia) Hfound) as (_ & Hno & Heq).
      cbv zeta in *. rewrite Z.sub_0_r in *. split; [exact Hno|].
      right. eexists. exact Heq.
    + split; [|now left]. apply (first_comma_none xff 0); lia.
  - intros ->. reflexivity.
Qed.

Lemma getClientIP_first_forwarded_witness :
  getClientIP proxied = "203.0.113.7"
  /\ getClientIP direct = "198.51.100.4".
Proof.
  destruct (getClientIP_first_forwarded proxied) as [Hxff _].
  destruct (getClientIP_first_forwarded direct) as [_ Hnone].
  split.
  - destruct (Hxff ltac:(discriminate)) as [_ _]. reflexivity.
  - exact (Hnone eq_refl).
Defined.

Lemma logged_response_body_empty (responseBody : string) :
  String.eqb (logged_response_body responseBody) ""
  = negb (0 <? len responseBody).
Proof.
  unfold logged_response_body.
  destruct responseBody as [|ch rest]; [reflexivity|].
  replace (0 <? len (String ch rest)) with true
    by (symmetry; apply Z.ltb_lt; unfold len; simpl; lia).
  destruct (1000 <? len (String ch rest)); reflexivity.
Qed.

Lemma audit_line_bodies (c : Request) (status latency : Z)
  (responseBody : string) (errors : option string) :
  audit_line c status latency responseBody errors
  = "[AUDIT] client_ip=" +:+ getClientIP c +:+ " method=" +:+ Method c
      +:+ " path=" +:+ Path c +:+ " status=" +:+ FormatInt status
      +:+ " latency_ms=" +:+ FormatInt latency
      +:+ (if String.eqb (captured_request_body c) "" then ""
           else " request_body=" +:+ captured_request_body c)
      +:+ (if String.eqb (logged_response_body responseBody) "" then ""
           else " response_body=" +:+ logged_response_body responseBody)
      +:+ match errors with
          | Some text => " errors=" +:+ text
          | None => ""
          end.
Proof.
  unfold audit_line.
  rewrite (logged_response_body_empty responseBody).
  unfold logged_response_body.
  destruct (String.eqb (captured_request_body c) ""); cbn [negb];
    destruct (0 <? len responseBody); cbn [negb];
    destruct (1000 <? len responseBody);
    destruct errors;
    rewrite ?append_assoc, ?append_nil_l, ?append_nil_r; reflexivity.
Qed.



End MiddlewareFacts.

(** ** Text generation and the files the image call writes *)

Module GeminiMoreFacts.
Import GoStr GoStrFacts Filepath GoErr Gemini GeminiText.

(** X4. Text generation on the Gemini client makes no upstream call without
    a key or a client, and otherwise exactly one, under a 300-second
    timeout, with no retry: an upstream error comes back wrapped.  A text it
    returns is never empty: it is the non-empty part texts of the first
    candidate, concatenated. *)
Theorem GenerateTextWithModel_single_call (googleAPIKey : string) (w : World)
  (prompt model : string) :
  let run := GenerateTextWithModel googleAPIKey w prompt model in
  (googleAPIKey = "" -> run = ([], Err (errorString "google_api_key is not set")))
  /\ (attempts_made (fst run) <= 1)%nat
  /\ (googleAPIKey <> "" -> NewClient w = None ->
      fst run = [WithTimeout (300 * Second);
                 CallGenerateContent 1 model prompt; Cancel]
      /\ (forall err, GenerateContent w 1 model prompt = Err err ->
                      snd run = Err (Errorf_w "failed to generate gemini text: "
                                       err)))
  /\ (forall text,
         snd run = Ok text ->
         text <> ""
         /\ exists resp c0 rest content,
             GenerateContent w 1 model prompt = Ok resp
             /\ Candidates resp = c0 :: rest
             /\ CandContent c0 = Some content
             /\ text = join_texts (Parts content)).
Proof.
  intros run. subst run. unfold GenerateTextWithModel.
  destruct (String.eqb_spec googleAPIKey "") as [Hk|Hk].
  - split; [reflexivity|]. split; [cbn; lia|].
    split; [intros Hne; contradiction|]. intros text H. discriminate H.
  - destruct (NewClient w) as [e|].
    + split; [contradiction|]. split; [cbn; lia|].
      split; [intros _ Hc; discriminate Hc|]. intros text H. discriminate H.
    + cbn [fst snd]. split; [contradiction|]. split; [cbn; lia|]. split.
      * intros _ _. split; [reflexivity|]. intros err ->. reflexivity.
      * intros text H.
        destruct (GenerateContent w 1 model prompt) as [resp|e];
          [|discriminate H].
        destruct (Candidates resp) as [|c0 rest] eqn:Hc; [discriminate H|].
        destruct (CandContent c0) as [content|] eqn:Hcc; [|discriminate H].
        destruct (Parts content) as [|p ps] eqn:Hp; [discriminate H|].
        destruct (String.eqb_spec (join_texts (p :: ps)) "") as [He|Hne];
          [discriminate H|].
        injection H as <-. split; [exact Hne|].
        exists resp, c0, rest, content. rewrite Hp. repeat split; assumption.
Qed.

Lemma GenerateTextWithModel_single_call_witness :
  GenerateTextWithModel "key" talkative "outline the deck" "gemini-3-flash-preview"
  = ([WithTimeout (300 * Second);
      CallGenerateContent 1 "gemini-3-flash-preview" "outline the deck"; Cancel],
     Ok "Slide 1: tides")
  /\ "Slide 1: tides" <> ""
  /\ snd (GenerateTextWithModel "key" down_world "p" "m")
     = Err (Errorf_w "failed to generate gemini text: " (errorString "timeout 1"))
  /\ GenerateTextWithModel "" talkative "p" "m"
     = ([], Err (errorString "google_api_key is not set")).
Proof.
  pose proof (GenerateTextWithModel_single_call "key" talkative
                "outline the deck" "gemini-3-flash-preview") as H.
  cbv zeta in H. destruct H as (_ & _ & _ & Htext).
  split; [reflexivity|].
  split; [exact (proj1 (Htext "Slide 1: tides" eq_refl))|].
  pose proof (GenerateTextWithModel_single_call "key" down_world "p" "m") as D.
  cbv zeta in D. destruct D as (_ & _ & Dcall & _).
  split.
  - exact (proj2 (Dcall ltac:(discriminate) eq_refl)
             (errorString "timeout 1") eq_refl).
  - pose proof (GenerateTextWithModel_single_call "" talkative "p" "m") as E.
    cbv zeta in E. exact (proj1 E eq_refl).
Defined.

Lemma writes_app (a b : list event) : writes (a ++ b) = (writes a ++ writes b)%list.
Proof. apply List.filter_app. Qed.

Lemma writes_attempt (w : World) (attempt : Z) (model prompt : string) :
  writes (fst (attempt_once w attempt model prompt)) = [].
Proof. unfold attempt_once. cbn [fst]. destruct (1 <? attempt); reflexivity. Qed.

Lemma outcome_data_nonempty (w : World) (attempt : Z) (model prompt : string)
  (d : list ascii) :
  outcome w attempt model prompt = Ok d -> d <> [].
Proof.
  unfold outcome, attempt_once. cbn [snd].
  destruct (GenerateContent w attempt model prompt) as [resp|]; [|discriminate].
  destruct (Candidates resp) as [|c0 rest]; [discriminate|].
  destruct (CandContent c0) as [content|]; [|discriminate].
  destruct (first_inline (Parts content)) as [|b bs]; [discriminate|].
  cbn. intros H. injection H as <-. discriminate.
Qed.

(** What a run of the loop writes, by its result. *)
Lemma attempt_loop_writes (w : World) (model prompt : string)
  (attempts : list Z) :
  forall lastErr,
    let run := attempt_loop w model prompt attempts lastErr in
    match snd run with
    | Ok path =>
        path = saved_path w
        /\ exists d, d <> [] /\ writes (fst run) = [DoWriteFile path d]
                     /\ WriteFile w path d = None
                     /\ MkdirAll w "./data/uploads" = None
    | Err _ =>
        writes (fst run) = []
        \/ exists d err, writes (fst run) = [DoWriteFile (saved_path w) d]
                         /\ WriteFile w (saved_path w) d = Some err
    end.
Proof.
  induction attempts as [|a rest IH]; intros lastErr; cbv zeta.
  - cbn. now left.
  - destruct (outcome w a model prompt) as [d|e] eqn:E.
    + rewrite (GeminiFacts.attempt_loop_ok _ _ _ _ _ _ _ E).
      unfold then_save. cbn [fst snd]. rewrite writes_app, writes_attempt.
      cbn [app]. unfold save_image. fold (saved_path w).
      destruct (MkdirAll w "./data/uploads") as [em|] eqn:Hm.
      * cbn. now left.
      * destruct (WriteFile w (saved_path w) d) as [ew|] eqn:Hw; cbn [fst snd].
        -- right. exists d, ew. split; [reflexivity | exact Hw].
        -- split; [reflexivity|]. exists d.
           split; [exact (outcome_data_nonempty _ _ _ _ _ E)|].
           repeat split; assumption.
    + rewrite (GeminiFacts.attempt_loop_err _ _ _ _ _ _ _ E).
      cbn [fst snd]. rewrite writes_app, writes_attempt. cbn [app].
      exact (IH (Some e)).
Qed.

(** X5. An image call on the Gemini client writes at most one file.  When
    it returns a path, that path is data/uploads/infograph_<nanoseconds>.png
    as the clock read, and the one write put the non-empty image bytes
    there.  When it returns an error, nothing was written, or the one write
    itself failed. *)
Theorem GenerateImage_writes_once (googleAPIKey : string) (w : World)
  (model prompt : string) :
  let run := GenerateImage googleAPIKey w model prompt in
  (length (writes (fst run)) <= 1)%nat
  /\ (forall path,
         snd run = Ok path ->
         path = JoinPath ["./data/uploads";
                          "infograph_" +:+ FormatInt (UnixNano w) +:+ ".png"]
         /\ exists d, d <> [] /\ writes (fst run) = [DoWriteFile path d]
                      /\ WriteFile w path d = None)
  /\ (forall e,
         snd run = Err e ->
         writes (fst run) = []
         \/ exists d err, writes (fst run) = [DoWriteFile (saved_path w) d]
                          /\ WriteFile w (saved_path w) d = Some err).
Proof.
  intros run.
  assert (H : match snd run with
              | Ok path =>
                  path = saved_path w
                  /\ exists d, d <> [] /\ writes (fst run) = [DoWriteFile path d]
                               /\ WriteFile w path d = None
                               /\ MkdirAll w "./data/uploads" = None
              | Err _ =>
                  writes (fst run) = []
                  \/ exists d err, writes (fst run) = [DoWriteFile (saved_path w) d]
                                   /\ WriteFile w (saved_path w) d = Some err
              end).
  { subst run. unfold GenerateImage.
    destruct (String.eqb googleAPIKey ""); [cbn; now left|].
    destruct (NewClient w); [cbn; now left|].
    exact (attempt_loop_writes w model prompt [1; 2; 3] None). }
  destruct (snd run) as [p|e] eqn:Hr.
  - destruct H as (Hp & d & Hd & Hw & Hf & _). repeat split.
    + rewrite Hw. cbn. lia.
    + injection H as <-. exact Hp.
    + injection H as <-. exists d. repeat split; assumption.
    + intros e H. discriminate H.
  - repeat split.
    + destruct H as [-> | (d & err & -> & _)]; cbn; lia.
    + discriminate H0.
    + discriminate H0.
    + intros e' _. exact H.
Qed.

Lemma GenerateImage_writes_once_witness :
  writes (fst (GenerateImage "key" flaky_world "imagen" "a cat"))
  = [DoWriteFile "data/uploads/infograph_1700000000000000000.png" sample_image]
  /\ writes (fst (GenerateImage "key" down_world "imagen" "a cat")) = [].
Proof.
  pose proof (GenerateImage_writes_once "key" flaky_world "imagen" "a cat") as H.
  cbv zeta in H. destruct H as (_ & Hok & _).
  destruct (Hok "data/uploads/infograph_1700000000000000000.png" eq_refl)
    as (_ & d & _ & Hw & _).
  split; [reflexivity|].
  pose proof (GenerateImage_writes_once "key" down_world "imagen" "a cat") as D.
  cbv zeta in D. destruct D as (_ & _ & Derr).
  destruct (Derr _ eq_refl) as [Hnone | (d' & err & _ & Hbad)];
    [exact Hnone | discriminate Hbad].
Defined.

End GeminiMoreFacts.

(** ** The GLM and Z-Image clients *)

Module HTTPImageFacts.
Import GoStr GoStrFacts Filepath GoErr HTTPImage.

Lemma prefix_take (p s : string) (n : nat) :
  String.prefix p (take n s) = true -> String.prefix p s = true.
Proof.
  revert p n; induction s as [|c s IH]; intros p n H.
  - destruct n; exact H.
  - destruct n as [|n]; cbn [take] in H.
    + destruct p; [reflexivity | discriminate H].
    + destruct p as [|d p]; [reflexivity|]. simpl in *.
      destruct (ascii_dec d c); [|discriminate H]. now apply (IH p n).
Qed.

Lemma prefix_nil (p : string) : p <> "" -> String.prefix p "" = false.
Proof. destruct p; [contradiction | reflexivity]. Qed.

(** The text before the first occurrence holds no occurrence. *)
Lemma Index_before_first (sep : string) :
  sep <> "" ->
  forall s, 0 <= Index s sep ->
            Index (take (Z.to_nat (Index s sep)) s) sep = -1.
Proof.
  intros Hsep. induction s as [|c s IH]; intros H.
  - rewrite Index_nil in *. rewrite (prefix_nil sep Hsep) in H. lia.
  - rewrite Index_cons in *.
    destruct (String.prefix sep (String c s)) eqn:E.
    + cbn [Z.to_nat take]. rewrite Index_nil, (prefix_nil sep Hsep).
      reflexivity.
    + destruct (Z.ltb_spec (Index s sep) 0) as [Hlt|Hge]; [lia|].
      replace (Z.to_nat (Index s sep + 1)) with (S (Z.to_nat (Index s sep)))
        by lia.
      cbn [take]. rewrite Index_cons.
      destruct (String.prefix sep (String c (take _ s))) eqn:E2.
      * apply (prefix_take sep (String c s) (S (Z.to_nat (Index s sep)))) in E2.
        congruence.
      * rewrite (IH Hge). reflexivity.
Qed.

Lemma take_drop (n : nat) (s : string) : take n s +:+ drop n s = s.
Proof.
  revert s; induction n as [|n IH]; intros [|c s]; cbn [take drop];
    rewrite ?append_nil_l, ?append_cons; try reflexivity.
  now rewrite IH.
Qed.

Lemma prefix_split (p s : string) :
  String.prefix p s = true -> s = p +:+ drop (String.length p) s.
Proof.
  revert p; induction s as [|c s IH]; intros [|d p] H; simpl in H;
    try reflexivity; try discriminate H.
  destruct (ascii_dec d c) as [->|]; [|discriminate H].
  cbn [String.length drop]. rewrite append_cons. f_equal. now apply IH.
Qed.

(** A split into exactly two pieces: one separator, between them. *)
Lemma Split_two (s sep a b : string) :
  sep <> "" -> Split s sep = [a; b] ->
  s = a +:+ sep +:+ b /\ Contains a sep = false /\ Contains b sep = false.
Proof.
  intros Hsep. unfold Split. cbn [SplitN].
  destruct (Z.ltb_spec (Index s sep) 0) as [Hlt|Hge]; [discriminate|].
  intros H. injection H as Ha Hb.
  destruct (Index_found s sep Hge) as [Hp Hin].
  assert (Hb' : b = drop (Z.to_nat (Index s sep) + String.length sep) s
                /\ Index b sep < 0).
  { destruct (String.length s) as [|r] eqn:Hlen.
    - exfalso. apply prefix_length in Hp. rewrite length_drop, Hlen in Hp.
      destruct sep; [contradiction | simpl in Hp; lia].
    - cbn [SplitN] in Hb.
      destruct (Z.ltb_spec (Index (drop (Z.to_nat (Index s sep)
                                           + String.length sep) s) sep) 0)
        as [Hn|Hy].
      + injection Hb as <-. split; [reflexivity | exact Hn].
      + exfalso. injection Hb as _ Hb.
        exact (SplitN_nonempty _ _ _ Hb). }
  destruct Hb' as [-> Hbn]. subst a. split; [|split].
  - rewrite <- drop_drop, <- (prefix_split sep _ Hp). symmetry. apply take_drop.
  - unfold Contains. rewrite (Index_before_first sep Hsep s Hge). reflexivity.
  - unfold Contains. apply Z.leb_gt. exact Hbn.
Qed.

(** X8. The GLM token is signed only for a key of the form id.secret with
    exactly one dot: the two sides hold no dot and are what the signer
    gets; a key without a dot is refused before any signing. *)
Theorem generateToken_key_format (w : World) (apiKey : string) :
  (forall token,
      generateToken w apiKey = Ok token ->
      exists apiID apiSecret,
        apiKey = apiID +:+ "." +:+ apiSecret
        /\ Contains apiID "." = false /\ Contains apiSecret "." = false
        /\ SignToken w apiID apiSecret = Ok token)
  /\ (Contains apiKey "." = false ->
      generateToken w apiKey
      = Err (errorString "invalid API key format, expected id.secret")).
Proof.
  split.
  - intros token H. unfold generateToken in H.
    destruct (Split apiKey ".") as [|a [|b [|c l]]] eqn:E; try discriminate H.
    destruct (Split_two apiKey "." a b ltac:(discriminate) E) as (He & Ha & Hb).
    exists a, b. repeat split; try assumption.
    destruct (SignToken w a b); [now injection H as -> | discriminate H].
  - intros Hno. unfold generateToken, Split. cbn [SplitN].
    unfold Contains in Hno. apply Z.leb_gt in Hno.
    destruct (Z.ltb_spec (Index apiKey ".") 0); [reflexivity | lia].
Qed.

Lemma generateToken_key_format_witness :
  generateToken served "id.secret" = Ok "jwt-id"
  /\ generateToken served "no-dot-here"
     = Err (errorString "invalid API key format, expected id.secret")
  /\ generateToken served "a.b.c"
     = Err (errorString "invalid API key format, expected id.secret").
Proof.
  destruct (generateToken_key_format served "id.secret") as [Hok _].
  destruct (Hok "jwt-id" eq_refl) as (i & sec & _ & _ & _ & _).
  destruct (generateToken_key_format served "no-dot-here") as [_ Hno].
  split; [reflexivity|]. split; [exact (Hno eq_refl) | reflexivity].
Defined.

Lemma then_save_ok (w : World) (userID : string)
  (d : list event * result (list ascii)) (before ev : list event)
  (path : string) :
  then_save w userID d before = (ev, Ok path) ->
  exists dev data,
    d = (dev, Ok data)
    /\ ev = (before ++ dev ++ fst (save_user_image w userID data))%list
    /\ snd (save_user_image w userID data) = Ok path.
Proof.
  unfold then_save. destruct d as [dev [data|e]]; [|discriminate].
  destruct (save_user_image w userID data) as [ev' r] eqn:Es.
  intros H. injection H as H1 H2. subst ev r. exists dev, data.
  rewrite Es. cbn [fst snd]. repeat split.
Qed.

Lemma download_image_ok (w : World) (url : string) (dev : list event)
  (data : list ascii) :
  download_image w url = (dev, Ok data) ->
  dev = [DoGet url] /\ Get w url = Ok (mkDownload 200 (Ok data)).
Proof.
  unfold download_image. destruct (NewRequest w "GET" url); [discriminate|].
  intros H. injection H as <- H. split; [reflexivity|].
  destruct (Get w url) as [[st body]|]; [|discriminate H].
  cbn [Body StatusCode] in H. destruct body as [x|]; [|discriminate H].
  destruct (Z.eqb_spec st 200) as [->|]; [|discriminate H].
  cbn in H. now injection H as ->.
Qed.

Lemma save_user_image_ok (w : World) (userID : string) (data : list ascii)
  (path : string) :
  snd (save_user_image w userID data) = Ok path ->
  let dir := if negb (String.eqb userID "")
             then JoinPath ["./data/uploads"; userID] else "./data/uploads" in
  path = JoinPath [dir; "infograph_" +:+ FormatInt (UnixNano w) +:+ ".png"]
  /\ fst (save_user_image w userID data)
     = [DoMkdirAll dir; DoWriteFile path data].
Proof.
  unfold save_user_image. cbv zeta.
  destruct (MkdirAll w _); [discriminate|].
  destruct (WriteFile w _ _); [discriminate|].
  cbn [fst snd]. intros H. injection H as <-. now split.
Qed.

(** X6. A GLM image call that returns a path has made one POST with the
    signed token as bearer, one GET of the first URL of an answer without
    error code, got status 200, and written the downloaded bytes once, under
    data/uploads/<userID> (data/uploads for an empty user id), to the path
    it returns.  When the answer carries an error code nothing is
    downloaded or written. *)
Theorem GLM_GenerateImage_success (apiKey : string) (w : World)
  (model prompt userID : string) :
  (forall ev path,
      GLM_GenerateImage apiKey w model prompt userID = (ev, Ok path) ->
      exists token body result url rest data,
        generateToken w apiKey = Ok token
        /\ Post w glm_baseURL ("Bearer " +:+ token) model prompt = Ok body
        /\ DecodeGLM w body = Ok result
        /\ GLMErrorCode result = "" /\ GLMData result = url :: rest
        /\ url <> ""
        /\ Get w url = Ok (mkDownload 200 (Ok data))
        /\ let dir := if negb (String.eqb userID "")
                      then JoinPath ["./data/uploads"; userID]
                      else "./data/uploads" in
           path = JoinPath [dir; "infograph_" +:+ FormatInt (UnixNano w)
                                   +:+ ".png"]
           /\ ev = [DoPost glm_baseURL ("Bearer " +:+ token) model prompt;
                    DoGet url; DoMkdirAll dir; DoWriteFile path data])
  /\ (forall token body result,
         apiKey <> "" -> generateToken w apiKey = Ok token ->
         NewRequest w "POST" glm_baseURL = None ->
         Post w glm_baseURL ("Bearer " +:+ token) model prompt = Ok body ->
         DecodeGLM w body = Ok result -> GLMErrorCode result <> "" ->
         GLM_GenerateImage apiKey w model prompt userID
         = ([DoPost glm_baseURL ("Bearer " +:+ token) model prompt],
            Err (errorString ("GLM API error (" +:+ GLMErrorCode result +:+ "): "
                                +:+ GLMErrorMessage result)))).
Proof.
  split.
  - intros ev path H. unfold GLM_GenerateImage in H.
    destruct (String.eqb apiKey ""); [discriminate H|].
    destruct (generateToken w apiKey) as [token|]; [|discriminate H].
    destruct (NewRequest w "POST" glm_baseURL); [discriminate H|].
    destruct (Post w glm_baseURL ("Bearer " +:+ token) model prompt)
      as [body|] eqn:Hpost; [|discriminate H].
    destruct (DecodeGLM w body) as [result|] eqn:Hdec; [|discriminate H].
    destruct (String.eqb_spec (GLMErrorCode result) "") as [Hcode|];
      [|discriminate H].
    cbn [negb] in H.
    destruct (GLMData result) as [|url rest] eqn:Hdata; [discriminate H|].
    destruct (String.eqb_spec url "") as [|Hurl]; [discriminate H|].
    apply then_save_ok in H. destruct H as (dev & data & Hd & Hev & Hs).
    apply download_image_ok in Hd. destruct Hd as [-> Hget].
    destruct (save_user_image_ok w userID data path Hs) as [Hpath Hevs].
    cbv zeta in *. exists token, body, result, url, rest, data.
    repeat split; try assumption.
    rewrite Hev, Hevs. reflexivity.
  - intros token body result Hk Ht Hr Hp Hd Hc. unfold GLM_GenerateImage.
    destruct (String.eqb_spec apiKey ""); [contradiction|].
    rewrite Ht, Hr, Hp, Hd.
    destruct (String.eqb_spec (GLMErrorCode result) ""); [contradiction|].
    reflexivity.
Qed.

Lemma GLM_GenerateImage_success_witness :
  GLM_GenerateImage "id.secret" served "cogview" "a cat" "user-42"
  = ([DoPost glm_baseURL "Bearer jwt-id" "cogview" "a cat";
      DoGet "https://cdn.example/i.png";
      DoMkdirAll "data/uploads/user-42";
      DoWriteFile "data/uploads/user-42/infograph_1700000000000000000.png"
        ["P"; "N"; "G"]%char],
     Ok "data/uploads/user-42/infograph_1700000000000000000.png").
Proof.
  destruct (GLM_GenerateImage_success "id.secret" served "cogview" "a cat"
              "user-42") as [Hok _].
  destruct (Hok _ _ eq_refl) as (t & b & r & u & rest & d & _).
  reflexivity.
Defined.

(** X7. A Z-Image call that returns a path has made one POST with the key
    itself as bearer, got an answer whose code is empty or 200, fetched its
    first URL with status 200 and written the bytes once under the user's
    directory, to the path it returns.  Any other code ends the call after
    the POST. *)
Theorem ZImage_GenerateImage_success (apiKey : string) (w : World)
  (model prompt userID : string) :
  (forall ev path,
      ZImage_GenerateImage apiKey w model prompt userID = (ev, Ok path) ->
      exists body result url rest data,
        apiKey <> ""
        /\ Post w zimage_baseURL ("Bearer " +:+ apiKey) model prompt = Ok body
        /\ DecodeZ w body = Ok result
        /\ (ZCode result = "" \/ ZCode result = "200")
        /\ ZResults result = url :: rest /\ url <> ""
        /\ Get w url = Ok (mkDownload 200 (Ok data))
        /\ let dir := if negb (String.eqb userID "")
                      then JoinPath ["./data/uploads"; userID]
                      else "./data/uploads" in
           path = JoinPath [dir; "infograph_" +:+ FormatInt (UnixNano w)
                                   +:+ ".png"]
           /\ ev = [DoPost zimage_baseURL ("Bearer " +:+ apiKey) model prompt;
                    DoGet url; DoMkdirAll dir; DoWriteFile path data])
  /\ (forall body result,
         apiKey <> "" -> NewRequest w "POST" zimage_baseURL = None ->
         Post w zimage_baseURL ("Bearer " +:+ apiKey) model prompt = Ok body ->
         DecodeZ w body = Ok result ->
         ZCode result <> "" -> ZCode result <> "200" ->
         ZImage_GenerateImage apiKey w model prompt userID
         = ([DoPost zimage_baseURL ("Bearer " +:+ apiKey) model prompt],
            Err (errorString ("Z-Image API error (" +:+ ZCode result +:+ "): "
                                +:+ ZMessage result)))).
Proof.
  split.
  - intros ev path H. unfold ZImage_GenerateImage in H.
    destruct (String.eqb_spec apiKey "") as [|Hk]; [discriminate H|].
    destruct (NewRequest w "POST" zimage_baseURL); [discriminate H|].
    destruct (Post w zimage_baseURL ("Bearer " +:+ apiKey) model prompt)
      as [body|] eqn:Hpost; [|discriminate H].
    destruct (DecodeZ w body) as [result|] eqn:Hdec; [|discriminate H].
    assert (Hcode : ZCode result = "" \/ ZCode result = "200").
    { destruct (String.eqb_spec (ZCode result) ""); [now left|].
      destruct (String.eqb_spec (ZCode result) "200"); [now right|].
      discriminate H. }
    replace (negb (String.eqb (ZCode result) "")
             && negb (String.eqb (ZCode result) "200")) with false in H
      by (destruct Hcode as [-> | ->]; reflexivity).
    destruct (ZResults result) as [|url rest] eqn:Hdata; [discriminate H|].
    destruct (String.eqb_spec url "") as [|Hurl]; [discriminate H|].
    apply then_save_ok in H. destruct H as (dev & data & Hd & Hev & Hs).
    apply download_image_ok in Hd. destruct Hd as [-> Hget].
    destruct (save_user_image_ok w userID data path Hs) as [Hpath Hevs].
    cbv zeta in *. exists body, result, url, rest, data.
    repeat split; try assumption.
    rewrite Hev, Hevs. reflexivity.
  - intros body result Hk Hr Hp Hd H1 H2. unfold ZImage_GenerateImage.
    destruct (String.eqb_spec apiKey ""); [contradiction|].
    rewrite Hr, Hp, Hd.
    destruct (String.eqb_spec (ZCode result) ""); [contradiction|].
    destruct (String.eqb_spec (ZCode result) "200"); [contradiction|].
    reflexivity.
Qed.

Lemma ZImage_GenerateImage_success_witness :
  ZImage_GenerateImage "sk-1" served "z-image" "a cat" ""
  = ([DoPost zimage_baseURL "Bearer sk-1" "z-image" "a cat";
      DoGet "https://cdn.example/i.png";
      DoMkdirAll "./data/uploads";
      DoWriteFile "data/uploads/infograph_1700000000000000000.png"
        ["P"; "N"; "G"]%char],
     Ok "data/uploads/infograph_1700000000000000000.png").
Proof.
  destruct (ZImage_GenerateImage_success "sk-1" served "z-image" "a cat" "")
    as [Hok _].
  destruct (Hok _ _ eq_refl) as (b & r & u & rest & d & _).
  reflexivity.
Defined.

End HTTPImageFacts.

(** ** More on the slide parser *)

Module SlideParserMoreFacts.
Import GoStr GoStrFacts Regexp SlideParser SlideParserFacts SlideParserMore.
Import HTTPImageFacts.

Lemma heading_slides_grow (ToLower : string -> string)
  (content style : string) (indices : list (Z * Z)) :
  forall acc out,
    heading_slides ToLower content style indices acc = Some out ->
    exists new,
      out = (acc ++ new)%list
      /\ (length new <= length indices)%nat
      /\ Forall (fun s => Style s = style
                          /\ has_section_marker ToLower (Content s) = true
                          /\ exists start e hi,
                               In (start, e) indices
                               /\ slice content start hi = Some (Content s))
           new.
Proof.
  induction indices as [|[start e] rest IH]; intros acc out H.
  - cbn in H. injection H as <-. exists []. rewrite app_nil_r.
    repeat split; [cbn; lia | constructor].
  - cbn [heading_slides] in H.
    set (hi := match rest with
               | [] => len content
               | (next, _) :: _ => next
               end) in *.
    destruct (slice content start hi) as [region|] eqn:Hs; [|discriminate H].
    cbn [mbind option_bind] in H.
    fold (has_section_marker ToLower region) in H.
    assert (Hweak : forall new,
               Forall (fun s => Style s = style
                          /\ has_section_marker ToLower (Content s) = true
                          /\ exists start e hi,
                               In (start, e) rest
                               /\ slice content start hi = Some (Content s)) new ->
               Forall (fun s => Style s = style
                          /\ has_section_marker ToLower (Content s) = true
                          /\ exists start0 e0 hi,
                               In (start0, e0) ((start, e) :: rest)
                               /\ slice content start0 hi = Some (Content s)) new).
    { intros new Hall. eapply List.Forall_impl; [|exact Hall]. cbn.
      intros s (H1 & H2 & a & b & h & Hin & Hsl).
      repeat split; try assumption. exists a, b, h. split; [now right | exact Hsl]. }
    destruct (has_section_marker ToLower region) eqn:Hm.
    + destruct (IH _ _ H) as (new & -> & Hlen & Hall).
      exists (mkSlide style region :: new). rewrite <- app_assoc.
      split; [reflexivity|]. split; [cbn; lia|].
      constructor; [|exact (Hweak _ Hall)]. cbn. repeat split; try assumption.
      exists start, e, hi. split; [now left | exact Hs].
    + destruct (IH _ _ H) as (new & -> & Hlen & Hall).
      exists new. repeat split; [cbn; lia | exact (Hweak _ Hall)].
Qed.

(** Which regions are accepted does not depend on the style. *)
Lemma heading_slides_restyle (ToLower : string -> string)
  (content style style' : string) (indices : list (Z * Z)) :
  forall acc out,
    heading_slides ToLower content style indices acc = Some out ->
    heading_slides ToLower content style' indices (map (restyle style') acc)
    = Some (map (restyle style') out).
Proof.
  induction indices as [|[start e] rest IH]; intros acc out H.
  - cbn in H |- *. now injection H as <-.
  - cbn [heading_slides] in H |- *.
    destruct (slice content start _) as [region|]; [|discriminate H].
    cbn [mbind option_bind] in H |- *.
    destruct (Contains (ToLower region) "叙事目标"
              || Contains (ToLower region) "narrative goal"
              || Contains (ToLower region) "关键内容").
    + apply IH in H. rewrite map_app in H. exact H.
    + apply IH in H. exact H.
Qed.

Lemma style_between_tags (content : string) :
  let a := Index content style_open in
  let b := Index content style_close in
  0 <= a -> a < b ->
  content = take (Z.to_nat a) content +:+ style_open
              +:+ take (Z.to_nat (b - (a + 20))) (drop (Z.to_nat (a + 20)) content)
              +:+ style_close
              +:+ drop (Z.to_nat b + 21) content.
Proof.
  intros a b Ha Hab.
  pose proof (style_tags_apart content Ha Hab) as Hap. fold a b in Hap.
  destruct (Index_found content style_open Ha) as [Hopen _].
  destruct (Index_found content style_close ltac:(fold b; lia)) as [Hclose _].
  fold a in Hopen. fold b in Hclose.
  apply prefix_split in Hopen. apply prefix_split in Hclose.
  change (String.length style_open) with 20%nat in Hopen.
  change (String.length style_close) with 21%nat in Hclose.
  rewrite drop_drop in Hopen, Hclose.
  rewrite <- (take_drop (Z.to_nat a) content) at 1. f_equal.
  rewrite Hopen at 1. f_equal.
  replace (Z.to_nat a + 20)%nat with (Z.to_nat (a + 20)) by lia.
  rewrite <- (take_drop (Z.to_nat (b - (a + 20)))
                (drop (Z.to_nat (a + 20)) content)) at 1.
  f_equal. rewrite drop_drop.
  replace (Z.to_nat (a + 20) + Z.to_nat (b - (a + 20)))%nat with (Z.to_nat b)
    by lia.
  exact Hclose.
Qed.

(** X9. All slides of one parse carry the same style.  It is the text
    between the first opening and the first closing style tag when the
    opening tag comes first, and empty otherwise: a deck without the tags,
    or with the closing tag first, has no style. *)
Theorem slides_share_style (ToLower : string -> string) (content : string)
  (slides : list Slide) :
  ParsePPTSlides ToLower content = Some slides ->
  exists style,
    Forall (fun s => Style s = style) slides
    /\ let a := Index content style_open in
       let b := Index content style_close in
       (0 <= a -> a < b ->
        content = take (Z.to_nat a) content +:+ "<STYLE_INSTRUCTIONS>"
                    +:+ style +:+ "</STYLE_INSTRUCTIONS>"
                    +:+ drop (Z.to_nat b + 21) content)
       /\ (a = -1 \/ b <= a -> style = "").
Proof.
  intros H. unfold ParsePPTSlides in H.
  set (a := Index content style_open) in *.
  set (b := Index content style_close) in *.
  destruct (if negb (a =? -1) && (a <? b)
            then slice content (a + 20) b else Some "") as [style|] eqn:Hst;
    [|discriminate H].
  cbn [mbind option_bind] in H.
  destruct (heading_slides ToLower content style
              (FindAllStringIndex slide_heading content) []) as [out|] eqn:Hh;
    [|discriminate H].
  cbn [mbind option_bind] in H. injection H as <-.
  exists style. split.
  - destruct (heading_slides_grow _ _ _ _ _ _ Hh) as (new & -> & _ & Hall).
    cbn [app]. destruct new as [|s0 new'].
    + unfold marker_slides.
      destruct (Contains content _); [|constructor; [reflexivity | constructor]].
      destruct (map _ _) as [|m ms] eqn:Hm;
        [constructor; [reflexivity | constructor]|].
      rewrite <- Hm. apply List.Forall_forall. intros s Hin.
      apply in_map_iff in Hin. destruct Hin as (part & <- & _).
      reflexivity.
    + eapply List.Forall_impl; [|exact Hall]. cbn. tauto.
  - cbv zeta. split.
    + intros Ha Hab.
      assert (Hc : negb (a =? -1) && (a <? b) = true).
      { destruct (Z.eqb_spec a (-1)); [lia|].
        destruct (Z.ltb_spec a b); [reflexivity | lia]. }
      rewrite Hc in Hst.
      pose proof (style_tags_apart content Ha Hab) as Hap. fold a b in Hap.
      destruct (Index_found content style_close ltac:(fold b; lia)) as [_ Hin].
      fold b in Hin. pose proof (len_nonneg style_close).
      rewrite slice_in_range in Hst by lia. injection Hst as <-.
      exact (style_between_tags content Ha Hab).
    + intros Hno.
      assert (Hc : negb (a =? -1) && (a <? b) = false).
      { destruct Hno as [-> | Hle]; [reflexivity|].
        destruct (Z.ltb_spec a b); [lia|]. apply andb_false_r. }
      rewrite Hc in Hst. now injection Hst as <-.
Qed.

Lemma slides_share_style_witness :
  exists style,
    Forall (fun s => Style s = style)
      [mkSlide "dark" ("Slide 1: a" +:+ nl +:+ "// NARRATIVE GOAL x")]
    /\ "<STYLE_INSTRUCTIONS>dark</STYLE_INSTRUCTIONS>" +:+ nl +:+ "Slide 1: a" +:+ nl
         +:+ "// NARRATIVE GOAL x"
       = "" +:+ "<STYLE_INSTRUCTIONS>" +:+ style +:+ "</STYLE_INSTRUCTIONS>"
           +:+ nl +:+ "Slide 1: a" +:+ nl +:+ "// NARRATIVE GOAL x".
Proof.
  destruct (slides_share_style ToLowerASCII
              ("<STYLE_INSTRUCTIONS>dark</STYLE_INSTRUCTIONS>" +:+ nl +:+ "Slide 1: a" +:+ nl
                 +:+ "// NARRATIVE GOAL x")
              [mkSlide "dark" ("Slide 1: a" +:+ nl +:+ "// NARRATIVE GOAL x")]
              ltac:(vm_compute; reflexivity))
    as (style & Hall & Hbetween & _).
  exists style. split; [exact Hall|].
  exact (Hbetween ltac:(vm_compute; discriminate) ltac:(vm_compute; reflexivity)).
Defined.

(** The pieces of a split, each behind the separator, give back the
    separator and the text. *)
Lemma SplitN_rejoin (sep : string) (n : nat) :
  forall s,
    fold_right (fun part acc => sep +:+ part +:+ acc) "" (SplitN n s sep)
    = sep +:+ s.
Proof.
  induction n as [|n IH]; intros s; cbn [SplitN].
  - cbn. now rewrite append_nil_r.
  - destruct (Z.ltb_spec (Index s sep) 0) as [Hlt|Hge].
    + cbn. now rewrite append_nil_r.
    + cbn [fold_right]. rewrite IH.
      destruct (Index_found s sep Hge) as [Hp _].
      apply prefix_split in Hp. rewrite drop_drop in Hp.
      rewrite <- Hp. now rewrite take_drop.
Qed.

Lemma contents_marker_slides (style marker : string) (parts : list string) :
  contents (map (fun part => mkSlide style (marker +:+ part)) parts)
  = fold_right (fun part acc => marker +:+ part +:+ acc) "" parts.
Proof.
  induction parts as [|p ps IH]; [reflexivity|].
  cbn [map contents fold_right Content]. rewrite IH.
  now rewrite append_assoc.
Qed.

Lemma prefix_append (p s : string) : String.prefix p (p +:+ s) = true.
Proof.
  induction p as [|c p IH]; [now destruct s|].
  rewrite append_cons. cbn. destruct (ascii_dec c c); [exact IH | contradiction].
Qed.

(** X10. When no heading region is accepted and a narrative-goal marker
    occurs (the Chinese one is tried first), the parser returns one slide
    per occurrence of the marker; every slide starts with the marker, and
    the slides put end to end are the text from the first marker on: only
    what stands before the first marker is dropped. *)
Theorem marker_slides_cover_text (ToLower : string -> string)
  (content : string) :
  accepted_headings ToLower content = Some [] ->
  Contains content (split_marker content) = true ->
  exists slides,
    ParsePPTSlides ToLower content = Some slides
    /\ Forall (fun s => String.prefix (split_marker content) (Content s) = true)
         slides
    /\ contents slides
       = drop (Z.to_nat (Index content (split_marker content))) content
    /\ S (length slides) = length (Split content (split_marker content)).
Proof.
  intros Hhead Hmark.
  destruct (style_defined content) as [style Hstyle]. cbv zeta in Hstyle.
  apply (heading_slides_restyle _ _ _ style) in Hhead. cbn [map] in Hhead.
  unfold ParsePPTSlides. rewrite Hstyle. cbn [mbind option_bind].
  rewrite Hhead. cbn [mbind option_bind].
  unfold marker_slides. fold (split_marker content). rewrite Hmark.
  set (marker := split_marker content) in *.
  set (out := map _ (tail (Split content marker))).
  assert (Hne : out <> []).
  { unfold out. intros Hnil. apply map_eq_nil in Hnil.
    exact (Split_tail_nonempty _ _ Hmark Hnil). }
  exists out. split; [destruct out; [contradiction | reflexivity]|].
  split; [|split].
  - unfold out. apply List.Forall_forall. intros s Hin.
    apply in_map_iff in Hin. destruct Hin as (part & <- & _).
    apply prefix_append.
  - unfold out. rewrite contents_marker_slides.
    unfold Split. cbn [SplitN]. unfold Contains in Hmark.
    apply Z.leb_le in Hmark.
    destruct (Z.ltb_spec (Index content marker) 0) as [Hlt|_]; [lia|].
    cbn [tail]. rewrite SplitN_rejoin.
    destruct (Index_found content marker Hmark) as [Hp _].
    apply prefix_split in Hp. rewrite drop_drop in Hp. now rewrite <- Hp.
  - unfold out. rewrite length_map.
    pose proof (SplitN_nonempty (S (String.length content)) content marker).
    unfold Split. destruct (SplitN _ _ _); [contradiction | reflexivity].
Qed.

Lemma marker_slides_cover_text_witness :
  exists slides,
    ParsePPTSlides ToLowerASCII "intro// NARRATIVE GOAL a// NARRATIVE GOAL b"
    = Some slides
    /\ Forall (fun s => String.prefix "// NARRATIVE GOAL" (Content s) = true)
         slides
    /\ contents slides = "// NARRATIVE GOAL a// NARRATIVE GOAL b"
    /\ S (length slides) = 3%nat.
Proof.
  exact (marker_slides_cover_text ToLowerASCII
           "intro// NARRATIVE GOAL a// NARRATIVE GOAL b"
           ltac:(vm_compute; reflexivity) ltac:(vm_compute; reflexivity)).
Defined.

(** X12. When some heading region is accepted, the parser returns exactly
    the accepted regions, in order and under the extracted style, and does
    not split on the narrative-goal marker.  Every slide then holds a
    section marker in its lower-cased text and is the piece of the input
    that starts at a heading match; there are at most as many slides as
    heading matches. *)
Theorem heading_slides_validated (ToLower : string -> string)
  (content : string) (accepted : list Slide) :
  accepted_headings ToLower content = Some accepted ->
  accepted <> [] ->
  exists style,
    ParsePPTSlides ToLower content = Some (map (restyle style) accepted)
    /\ (length accepted
        <= length (FindAllStringIndex slide_heading content))%nat
    /\ Forall (fun s =>
                 has_section_marker ToLower (Content s) = true
                 /\ exists start e hi,
                      In (start, e) (FindAllStringIndex slide_heading content)
                      /\ slice content start hi = Some (Content s))
         accepted.
Proof.
  intros Hhead Hne.
  destruct (style_defined content) as [style Hstyle]. cbv zeta in Hstyle.
  exists style. split; [|].
  - apply (heading_slides_restyle _ _ _ style) in Hhead. cbn [map] in Hhead.
    unfold ParsePPTSlides. rewrite Hstyle. cbn [mbind option_bind].
    rewrite Hhead. cbn [mbind option_bind].
    destruct accepted; [contradiction | reflexivity].
  - destruct (heading_slides_grow _ _ _ _ _ _ Hhead) as (new & -> & Hlen & Hall).
    cbn [app]. split; [exact Hlen|].
    eapply List.Forall_impl; [|exact Hall]. cbn. tauto.
Qed.

Lemma heading_slides_validated_witness :
  exists style,
    ParsePPTSlides ToLowerASCII
      ("Slide 1: a" +:+ nl +:+ "// NARRATIVE GOAL x" +:+ nl +:+ "Slide 2: b")
    = Some (map (restyle style)
              [mkSlide "" ("Slide 1: a" +:+ nl +:+ "// NARRATIVE GOAL x" +:+ nl)]).
Proof.
  destruct (heading_slides_validated ToLowerASCII
              ("Slide 1: a" +:+ nl +:+ "// NARRATIVE GOAL x" +:+ nl
                 +:+ "Slide 2: b")
              [mkSlide "" ("Slide 1: a" +:+ nl +:+ "// NARRATIVE GOAL x" +:+ nl)]
              ltac:(vm_compute; reflexivity) ltac:(discriminate))
    as (style & Hparse & _).
  exists style. exact Hparse.
Defined.

Lemma match_here_bol (prev : option ascii) (s : string) (n : nat) :
  match_here slide_heading prev s = Some n -> at_bol prev = true.
Proof.
  unfold match_here, slide_heading. cbn [run].
  destruct (at_bol prev); [reflexivity | discriminate].
Qed.

Lemma scan_at_line_starts (whole : string) :
  forall s prev pos skip,
    (forall i, String.get i s = String.get (pos + i) whole) ->
    match prev with
    | None => pos = 0%nat
    | Some c => (0 < pos)%nat /\ String.get (pos - 1) whole = Some c
    end ->
    Forall (fun m => fst m = 0
                     \/ String.get (Z.to_nat (fst m) - 1) whole
                        = Some "010"%char)
      (scan slide_heading prev s pos skip).
Proof.
  induction s as [|c s IH]; intros prev pos skip Hget Hprev; [constructor|].
  assert (Hnext : forall skip',
             Forall (fun m => fst m = 0
                     \/ String.get (Z.to_nat (fst m) - 1) whole
                        = Some "010"%char)
               (scan slide_heading (Some c) s (S pos) skip')).
  { intros skip'. apply IH.
    - intros i. replace (S pos + i)%nat with (pos + S i)%nat by lia.
      rewrite <- (Hget (S i)). reflexivity.
    - split; [lia|]. replace (S pos - 1)%nat with (pos + 0)%nat by lia.
      rewrite <- Hget. reflexivity. }
  cbn [scan]. destruct skip as [|skip]; [|apply Hnext].
  destruct (match_here slide_heading prev (String c s)) as [n|] eqn:Hm;
    [|apply Hnext].
  constructor; [|apply Hnext]. cbn [fst].
  apply match_here_bol in Hm. destruct prev as [p|]; cbn in Hm.
  - right. destruct Hprev as [Hpos Hp]. rewrite Nat2Z.id, Hp.
    unfold is_nl in Hm. apply Ascii.eqb_eq in Hm. now subst p.
  - left. subst pos. reflexivity.
Qed.

Lemma starts_within_In (l : list (Z * Z)) :
  forall lo hi m, starts_within lo hi l -> In m l -> lo <= fst m < hi.
Proof.
  induction l as [|[a b] l IH]; intros lo hi m Hs Hin; [contradiction|].
  destruct Hs as [Ha Hr]. destruct Hin as [<- | Hin]; [exact Ha|].
  specialize (IH _ _ _ Hr Hin). lia.
Qed.

(** X11. Every match of the slide-heading pattern starts inside the text
    and at the start of a line: at offset 0 or right after a newline.  A
    heading in the middle of a line never starts a slide. *)
Theorem slide_heading_at_line_start (content : string) (m : Z * Z) :
  In m (FindAllStringIndex slide_heading content) ->
  0 <= fst m < len content
  /\ (fst m = 0
      \/ String.get (Z.to_nat (fst m) - 1) content = Some "010"%char).
Proof.
  intros Hin. split.
  - exact (starts_within_In _ _ _ _ (FindAllStringIndex_starts _ _) Hin).
  - pose proof (scan_at_line_starts content content None 0 0
                  (fun i => eq_refl) eq_refl) as Hall.
    rewrite List.Forall_forall in Hall. exact (Hall m Hin).
Qed.

Lemma slide_heading_at_line_start_witness :
  0 <= 4 < len ("abc" +:+ nl +:+ "Slide 2")
  /\ (4 = 0 \/ String.get 3 ("abc" +:+ nl +:+ "Slide 2") = Some "010"%char).
Proof.
  exact (slide_heading_at_line_start ("abc" +:+ nl +:+ "Slide 2") (4, 11)
           ltac:(vm_compute; left; reflexivity)).
Defined.

End SlideParserMoreFacts.

(** ** More on the agent *)

Module AgentMoreFacts.
Import GoStr GoStrFacts GoErr Types Agent SourceContextFacts ServerMore.

Lemma summarize_spec (docs : list Document) :
  forall (m : gmap string bool) (acc : list SourceSummary),
    (forall k, default false (m !! k) = true <-> In k (map SummaryID acc)) ->
    NoDup (map SummaryID acc) ->
    Forall (fun s => s = mkSourceSummary (SummaryID s) (SummaryID s) "file")
      acc ->
    NoDup (map SummaryID (summarize docs m acc))
    /\ (forall s,
           In s (summarize docs m acc)
           <-> In s acc
               \/ (s = mkSourceSummary (SummaryID s) (SummaryID s) "file"
                   /\ exists doc, In doc docs /\ tagged_with doc (SummaryID s)))
    /\ (length (summarize docs m acc) <= length acc + length docs)%nat.
Proof.
  induction docs as [|doc rest IH]; intros m acc Hm Hnd Hform.
  - cbn [summarize]. split; [exact Hnd|]. split; [|cbn; lia].
    intros s. split; [now left|]. intros [H | (_ & d & [] & _)]. exact H.
  - cbn [summarize].
    destruct (as_string (DocMetadata doc !! "source")) as [source|] eqn:Hsrc.
    + destruct (default false (m !! source)) eqn:Hseen; cbn [negb].
      * destruct (IH m acc Hm Hnd Hform) as (H1 & H2 & H3).
        split; [exact H1|]. split; [|cbn [length]; lia].
        intros s. rewrite H2. split.
        -- intros [H | (Hs & d & Hd & Ht)]; [now left | right].
           split; [exact Hs|]. exists d. split; [now right | exact Ht].
        -- intros [H | (Hs & d & [<- | Hd] & Ht)]; [now left | | right].
           ++ left. unfold tagged_with in Ht. rewrite Hsrc in Ht.
              injection Ht as Ht. apply Hm in Hseen. rewrite Ht in Hseen.
              apply in_map_iff in Hseen. destruct Hseen as (s' & Hid & Hin).
              rewrite List.Forall_forall in Hform.
              rewrite Hs, <- Hid, <- (Hform s' Hin). exact Hin.
           ++ split; [exact Hs|]. now exists d.
      * assert (Hnew : ~ In source (map SummaryID acc)).
        { intros Hin. apply Hm in Hin. congruence. }
        destruct (IH (<[source := true]> m)
                    (acc ++ [mkSourceSummary source source "file"])%list)
          as (H1 & H2 & H3).
        { intros k. rewrite map_app, in_app_iff. cbn [map In SummaryID].
          destruct (decide (source = k)) as [<-|Hne].
          - rewrite lookup_insert_eq. cbn. tauto.
          - rewrite lookup_insert_ne by exact Hne. rewrite Hm. tauto. }
        { rewrite map_app. cbn [map SummaryID].
          apply NoDup_app. split; [exact Hnd|]. split.
          - intros x Hx Hx'. apply list_elem_of_In in Hx, Hx'.
            destruct Hx' as [<- | []]. exact (Hnew Hx).
          - apply NoDup_singleton. }
        { apply Forall_app. split; [exact Hform|].
          constructor; [reflexivity | constructor]. }
        split; [exact H1|]. split.
        -- intros s. rewrite H2, in_app_iff. cbn [In]. split.
           ++ intros [[H | [<- | []]] | (Hs & d & Hd & Ht)].
              ** now left.
              ** right. split; [reflexivity|]. exists doc.
                 split; [now left | exact Hsrc].
              ** right. split; [exact Hs|]. exists d. split; [now right | exact Ht].
           ++ intros [H | (Hs & d & [<- | Hd] & Ht)].
              ** left. now left.
              ** left. right. left. unfold tagged_with in Ht.
                 rewrite Hsrc in Ht. injection Ht as Ht. rewrite Hs, <- Ht.
                 reflexivity.
              ** right. split; [exact Hs|]. now exists d.
        -- rewrite length_app in H3. cbn [length] in H3 |- *. lia.
    + destruct (IH m acc Hm Hnd Hform) as (H1 & H2 & H3).
      split; [exact H1|]. split; [|cbn [length]; lia].
      intros s. rewrite H2. split.
      * intros [H | (Hs & d & Hd & Ht)]; [now left | right].
        split; [exact Hs|]. exists d. split; [now right | exact Ht].
      * intros [H | (Hs & d & [<- | Hd] & Ht)]; [now left | | right].
        -- unfold tagged_with in Ht. congruence.
        -- split; [exact Hs|]. now exists d.
Qed.

(** X13. The sources a chat answer lists are the sources the retrieved
    documents are tagged with, each once and named by its tag: no source
    appears twice however many of its chunks were retrieved, an untagged
    document adds none, and docs_retrieved counts the documents, not the
    sources. *)
Theorem Chat_sources_distinct (env : ChatEnv) (cfg : Config)
  (notebookID message : string) (history : list ChatMessage)
  (r : ChatResponse) :
  Chat env cfg notebookID message history = Ok r ->
  let docs := retrieved env cfg message in
  NoDup (map SummaryID (Sources r))
  /\ (forall s,
         In s (Sources r)
         <-> s = mkSourceSummary (SummaryID s) (SummaryID s) "file"
             /\ exists doc, In doc docs /\ tagged_with doc (SummaryID s))
  /\ (length (Sources r) <= length docs)%nat
  /\ ChatMetadata r !! "docs_retrieved" = Some (AInt (Z.of_nat (length docs))).
Proof.
  unfold Chat, retrieved.
  destruct (SimilaritySearch env message (MaxSources cfg)) as [docs|e];
    [|discriminate].
  destruct (FormatChatPrompt env _ _ _) as [p|e]; [|discriminate].
  destruct (GenerateFromSinglePrompt env p) as [response|e]; [|discriminate].
  intros H. injection H as <-. cbn [Sources ChatMetadata].
  destruct (summarize_spec docs ∅ []) as (H1 & H2 & H3).
  - intros k. rewrite lookup_empty. cbn. split; [discriminate | contradiction].
  - constructor.
  - constructor.
  - split; [exact H1|]. split; [|split].
    + intros s. rewrite H2. cbn [In]. tauto.
    + cbn [length] in H3. lia.
    + apply lookup_singleton_eq.
Qed.

Lemma Chat_sources_distinct_witness :
  exists r,
    Chat (ChatSamples.agent_on ChatSamples.two_notebooks)
      ChatSamples.chat_config "nb-A" "salaries" [] = Ok r
    /\ NoDup (map SummaryID (Sources r))
    /\ (length (Sources r) <= 2)%nat.
Proof.
  eexists. split; [reflexivity|].
  pose proof (Chat_sources_distinct
                (ChatSamples.agent_on ChatSamples.two_notebooks)
                ChatSamples.chat_config "nb-A" "salaries" [] _ eq_refl)
    as (Hnd & _ & Hlen & _).
  split; [exact Hnd | exact Hlen].
Defined.

Lemma sourceContext_defined (cfg : Config) (sources : list Source) :
  sourceContext cfg sources = Some (spec_sections cfg 0 sources).
Proof.
  unfold sourceContext. rewrite write_sources_sections.
  now rewrite append_nil_l.
Qed.

Lemma callDeepInsight_commands (sh : Shell) (summary : string) :
  (length (fst (callDeepInsight sh summary)) <= 3)%nat
  /\ forall e, snd (callDeepInsight sh summary) = Err e ->
               exists cause, Unwrap e = Some cause.
Proof.
  unfold callDeepInsight.
  destruct (CombinedOutput sh _) as [out [e1|]].
  - cbn. split; [lia|]. intros e H. injection H as <-. now exists e1.
  - destruct (CombinedOutput sh _) as [out2 [e2|]].
    + cbn. split; [lia|]. intros e H. injection H as <-. now exists e2.
    + cbn. split; [lia|]. intros e H. discriminate H.
Qed.

(** X14. [GenerateTransformation] returns for every configuration, request
    and list of sources: building the source context never slices out of
    range.  It runs commands only for the type insight, and then at most
    three.  A response carries the requested type, one summary per given
    source in order, and the requested length and format as metadata; an
    error always wraps the error that caused it. *)
Theorem GenerateTransformation_total (env : TransformEnv) (cfg : Config)
  (req : TransformationRequest) (sources : list Source) :
  exists cmds r,
    GenerateTransformation env cfg req sources = Some (cmds, r)
    /\ (ReqType req <> "insight" -> cmds = [])
    /\ (length cmds <= 3)%nat
    /\ (forall resp,
           r = Ok resp ->
           RespType resp = ReqType req
           /\ map SummaryID (RespSources resp) = map SourceID sources
           /\ map SummaryName (RespSources resp) = map SourceName sources
           /\ RespMetadata resp !! "length" = Some (AString (ReqLength req))
           /\ RespMetadata resp !! "format" = Some (AString (ReqFormat req)))
    /\ (forall e, r = Err e -> exists cause, Unwrap e = Some cause).
Proof.
  unfold GenerateTransformation. rewrite sourceContext_defined.
  cbn [mbind option_bind].
  assert (Hresp : forall response resp,
             @Ok TransformationResponse
               (mkTransformationResponse (ReqType req) response
                  (summaries_of sources) (Now env)
                  {[ "length" := AString (ReqLength req);
                     "format" := AString (ReqFormat req) ]}) = Ok resp ->
             RespType resp = ReqType req
             /\ map SummaryID (RespSources resp) = map SourceID sources
             /\ map SummaryName (RespSources resp) = map SourceName sources
             /\ RespMetadata resp !! "length" = Some (AString (ReqLength req))
             /\ RespMetadata resp !! "format" = Some (AString (ReqFormat req))).
  { intros response resp H. injection H as <-.
    cbn [RespType RespSources RespMetadata]. unfold summaries_of.
    rewrite !map_map. cbn [SummaryID SummaryName].
    split; [reflexivity|]. split; [reflexivity|]. split; [reflexivity|].
    split; [apply lookup_insert_eq|].
    rewrite lookup_insert_ne by discriminate. apply lookup_singleton_eq. }
  destruct (FormatPrompt env _ _ _ _ _) as [p|e0].
  2:{ eexists _, _. split; [reflexivity|].
      split; [reflexivity|]. split; [cbn; lia|]. split; [discriminate|].
      intros e H. injection H as <-. now exists e0. }
  destruct (String.eqb (ReqType req) "ppt") eqn:Eppt.
  { destruct (GenerateTextWithModel env p _) as [response|e1];
      eexists _, _; (split; [reflexivity|]).
    - split; [reflexivity|]. split; [cbn; lia|]. split; [apply Hresp|].
      discriminate.
    - split; [reflexivity|]. split; [cbn; lia|]. split; [discriminate|].
      intros e H. injection H as <-. now exists e1. }
  destruct (String.eqb (ReqType req) "insight") eqn:Eins.
  - destruct (GenerateText env p) as [summary|e1].
    + destruct (callDeepInsight_commands (DeepInsightShell env) summary)
        as [Hlen Herr].
      destruct (callDeepInsight (DeepInsightShell env) summary)
        as [cmds [response|e2]]; eexists _, _; (split; [reflexivity|]).
      * split; [apply String.eqb_eq in Eins; contradiction|].
        split; [exact Hlen|]. split; [apply Hresp | discriminate].
      * split; [apply String.eqb_eq in Eins; contradiction|].
        split; [exact Hlen|]. split; [discriminate|].
        intros e H. injection H as <-. now exists e2.
    + eexists _, _. split; [reflexivity|].
      split; [reflexivity|]. split; [cbn; lia|]. split; [discriminate|].
      intros e H. injection H as <-. now exists e1.
  - destruct (GenerateText env p) as [response|e1];
      eexists _, _; (split; [reflexivity|]).
    + split; [reflexivity|]. split; [cbn; lia|]. split; [apply Hresp|].
      discriminate.
    + split; [reflexivity|]. split; [cbn; lia|]. split; [discriminate|].
      intros e H. injection H as <-. now exists e1.
Qed.

Lemma GenerateTransformation_total_witness :
  exists cmds r,
    GenerateTransformation AgentLegacy.answering tiny_limit
      (mkTransformationRequest "faq" "comprehensive" "markdown" "" [])
      three_sources = Some (cmds, r)
    /\ cmds = [].
Proof.
  destruct (GenerateTransformation_total AgentLegacy.answering tiny_limit
              (mkTransformationRequest "faq" "comprehensive" "markdown" "" [])
              three_sources) as (cmds & r & Hrun & Hcmds & _).
  exists cmds, r. split; [exact Hrun|]. apply Hcmds. discriminate.
Defined.

(** X15. The two versions of the agent differ in the insight branch
    only: for every other type the later [GenerateTransformation] returns
    what the earlier one returns, and runs no command. *)
Theorem insight_is_the_only_difference (env : TransformEnv) (cfg : Config)
  (req : TransformationRequest) (sources : list Source) :
  ReqType req <> "insight" ->
  GenerateTransformation env cfg req sources
  = (r ← AgentLegacy.GenerateTransformation env cfg req sources;
     Some ([], r)).
Proof.
  intros Hne. apply String.eqb_neq in Hne.
  unfold GenerateTransformation, AgentLegacy.GenerateTransformation.
  rewrite sourceContext_defined. cbn [mbind option_bind]. f_equal.
  destruct (FormatPrompt env _ _ _ _ _) as [p|e0]; [|reflexivity].
  rewrite Hne.
  destruct (String.eqb (ReqType req) "ppt").
  - now destruct (GenerateTextWithModel env p _).
  - now destruct (GenerateText env p).
Qed.

Lemma insight_is_the_only_difference_witness :
  GenerateTransformation AgentLegacy.answering tiny_limit
    (mkTransformationRequest "faq" "comprehensive" "markdown" "" [])
    three_sources
  = (r ← AgentLegacy.GenerateTransformation AgentLegacy.answering tiny_limit
           (mkTransformationRequest "faq" "comprehensive" "markdown" "" [])
           three_sources;
     Some ([], r)).
Proof.
  exact (insight_is_the_only_difference AgentLegacy.answering tiny_limit
           (mkTransformationRequest "faq" "comprehensive" "markdown" "" [])
           three_sources ltac:(discriminate)).
Defined.

End AgentMoreFacts.

(** ** More on the loader and the transformation handler *)

Module ServerMoreFacts.
Import GoStr GoStrFacts Filepath GoErr Types SlideParser Server ServerMore.

Lemma quiet_app (a b : list event) :
  List.filter is_log_activity (a ++ b)
  = (List.filter is_log_activity a ++ List.filter is_log_activity b)%list.
Proof. apply List.filter_app. Qed.

Lemma slide_images_quiet (w : World) (m u st : string) (slides : list Slide) :
  forall n urls,
    List.filter is_log_activity (fst (slide_images w m u st slides n urls)) = []
    /\ List.filter is_image_call (fst (slide_images w m u st slides n urls))
       = fst (slide_images w m u st slides n urls).
Proof.
  induction slides as [|sl rest IH]; intros n urls; [now split|].
  cbn [slide_images].
  destruct (slide_images w m u st rest (S n) _) as [ev urls'] eqn:E.
  specialize (IH (S n)
                match GenerateImage w n m (slide_prompt st sl) u with
                | Ok imagePath => (urls ++ ["/api/files/" +:+ Base imagePath])%list
                | Err _ => urls
                end).
  rewrite E in IH. cbn [fst] in IH |- *. destruct IH as [IH1 IH2].
  cbn [List.filter is_log_activity is_image_call]. now rewrite IH1, IH2.
Qed.

Section AnyVectorStore.

Variable VectorStore : Type.
Variable IngestText :
  VectorStore -> string -> string -> string -> VectorStore * result Z.
Variable ToLower : string -> string.

Local Abbreviation state := (Server.state VectorStore).
Local Abbreviation load := (loadNotebookVectorIndex VectorStore IngestText).
Local Abbreviation save := (save_transformation VectorStore IngestText ToLower).

Lemma load_sources_quiet (notebookID : string) (sources : list Source) :
  forall vs,
    List.filter is_log_activity
      (snd (load_sources VectorStore IngestText notebookID sources vs)) = [].
Proof.
  induction sources as [|src rest IH]; intros vs; [reflexivity|].
  cbn [load_sources]. destruct (negb _); [|apply IH].
  destruct (IngestText vs _ _ _) as [vs' r].
  specialize (IH vs').
  destruct (load_sources VectorStore IngestText notebookID rest vs')
    as [vs'' ev].
  cbn [snd] in IH |- *. exact IH.
Qed.

Lemma load_quiet (w : World) (s : state) (notebookID : string) :
  List.filter is_log_activity (snd (fst (load w s notebookID))) = [].
Proof.
  unfold loadNotebookVectorIndex.
  destruct (default false _); [reflexivity|].
  destruct (ListSources w _ _) as [sources|e]; [|reflexivity].
  pose proof (load_sources_quiet notebookID sources (vectorStore _ s)) as H.
  destruct (load_sources VectorStore IngestText notebookID sources _)
    as [vs ev].
  cbn [fst snd] in H |- *. exact H.
Qed.

(** X16. After an invocation of the loader the notebook is marked loaded
    exactly when the invocation returned no error, and the mark of every
    other notebook is as before.  An error is the failed listing, wrapped:
    nothing was ingested and the notebook stays unmarked, so the next
    request lists again. *)
Theorem loader_marks_iff_no_error (w : World) (s s' : state)
  (notebookID : string) (ev : list event) (err : option error) :
  load w s notebookID = (s', ev, err) ->
  (err = None
   <-> default false (loadedNotebooks _ s' !! notebookID) = true)
  /\ (forall other,
         other <> notebookID ->
         loadedNotebooks _ s' !! other = loadedNotebooks _ s !! other)
  /\ (forall e,
         err = Some e ->
         vectorStore _ s' = vectorStore _ s
         /\ loadedNotebooks _ s' = loadedNotebooks _ s
         /\ ev = [CallListSources notebookID]
         /\ exists cause,
              ListSources w (listings _ s) notebookID = Err cause
              /\ Unwrap e = Some cause
              /\ Error e = "failed to list sources: " +:+ Error cause).
Proof.
  clear ToLower.
  unfold loadNotebookVectorIndex.
  destruct (default false (loadedNotebooks _ s !! notebookID)) eqn:Hl.
  - intros H. injection H as <- <- <-.
    split; [tauto|]. split; [reflexivity | discriminate].
  - destruct (ListSources w _ _) as [sources|cause] eqn:Hls.
    + destruct (load_sources VectorStore IngestText notebookID sources _)
        as [vs ev'].
      intros H. injection H as <- <- <-. cbn [loadedNotebooks].
      split; [|split].
      * rewrite lookup_insert_eq. cbn. tauto.
      * intros other Hne. now rewrite lookup_insert_ne by congruence.
      * discriminate.
    + intros H. injection H as <- <- <-. cbn [loadedNotebooks vectorStore].
      split; [|split].
      * rewrite Hl. split; discriminate.
      * reflexivity.
      * intros e H. injection H as <-.
        repeat split. exists cause. repeat split.
Qed.

Lemma infograph_step_quiet (w : World) (cfg : Config) (userID : string)
  (req : TransformationRequest) (response : TransformationResponse)
  (metadata : gmap string any) :
  List.filter is_log_activity
    (fst (infograph_step w cfg userID req response metadata)) = []
  /\ (ReqType req <> "infograph" ->
      infograph_step w cfg userID req response metadata = ([], metadata)).
Proof.
  unfold infograph_step.
  destruct (String.eqb_spec (ReqType req) "infograph"); split;
    try reflexivity; try contradiction.
Qed.

Lemma ppt_step_quiet (w : World) (cfg : Config) (userID : string)
  (req : TransformationRequest) (response : TransformationResponse)
  (metadata : gmap string any) (ev : list event) (md : gmap string any) :
  ppt_step ToLower w cfg userID req response metadata = Some (ev, md) ->
  List.filter is_log_activity ev = []
  /\ (ReqType req <> "ppt" -> ev = [] /\ md = metadata).
Proof.
  unfold ppt_step.
  destruct (String.eqb_spec (ReqType req) "ppt") as [Heq|Hne].
  - destruct (ParsePPTSlides ToLower _) as [slides|]; [|discriminate].
    cbn [mbind option_bind].
    destruct (10 <? _).
    + intros H. injection H as <- <-. split; [reflexivity | contradiction].
    + pose proof (slide_images_quiet w (getImageModelForProvider cfg) userID
                    match slides with s0 :: _ => Style s0 | [] => "" end
                    slides 0 []) as [Hq _].
      destruct (slide_images _ _ _ _ _ _ _) as [ev' urls].
      intros H. injection H as <- <-. split; [exact Hq | contradiction].
  - intros H. injection H as <- <-. split; [reflexivity | now split].
Qed.

Lemma save_transformation_reply (w : World) (cfg : Config) (s s' : state)
  (notebookID userID : string) (req : TransformationRequest)
  (response : TransformationResponse) (ev : list event) (r : reply) :
  save w cfg s notebookID userID req response = Some (s', ev, r) ->
  match ReplyBody r with
  | NoteBody note =>
      Status r = 200
      /\ NoteNotebookID note = notebookID
      /\ NoteType note = ReqType req
      /\ NoteTitle note = getTitleForType (ReqType req)
      /\ NoteSourceIDs note = ReqSourceIDs req
      /\ In (CallLogActivity userID "transform" (NoteID note)) ev
      /\ exists unsaved,
           In (CallCreateNote unsaved) ev
           /\ CreateNote w unsaved = Ok (NoteID note)
           /\ NoteID unsaved = ""
           /\ NoteContent unsaved = NoteContent note
           /\ NoteMetadata unsaved = NoteMetadata note
  | ErrorResponse _ =>
      Status r = 500 /\ List.filter is_log_activity ev = []
  end.
Proof.
  unfold save_transformation.
  pose proof (infograph_step_quiet w cfg userID req response
                {[ "length" := AString (ReqLength req);
                   "format" := AString (ReqFormat req) ]}) as [Hq1 _].
  destruct (infograph_step w cfg userID req response _) as [ev1 md1].
  cbn [fst] in Hq1.
  destruct (ppt_step ToLower w cfg userID req response md1)
    as [[ev2 md2]|] eqn:Hppt; [|discriminate].
  apply ppt_step_quiet in Hppt. destruct Hppt as [Hq2 _].
  cbn [mbind option_bind].
  destruct (CreateNote w _) as [id|e] eqn:Hc.
  - destruct (insight_step _ _ _ _ _ _ _) as [s'' ev3].
    intros H. injection H as <- <- <-.
    cbn [ReplyBody Status NoteNotebookID NoteType NoteTitle NoteSourceIDs
           NoteID NoteContent NoteMetadata].
    do 5 (split; [reflexivity|]). split.
    + rewrite !in_app_iff. right. right. right. now left.
    + eexists. split; [|split; [exact Hc|]].
      * rewrite !in_app_iff. right. right. now left.
      * now repeat split.
  - intros H. injection H as <- <- <-. cbn [ReplyBody Status].
    split; [reflexivity|]. rewrite !quiet_app, Hq1, Hq2. reflexivity.
Qed.

(** X17. Whatever the store, the model and the provider answer,
    [handleTransform] replies in one of two ways.  A note in the reply
    comes with status 200, belongs to the notebook of the request, has the
    requested type and the title of that type, was accepted by the store
    under the id it carries, and the activity log was called for it.  An
    error reply has status 400, 409 or 500, and then the activity log was
    not called. *)
Theorem handleTransform_reply (w : World) (cfg : Config) (s s' : state)
  (notebookID userID : string) (ev : list event) (r : reply) :
  handleTransform VectorStore IngestText ToLower w cfg s notebookID userID
  = Some (s', ev, r) ->
  match ReplyBody r with
  | NoteBody note =>
      Status r = 200
      /\ NoteNotebookID note = notebookID
      /\ (exists req,
             BindJSON w = Ok req
             /\ NoteType note = ReqType req
             /\ NoteTitle note = getTitleForType (ReqType req))
      /\ In (CallLogActivity userID "transform" (NoteID note)) ev
      /\ exists unsaved,
           In (CallCreateNote unsaved) ev
           /\ CreateNote w unsaved = Ok (NoteID note)
           /\ NoteContent unsaved = NoteContent note
           /\ NoteMetadata unsaved = NoteMetadata note
  | ErrorResponse _ =>
      (Status r = 400 \/ Status r = 409 \/ Status r = 500)
      /\ List.filter is_log_activity ev = []
  end.
Proof.
  unfold handleTransform.
  pose proof (load_quiet w s notebookID) as Hq0.
  destruct (load w s notebookID) as [[s0 ev0] err0]. cbn [fst snd] in Hq0.
  destruct (BindJSON w) as [req|e] eqn:Hbind.
  2:{ intros H. injection H as <- <- <-. cbn [ReplyBody Status].
      split; [now left|]. now rewrite quiet_app, Hq0. }
  set (ev1 := if negb (AllowMultipleNotesOfSameType cfg)
              then [CallListNotes notebookID] else []).
  assert (Hq1 : List.filter is_log_activity ev1 = []).
  { unfold ev1. now destruct (negb _). }
  destruct (if negb (AllowMultipleNotesOfSameType cfg)
            then match ListNotes w notebookID with
                 | Ok existingNotes =>
                     if existsb
                          (fun note => String.eqb (NoteType note) (ReqType req))
                          existingNotes
                     then Some (409, "该笔记本已存在相同类型的笔记，不允许创建重复类型")
                     else None
                 | Err _ => Some (500, "Failed to check existing notes")
                 end
            else None) as [[status msg]|] eqn:Hconf.
  { intros H. injection H as <- <- <-. cbn [ReplyBody Status].
    split; [|now rewrite quiet_app, Hq0, Hq1].
    destruct (negb _); [|discriminate Hconf].
    destruct (ListNotes w notebookID) as [notes|e].
    - destruct (existsb _ notes); [|discriminate Hconf].
      injection Hconf as <- <-. right. now left.
    - injection Hconf as <- <-. right. now right. }
  destruct (ListSources w (listings _ s0) notebookID) as [sources|e].
  2:{ intros H. injection H as <- <- <-. cbn [ReplyBody Status].
      split; [now right; right|].
      now rewrite !quiet_app, Hq0, Hq1. }
  destruct (select_sources req sources) as [req' selected] eqn:Hsel.
  assert (Htype : ReqType req' = ReqType req).
  { unfold select_sources in Hsel.
    destruct (ReqSourceIDs req); injection Hsel as <- <-; reflexivity. }
  destruct selected as [|src0 selected'].
  { intros H. injection H as <- <- <-. cbn [ReplyBody Status].
    split; [now left|]. now rewrite !quiet_app, Hq0, Hq1. }
  destruct (Transform w req' _) as [response|e].
  2:{ intros H. injection H as <- <- <-. cbn [ReplyBody Status].
      split; [now right; right|].
      now rewrite !quiet_app, Hq0, Hq1. }
  destruct (save w cfg _ notebookID userID req' response)
    as [[[s1 ev3] r1]|] eqn:Hsave; [|discriminate].
  cbn [mbind option_bind]. intros H. injection H as <- <- <-.
  apply save_transformation_reply in Hsave.
  destruct (ReplyBody r1) as [msg|note].
  - destruct Hsave as [Hst Hq3]. split; [now right; right|].
    now rewrite !quiet_app, Hq0, Hq1, Hq3.
  - destruct Hsave as (Hst & Hnb & Hty & Htitle & _ & Hlog & unsaved & Hin
                       & Hc & _ & Hcontent & Hmd).
    split; [exact Hst|]. split; [exact Hnb|]. split.
    { exists req. rewrite <- Htype. now repeat split. }
    split.
    { rewrite !in_app_iff. right. right. exact Hlog. }
    exists unsaved. split; [|now repeat split].
    rewrite !in_app_iff. right. right. exact Hin.
Qed.

(** X18. An insight report is saved as a note like any other text, and
    then stored as a source of the notebook.  The reply is 200 with the
    note whether or not the store accepts the source and whether or not
    the ingestion succeeds: the report is ingested only when the store
    accepted the source, the chunk count is written only when the
    ingestion succeeded, and no image is generated. *)
Theorem insight_report_becomes_source (w : World) (cfg : Config) (s : state)
  (notebookID userID : string) (req : TransformationRequest)
  (response : TransformationResponse) (id : string) :
  ReqType req = "insight" ->
  let note :=
    mkNote "" notebookID "洞察报告" (RespContent response) "insight"
      (ReqSourceIDs req)
      {[ "length" := AString (ReqLength req);
         "format" := AString (ReqFormat req) ]} in
  let src := mkSource "" notebookID "洞察报告" "insight" (RespContent response) in
  CreateNote w note = Ok id ->
  exists s' ev3,
    save w cfg s notebookID userID req response
    = Some (s',
            ([CallCreateNote note; CallLogActivity userID "transform" id]
               ++ ev3)%list,
            mkReply 200
              (NoteBody (mkNote id notebookID "洞察报告" (RespContent response)
                           "insight" (ReqSourceIDs req) (NoteMetadata note))))
    /\ loadedNotebooks _ s' = loadedNotebooks _ s
    /\ List.filter is_image_call ev3 = []
    /\ match CreateSource w src with
       | Err _ => ev3 = [CallCreateSource src] /\ s' = s
       | Ok sourceID =>
           vectorStore _ s'
           = fst (IngestText (vectorStore _ s) notebookID "洞察报告"
                    (RespContent response))
           /\ ev3
              = ([CallCreateSource src;
                  CallIngestText notebookID "洞察报告" (RespContent response)]
                   ++ match snd (IngestText (vectorStore _ s) notebookID
                                   "洞察报告" (RespContent response)) with
                      | Ok chunkCount =>
                          [CallUpdateSourceChunkCount sourceID chunkCount]
                      | Err _ => []
                      end)%list
       end.
Proof.
  intros Htype note src Hc. unfold save_transformation.
  rewrite (proj2 (infograph_step_quiet w cfg userID req response _))
    by (rewrite Htype; discriminate).
  unfold ppt_step, note_content, insight_step. rewrite Htype.
  cbn [String.eqb Ascii.eqb Bool.eqb mbind option_bind getTitleForType].
  change (getTitleForType "insight") with "洞察报告".
  fold note. rewrite Hc. fold src.
  destruct (CreateSource w src) as [sourceID|e].
  - destruct (IngestText (vectorStore _ s) notebookID "洞察报告"
                (RespContent response)) as [vs res].
    eexists _, _. split; [reflexivity|]. cbn [loadedNotebooks vectorStore fst snd].
    split; [reflexivity|]. split; [now destruct res|]. now split.
  - eexists _, _. split; [reflexivity|].
    split; [reflexivity|]. split; [reflexivity|]. now split.
Qed.

End AnyVectorStore.

Lemma loader_marks_iff_no_error_witness :
  (Some (Errorf_w "failed to list sources: "
           (errorString "database is locked")) = None
   <-> default false ((∅ : gmap string bool) !! "nb") = true)
  /\ Error (Errorf_w "failed to list sources: "
              (errorString "database is locked"))
     = "failed to list sources: database is locked".
Proof.
  destruct (loader_marks_iff_no_error (list VectorIndex.Chunk)
              (VectorIndex.IngestText VectorIndex.whole_text)
              flaky_store fresh
              (mkState _ ∅ [] 1%nat) "nb" [CallListSources "nb"]
              (Some (Errorf_w "failed to list sources: "
                       (errorString "database is locked")))
              ltac:(reflexivity)) as (Hiff & _ & Herr).
  split; [exact Hiff|].
  destruct (Herr _ eq_refl) as (_ & _ & _ & cause & Hcause & _ & Hmsg).
  injection Hcause as <-. exact Hmsg.
Defined.

Lemma handleTransform_reply_witness :
  exists s' ev note,
    handleTransform (list VectorIndex.Chunk)
      (VectorIndex.IngestText VectorIndex.whole_text) ToLowerASCII
      all_images sample_config fresh "nb" "user-42"
    = Some (s', ev, mkReply 200 (NoteBody note))
    /\ NoteNotebookID note = "nb"
    /\ In (CallLogActivity "user-42" "transform" (NoteID note)) ev.
Proof.
  eexists _, _, _. split; [vm_compute; reflexivity|].
  pose proof (handleTransform_reply (list VectorIndex.Chunk)
                (VectorIndex.IngestText VectorIndex.whole_text) ToLowerASCII
                all_images sample_config fresh _ "nb" "user-42" _ _
                ltac:(vm_compute; reflexivity)) as H.
  cbn [ReplyBody] in H. destruct H as (_ & Hnb & _ & Hlog & _).
  split; [exact Hnb | exact Hlog].
Defined.

Lemma insight_report_becomes_source_witness :
  exists s' ev3,
    save_transformation (list VectorIndex.Chunk)
      (VectorIndex.IngestText VectorIndex.whole_text) ToLowerASCII
      no_new_sources sample_config fresh "nb" "user-42"
      (mkTransformationRequest "insight" "medium" "markdown" "" ["s1"])
      (generated "insight" "report")
    = Some (s',
            ([CallCreateNote
                (mkNote "" "nb" "洞察报告" "report" "insight" ["s1"]
                   {[ "length" := AString "medium";
                      "format" := AString "markdown" ]});
              CallLogActivity "user-42" "transform" "note-1"] ++ ev3)%list,
            mkReply 200
              (NoteBody
                 (mkNote "note-1" "nb" "洞察报告" "report" "insight" ["s1"]
                    {[ "length" := AString "medium";
                       "format" := AString "markdown" ]})))
    /\ ev3 = [CallCreateSource (mkSource "" "nb" "洞察报告" "insight" "report")]
    /\ s' = fresh.
Proof.
  destruct (insight_report_becomes_source (list VectorIndex.Chunk)
              (VectorIndex.IngestText VectorIndex.whole_text) ToLowerASCII
              no_new_sources sample_config fresh "nb" "user-42"
              (mkTransformationRequest "insight" "medium" "markdown" "" ["s1"])
              (generated "insight" "report") "note-1"
              ltac:(reflexivity) ltac:(reflexivity))
    as (s' & ev3 & Hsave & _ & _ & Hsrc).
  exists s', ev3. split; [exact Hsave|]. exact Hsrc.
Defined.

End ServerMoreFacts.

(** ** The handlers: files, access, sources *)

Module HandlerMoreFacts.
Import GoStr GoStrFacts Filepath GoErr Types Handlers HandlersMore.

(** *** Paths *)

Lemma scan_ext_found (path : string) :
  match scan_ext path with
  | ExtFound ext =>
      exists base rest, path = base +:+ ext /\ ext = String "." rest
  | _ => True
  end.
Proof.
  induction path as [|c rest IH]; [exact I|].
  cbn [scan_ext]. destruct (scan_ext rest) as [ext| |].
  - destruct IH as (base & tl & -> & ->).
    exists (String c base), tl. now rewrite append_cons.
  - exact I.
  - destruct (Ascii.eqb_spec c "."); [subst c|].
    + exists "", rest. now rewrite append_nil_l.
    + now destruct (Ascii.eqb c "/").
Qed.

(** The extension is a suffix of the path, and starts with a dot when it
    is not empty. *)
Lemma Ext_suffix (path : string) :
  exists base,
    path = base +:+ Ext path
    /\ (Ext path = "" \/ exists rest, Ext path = String "." rest).
Proof.
  unfold Ext. pose proof (scan_ext_found path) as H.
  destruct (scan_ext path) as [ext| |].
  - destruct H as (base & rest & H1 & H2). exists base.
    split; [exact H1 | right; now exists rest].
  - exists path. rewrite append_nil_r. now split; [|left].
  - exists path. rewrite append_nil_r. now split; [|left].
Qed.

Lemma take_append (a b : string) : take (String.length a) (a +:+ b) = a.
Proof.
  induction a as [|c a IH]; [now destruct b|].
  rewrite append_cons. cbn [String.length take]. now rewrite IH.
Qed.

Lemma rooted_append (a b : string) : a <> "" -> rooted (a +:+ b) = rooted a.
Proof. destruct a; [contradiction | now rewrite append_cons]. Qed.

Lemma components_unrooted (p : string) :
  forall cur,
    rooted cur = false ->
    Forall (fun e => rooted e = false) (components cur p).
Proof.
  induction p as [|c p IH]; intros cur Hcur; cbn [components].
  - constructor; [exact Hcur | constructor].
  - destruct (Ascii.eqb c "/") eqn:Hc.
    + constructor; [exact Hcur | now apply IH].
    + apply IH. destruct cur as [|d cur].
      * rewrite append_nil_l. cbn. exact Hc.
      * rewrite append_cons. exact Hcur.
Qed.

Lemma clean_step_kept (root : bool) (stack : list string) (e : string) :
  rooted e = false ->
  Forall (fun x => x <> "" /\ rooted x = false) stack ->
  Forall (fun x => x <> "" /\ rooted x = false) (clean_step root stack e).
Proof.
  intros He Hst. unfold clean_step.
  destruct (String.eqb_spec e ""); [exact Hst|].
  destruct (String.eqb_spec e "."); cbn [orb]; [exact Hst|].
  destruct (String.eqb_spec e "..").
  - destruct stack as [|top below].
    + destruct root; constructor; [now split | constructor].
    + destruct (String.eqb top "..").
      * constructor; [now split | exact Hst].
      * now inversion Hst.
  - constructor; [now split | exact Hst].
Qed.

Lemma fold_clean_kept (root : bool) (l : list string) :
  forall stack,
    Forall (fun e => rooted e = false) l ->
    Forall (fun x => x <> "" /\ rooted x = false) stack ->
    Forall (fun x => x <> "" /\ rooted x = false)
      (fold_left (clean_step root) l stack).
Proof.
  induction l as [|e l IH]; intros stack Hl Hst; [exact Hst|].
  inversion Hl; subst. cbn [fold_left]. apply IH; [assumption|].
  now apply clean_step_kept.
Qed.

Lemma Join_unrooted (kept : list string) :
  Forall (fun x => x <> "" /\ rooted x = false) kept ->
  rooted (Join kept "/") = false.
Proof.
  destruct kept as [|e rest]; [reflexivity|]. intros H.
  inversion H as [|? ? [Hne Hr] _]; subst.
  cbn [Join]. destruct rest; [exact Hr|].
  now rewrite rooted_append.
Qed.

(** Cleaning keeps a relative path relative. *)
Lemma Clean_unrooted (p : string) : rooted p = false -> rooted (Clean p) = false.
Proof.
  intros Hp. unfold Clean. rewrite Hp.
  destruct (String.eqb _ ""); [reflexivity|].
  apply Join_unrooted. apply Forall_rev. apply fold_clean_kept.
  - now apply components_unrooted.
  - constructor.
Qed.

Lemma Abs_relative (fs : Files) (path absPath : string) :
  rooted path = false ->
  Abs fs path = Ok absPath ->
  exists wd, Getwd fs = Ok wd /\ absPath = JoinPath [wd; path].
Proof.
  unfold Abs. intros ->. destruct (Getwd fs) as [wd|e]; [|discriminate].
  intros H. injection H as <-. now exists wd.
Qed.

(** X19. [handleServeFile] hands a file to the client only when the file
    name belongs to a notebook (looked up among the sources first, then
    among the notes) that is public or owned by the caller, who is then
    signed in.  The file served is the one of that name in the owner's
    upload directory under the working directory, it exists, and it is
    cached by the client only when the notebook is public. *)
Theorem handleServeFile_access (st : Store) (fs : Files)
  (filename userID absPath contentType cacheControl : string) :
  handleServeFile st fs filename userID
  = FileServed absPath contentType cacheControl ->
  exists notebook wd,
    notebook_of_file st filename = Some notebook
    /\ (NbIsPublic notebook = true
        \/ (userID <> "" /\ userID = NbUserID notebook))
    /\ Getwd fs = Ok wd
    /\ absPath
       = JoinPath [wd; JoinPath ["./data/uploads"; NbUserID notebook; filename]]
    /\ String.prefix (JoinPath [wd; "./data/uploads"]) absPath = true
    /\ Exists fs absPath = true
    /\ contentType = content_type (Ext filename)
    /\ cacheControl
       = (if NbIsPublic notebook then "public, max-age=3600" else "no-cache").
Proof.
  unfold handleServeFile.
  destruct (String.eqb filename ""); [discriminate|].
  destruct (notebook_of_file st filename) as [notebook|]; [|discriminate].
  destruct (negb (NbIsPublic notebook) && String.eqb userID "") eqn:Hanon;
    [discriminate|].
  destruct (negb (NbIsPublic notebook)
            && negb (String.eqb userID (NbUserID notebook))) eqn:Hother;
    [discriminate|].
  destruct (Abs fs (JoinPath _)) as [p|e] eqn:Habs; [|discriminate].
  destruct (String.prefix _ p) eqn:Hprefix; [|discriminate].
  destruct (Exists fs p) eqn:Hex; [|discriminate].
  cbn [negb]. intros H. injection H as <- <- <-.
  apply Abs_relative in Habs.
  2:{ cbn [JoinPath String.eqb Ascii.eqb Bool.eqb]. apply Clean_unrooted.
      reflexivity. }
  destruct Habs as (wd & Hwd & ->).
  exists notebook, wd. split; [reflexivity|]. split.
  { destruct (NbIsPublic notebook); [now left | right].
    cbn [negb andb] in Hanon, Hother.
    apply String.eqb_neq in Hanon. apply negb_false_iff in Hother.
    apply String.eqb_eq in Hother. now split. }
  split; [exact Hwd|]. split; [reflexivity|]. split.
  { unfold Abs in Hprefix. cbn [rooted Ascii.eqb Bool.eqb] in Hprefix.
    rewrite Hwd in Hprefix. exact Hprefix. }
  now repeat split.
Qed.

Lemma handleServeFile_access_witness :
  exists notebook wd,
    notebook_of_file alice_store "infograph_17.png" = Some notebook
    /\ (NbIsPublic notebook = true
        \/ ("alice" <> "" /\ "alice" = NbUserID notebook))
    /\ Getwd disk = Ok wd
    /\ "/srv/notex/data/uploads/alice/infograph_17.png"
       = JoinPath [wd; JoinPath ["./data/uploads"; NbUserID notebook;
                                 "infograph_17.png"]].
Proof.
  destruct (handleServeFile_access alice_store disk "infograph_17.png" "alice"
              "/srv/notex/data/uploads/alice/infograph_17.png" "image/png"
              "no-cache" ltac:(vm_compute; reflexivity))
    as (notebook & wd & H1 & H2 & H3 & H4 & _).
  now exists notebook, wd.
Defined.

(** *** Access *)

Lemma checkNotebookAccess_granted (st : Store) (notebookID userID : string) :
  checkNotebookAccess st notebookID userID = None
  <-> may_access st notebookID userID.
Proof.
  unfold checkNotebookAccess, may_access.
  destruct (GetNotebook st notebookID) as [notebook|e].
  - destruct (String.eqb_spec (NbUserID notebook) "") as [He|He];
      destruct (String.eqb_spec (NbUserID notebook) userID) as [Hu|Hu];
      cbn [negb andb]; split; intros H;
      try reflexivity; try discriminate H;
      try (exists notebook; split; [reflexivity | tauto]).
    destruct H as (nb & Hnb & Hown). injection Hnb as <-. tauto.
  - split; [discriminate|]. intros (nb & Hnb & _). discriminate Hnb.
Qed.

Lemma checkNotebookAccess_denied (st : Store) (notebookID userID : string)
  (err : error) :
  checkNotebookAccess st notebookID userID = Some err ->
  ~ may_access st notebookID userID.
Proof.
  intros H Hm. apply checkNotebookAccess_granted in Hm. congruence.
Qed.

Lemma foreign_denied (st : Store) (id userID : string) (existing : Notebook) :
  GetNotebook st id = Ok existing ->
  foreign existing userID = false -> may_access st id userID.
Proof.
  intros Hget Hf. exists existing. split; [exact Hget|]. unfold foreign in Hf.
  destruct (String.eqb_spec (NbUserID existing) ""); [now left|].
  destruct (String.eqb_spec (NbUserID existing) userID); [now right|].
  discriminate Hf.
Qed.

(** X20. Every handler that checks access does nothing for a caller who
    may not use the notebook: no call that changes the store, the index or
    the disk is made, and the reply is an error with status 403 or 404.
    This holds for reading, updating, deleting and publishing a notebook,
    for listing, adding and deleting sources, and for uploads. *)
Theorem no_access_no_effect (st : Store) (vs : Extractor) (up : Upload)
  (c : Caller) (notebookID : string) :
  ~ may_access st notebookID (UserID c) ->
  (fst (handleGetNotebook st c notebookID) = []
   /\ refused (snd (handleGetNotebook st c notebookID)))
  /\ (forall bind,
         fst (handleUpdateNotebook st c notebookID bind) = []
         /\ refused (snd (handleUpdateNotebook st c notebookID bind)))
  /\ (fst (handleDeleteNotebook st c notebookID) = []
      /\ refused (snd (handleDeleteNotebook st c notebookID)))
  /\ (forall bind,
         fst (handleSetNotebookPublic st c notebookID bind) = []
         /\ refused (snd (handleSetNotebookPublic st c notebookID bind)))
  /\ (fst (handleListSources st c notebookID) = []
      /\ refused (snd (handleListSources st c notebookID)))
  /\ (forall bind,
         fst (handleAddSource st vs c notebookID bind) = []
         /\ refused (snd (handleAddSource st vs c notebookID bind)))
  /\ (forall sourceID source,
         GetSource st sourceID = Ok source ->
         SrcNotebookID source = notebookID ->
         fst (handleDeleteSource st c sourceID) = []
         /\ refused (snd (handleDeleteSource st c sourceID)))
  /\ (notebookID <> "" ->
      exists r, handleUpload st vs up c notebookID = Some ([], r)
                /\ refused r).
Proof.
  intros Hno.
  assert (Hcheck : exists err,
             checkNotebookAccess st notebookID (UserID c) = Some err).
  { destruct (checkNotebookAccess st notebookID (UserID c)) as [err|] eqn:E;
      [now exists err|].
    apply checkNotebookAccess_granted in E. contradiction. }
  destruct Hcheck as [err Hcheck].
  assert (Hnb : forall (k : Notebook -> list event * reply),
             (forall existing, foreign existing (UserID c) = false ->
                               GetNotebook st notebookID = Ok existing -> False) ->
             let out :=
               match GetNotebook st notebookID with
               | Ok existing =>
                   if foreign existing (UserID c)
                   then ([], mkReply 403 (ErrorResponse "Access denied"))
                   else k existing
               | Err _ => ([], mkReply 404 (ErrorResponse "Notebook not found"))
               end in
             fst out = [] /\ refused (snd out)).
  { intros k Hk. cbv zeta.
    destruct (GetNotebook st notebookID) as [existing|e] eqn:Hget.
    - destruct (foreign existing (UserID c)) eqn:Hf.
      + split; [reflexivity|]. split; [now left | now eexists].
      + exfalso. exact (Hk existing Hf eq_refl).
    - split; [reflexivity|]. split; [now right | now eexists]. }
  assert (Hk : forall existing, foreign existing (UserID c) = false ->
                                GetNotebook st notebookID = Ok existing -> False).
  { intros existing Hf Hget. apply Hno.
    exact (foreign_denied st notebookID (UserID c) existing Hget Hf). }
  split; [exact (Hnb (fun nb => ([], mkReply 200 (JSONNotebook nb))) Hk)|].
  split.
  { intros bind. unfold handleUpdateNotebook.
    exact (Hnb _ Hk). }
  split; [exact (Hnb _ Hk)|].
  split.
  { intros bind. unfold handleSetNotebookPublic. exact (Hnb _ Hk). }
  split.
  { unfold handleListSources. rewrite Hcheck.
    split; [reflexivity|]. split; [now left | now eexists]. }
  split.
  { intros bind. unfold handleAddSource. rewrite Hcheck.
    split; [reflexivity|]. split; [now left | now eexists]. }
  split.
  { intros sourceID source Hsrc Hid. unfold handleDeleteSource.
    rewrite Hsrc, Hid, Hcheck.
    split; [reflexivity|]. split; [now left | now eexists]. }
  intros Hne. unfold handleUpload. apply String.eqb_neq in Hne.
  rewrite Hne, Hcheck. eexists. split; [reflexivity|].
  split; [now left | now eexists].
Qed.

Lemma no_access_no_effect_witness :
  handleDeleteNotebook alice_store mallory "nb-1"
  = ([], mkReply 403 (ErrorResponse "Access denied"))
  /\ fst (handleAddSource alice_store two_chunks mallory "nb-1"
            (Ok (mkAddSourceRequest "x" "text" "" "spam" ∅))) = [].
Proof.
  assert (Hno : ~ may_access alice_store "nb-1" (UserID mallory)).
  { intros (nb & Hnb & Hown). injection Hnb as <-.
    destruct Hown as [H | H]; discriminate H. }
  pose proof (no_access_no_effect alice_store two_chunks pdf_upload mallory
                "nb-1" Hno) as (_ & _ & _ & _ & _ & Hadd & _).
  split; [reflexivity|]. exact (proj1 (Hadd _)).
Defined.

(** *** Adding a source *)

Lemma ingest_added_events (vs : Extractor) (notebookID : string)
  (created : SourceRecord) :
  List.filter is_fetch (ingest_added vs notebookID created) = []
  /\ List.filter is_ingest (ingest_added vs notebookID created)
     = if String.eqb (SrcContent created) "" then []
       else [CallIngestText notebookID (SrcName created) (SrcContent created)].
Proof.
  unfold ingest_added. destruct (String.eqb (SrcContent created) "");
    [now split|].
  cbn [negb]. now destruct (IngestText vs _ _ _).
Qed.

(** X21. When [handleAddSource] replies 201, the row it asked the store to
    create belongs to the notebook of the request and carries the name,
    type and URL of the request.  Its content is the text fetched from the
    URL whenever the request has a URL, also when the request brought
    content of its own; without a URL it is the content of the request
    and nothing is fetched.  The row as the store left it is ingested
    once when its content is not empty, and not at all otherwise. *)
Theorem handleAddSource_content (st : Store) (vs : Extractor) (c : Caller)
  (notebookID : string) (bind : result AddSourceRequest)
  (ev : list event) (created : SourceRecord) :
  handleAddSource st vs c notebookID bind
  = (ev, mkReply 201 (JSONSource created)) ->
  exists req source,
    bind = Ok req
    /\ In (CallCreateSource source) ev
    /\ CreateSource st source = Ok created
    /\ SrcID source = ""
    /\ SrcNotebookID source = notebookID
    /\ SrcName source = AddName req
    /\ SrcType source = AddType req
    /\ SrcURL source = AddURL req
    /\ (AddURL req <> "" ->
        ExtractFromURL vs (AddURL req) = Ok (SrcContent source)
        /\ List.filter is_fetch ev = [CallExtractFromURL (AddURL req)])
    /\ (AddURL req = "" ->
        SrcContent source = AddContent req /\ List.filter is_fetch ev = [])
    /\ List.filter is_ingest ev
       = (if String.eqb (SrcContent created) "" then []
          else [CallIngestText notebookID (SrcName created)
                  (SrcContent created)]).
Proof.
  unfold handleAddSource.
  destruct (checkNotebookAccess st notebookID (UserID c)); [discriminate|].
  destruct bind as [req|e]; [|discriminate].
  destruct (ingest_added_events vs notebookID created) as [Hf Hi].
  destruct (String.eqb_spec (AddURL req) "") as [Hurl|Hurl]; cbn [negb].
  - destruct (CreateSource st _) as [created'|e] eqn:Hc; [|discriminate].
    intros H. injection H as <- <-.
    eexists req, _. split; [reflexivity|].
    split; [cbn [app]; now left|]. split; [exact Hc|].
    do 5 (split; [reflexivity|]). split; [contradiction|].
    split.
    + intros _. split; [reflexivity|]. cbn [app List.filter is_fetch].
      exact Hf.
    + cbn [app List.filter is_ingest]. exact Hi.
  - destruct (ExtractFromURL vs (AddURL req)) as [content|e] eqn:Hx;
      [|discriminate].
    destruct (CreateSource st _) as [created'|e] eqn:Hc; [|discriminate].
    intros H. injection H as <- <-.
    eexists req, _. split; [reflexivity|].
    split; [cbn [app]; right; now left|]. split; [exact Hc|].
    do 5 (split; [reflexivity|]). split.
    + intros _. split; [exact Hx|]. cbn [app List.filter is_fetch].
      now rewrite Hf.
    + split; [contradiction|]. cbn [app List.filter is_ingest]. exact Hi.
Qed.

Lemma handleAddSource_content_witness :
  exists req source,
    Ok (mkAddSourceRequest "page" "url" "https://example.org/a" "typed" ∅)
    = Ok req
    /\ CreateSource alice_store source
       = Ok (mkSourceRecord "s2" "nb-1" "page" "url" "https://example.org/a"
               "fetched text" "" 0 0 ∅)
    /\ ExtractFromURL two_chunks (AddURL req) = Ok (SrcContent source).
Proof.
  destruct (handleAddSource_content alice_store two_chunks alice "nb-1"
              (Ok (mkAddSourceRequest "page" "url" "https://example.org/a"
                     "typed" ∅))
              _ _ ltac:(reflexivity))
    as (req & source & Hb & _ & Hc & _ & _ & _ & _ & _ & Hurl & _).
  exists req, source. split; [exact Hb|]. split; [exact Hc|].
  injection Hb as <-. exact (proj1 (Hurl ltac:(discriminate))).
Defined.

End HandlerMoreFacts.

(** ** The handlers: uploads, notes, chat *)

Module UploadFacts.
Import GoStr GoStrFacts Filepath GoErr Types Handlers HandlersMore.
Import HandlerMoreFacts ChatHandlerSamples.

Lemma slice_base (Filename : string) :
  exists base,
    Filename = base +:+ Ext Filename
    /\ slice Filename 0 (len Filename - len (Ext Filename)) = Some base.
Proof.
  destruct (Ext_suffix Filename) as (base & Hbase & _).
  exists base. split; [exact Hbase|].
  assert (Hlen : len Filename = len base + len (Ext Filename)).
  { unfold len. rewrite Hbase at 1. rewrite length_append. lia. }
  pose proof (len_nonneg base). pose proof (len_nonneg (Ext Filename)).
  rewrite slice_in_range by lia. f_equal.
  replace (Z.to_nat (len Filename - len (Ext Filename) - 0))
    with (String.length base) by (unfold len in *; lia).
  change (drop (Z.to_nat 0) Filename) with Filename.
  transitivity (take (String.length base) (base +:+ Ext Filename));
    [now rewrite <- Hbase | apply take_append].
Qed.

Lemma slice_short (uuid : string) :
  (8 <= String.length uuid)%nat -> slice uuid 0 8 = Some (take 8 uuid).
Proof.
  intros H. rewrite slice_in_range by (unfold len; lia). reflexivity.
Qed.

Local Ltac close_upload :=
  eexists _, _; split; [reflexivity|]; split;
  [ intros path; cbn [app In Status]; split;
    [ intros Hin;
      repeat match goal with
             | H : _ \/ _ |- _ => destruct H
             | H : False |- _ => destruct H
             | H : _ = _ :> event |- _ =>
                 first [discriminate H | injection H as <-]
             end;
      (split; [tauto | split; [assumption | discriminate]])
    | intros (Hin & Hsave & Hst);
      repeat match goal with
             | H : _ \/ _ |- _ => destruct H
             | H : False |- _ => destruct H
             | H : _ = _ :> event |- _ =>
                 first [discriminate H | injection H as <-]
             end;
      first [congruence | tauto | (exfalso; apply Hst; reflexivity)] ]
  | intros row; cbn [app In]; intros Hin;
    repeat match goal with
           | H : _ \/ _ |- _ => destruct H
           | H : False |- _ => destruct H
           | H : _ = _ :> event |- _ =>
               first [discriminate H | injection H as <-]
           end ].

(** X22. With a UUID of at least 8 bytes [handleUpload] never slices out
    of range.  A file it has saved is removed again exactly when the
    upload then fails, so no failed upload leaves a file behind.  The row
    it asks the store to create keeps the original file name for display
    and stores a unique name made of the name without its extension, an
    underscore, the first 8 bytes of the UUID and the extension; the file
    is saved under that unique name in the directory of the caller. *)
Theorem handleUpload_cleans_up (st : Store) (vs : Extractor) (up : Upload)
  (c : Caller) (notebookID : string) :
  (8 <= String.length (NewUUID up))%nat ->
  exists ev r,
    handleUpload st vs up c notebookID = Some (ev, r)
    /\ (forall path,
           In (DoRemove path) ev
           <-> In (DoSaveUploadedFile path) ev
               /\ SaveUploadedFile up path = None
               /\ Status r <> 201)
    /\ (forall row,
           In (CallCreateSource row) ev ->
           exists Filename Size base,
             FormFile up = Ok (Filename, Size)
             /\ Filename = base +:+ Ext Filename
             /\ SrcName row = Filename
             /\ SrcFileName row
                = base +:+ "_" +:+ take 8 (NewUUID up) +:+ Ext Filename
             /\ SrcNotebookID row = notebookID
             /\ SrcType row = "file"
             /\ SrcFileSize row = Size
             /\ In (DoSaveUploadedFile
                      (("./data/uploads/" +:+ UserID c) +:+ "/"
                         +:+ SrcFileName row)) ev).
Proof.
  intros Huuid. unfold handleUpload.
  destruct (String.eqb notebookID ""); [close_upload|].
  destruct (checkNotebookAccess st notebookID (UserID c)); [close_upload|].
  destruct (FormFile up) as [[Filename Size]|e] eqn:Hform; [|close_upload].
  destruct (slice_base Filename) as (base & Hbase & ->).
  rewrite (slice_short _ Huuid). cbn [mbind option_bind].
  set (unique := base +:+ "_" +:+ take 8 (NewUUID up) +:+ Ext Filename).
  set (tempPath := ("./data/uploads/" +:+ UserID c) +:+ "/" +:+ unique).
  destruct (MkdirAll up _); [close_upload|].
  destruct (SaveUploadedFile up tempPath) eqn:Hsaved; [close_upload|].
  destruct (ExtractDocument vs tempPath) as [content|e]; [|close_upload].
  assert (Hrow : exists Filename0 Size0 base0,
             Ok (Filename, Size) = Ok (Filename0, Size0)
             /\ Filename0 = base0 +:+ Ext Filename0
             /\ Filename = Filename0
             /\ unique = base0 +:+ "_" +:+ take 8 (NewUUID up) +:+ Ext Filename0
             /\ notebookID = notebookID
             /\ "file" = "file"
             /\ Size = Size0).
  { exists Filename, Size, base. now repeat split. }
  destruct (CreateSource st _) as [created|e].
  - destruct (negb (String.eqb (SrcContent created) ""));
      [destruct (IngestText vs _ _ _)|];
      close_upload;
      destruct Hrow as (F0 & S0 & b0 & H1 & H2 & H3 & H4 & H5 & H6 & H7);
      exists F0, S0, b0; cbn [SrcName SrcFileName SrcNotebookID SrcType
                               SrcFileSize with_content];
      (repeat split; try assumption); right; now left.
  - close_upload;
      destruct Hrow as (F0 & S0 & b0 & H1 & H2 & H3 & H4 & H5 & H6 & H7);
      exists F0, S0, b0; cbn [SrcName SrcFileName SrcNotebookID SrcType
                               SrcFileSize with_content];
      (repeat split; try assumption); right; now left.
Qed.

Lemma handleUpload_cleans_up_witness :
  exists ev r,
    handleUpload alice_store unreadable pdf_upload alice "nb-1" = Some (ev, r)
    /\ (In (DoRemove "./data/uploads/alice/my.notes_1a2b3c4d.pdf") ev
        <-> In (DoSaveUploadedFile "./data/uploads/alice/my.notes_1a2b3c4d.pdf")
              ev
            /\ SaveUploadedFile pdf_upload
                 "./data/uploads/alice/my.notes_1a2b3c4d.pdf" = None
            /\ Status r <> 201).
Proof.
  destruct (handleUpload_cleans_up alice_store unreadable pdf_upload alice
              "nb-1" ltac:(cbn; lia)) as (ev & r & Hrun & Hrm & _).
  exists ev, r. split; [exact Hrun | apply Hrm].
Defined.

End UploadFacts.

Module NoteListFacts.
Import GoStr GoStrFacts GoErr Types Handlers HandlersMore.

Lemma known_title (t : string) :
  In t known_types -> Server.getTitleForType t <> "笔记".
Proof.
  unfold known_types. cbn [In]. intros H.
  repeat (destruct H as [<- | H]; [vm_compute; discriminate|]).
  destruct H.
Qed.

Lemma fix_title_spec (note : Note) :
  NoteID (fix_title note) = NoteID note
  /\ NoteNotebookID (fix_title note) = NoteNotebookID note
  /\ NoteContent (fix_title note) = NoteContent note
  /\ NoteType (fix_title note) = NoteType note
  /\ NoteSourceIDs (fix_title note) = NoteSourceIDs note
  /\ NoteMetadata (fix_title note) = NoteMetadata note
  /\ (NoteTitle note <> "笔记" -> fix_title note = note)
  /\ (NoteTitle (fix_title note) = "笔记" ->
      ~ In (NoteType (fix_title note)) known_types).
Proof.
  unfold fix_title.
  destruct (String.eqb_spec (NoteTitle note) "笔记") as [Heq|Hne].
  - cbn [NoteID NoteNotebookID NoteContent NoteType NoteSourceIDs NoteMetadata
           NoteTitle].
    do 6 (split; [reflexivity|]). split; [contradiction|].
    intros Ht Hin. exact (known_title _ Hin Ht).
  - do 6 (split; [reflexivity|]). split; [reflexivity|]. contradiction.
Qed.

Lemma fix_title_idem (note : Note) : fix_title (fix_title note) = fix_title note.
Proof.
  unfold fix_title. destruct (String.eqb (NoteTitle note) "笔记") eqn:E.
  - cbn [NoteTitle NoteID NoteNotebookID NoteContent NoteType NoteSourceIDs
           NoteMetadata].
    now destruct (String.eqb (Server.getTitleForType (NoteType note)) "笔记").
  - now rewrite E.
Qed.

(** X23. [handleListNotes] returns the notes of the store, as many and
    in the same order, and changes nothing but titles: a note stored
    under the default title is shown under the title of its type, any
    other note is returned as stored.  A note still shown under the
    default title has a type that is none of the fourteen known ones,
    and fixing the titles a second time changes nothing. *)
Theorem handleListNotes_titles (st : Store) (notebookID : string)
  (notes : list Note) :
  handleListNotes st notebookID = mkReply 200 (JSONNotes notes) ->
  exists stored,
    ListNotes st notebookID = Ok stored
    /\ Forall2 (fun note shown =>
                  NoteID shown = NoteID note
                  /\ NoteContent shown = NoteContent note
                  /\ NoteType shown = NoteType note
                  /\ NoteMetadata shown = NoteMetadata note
                  /\ (NoteTitle note <> "笔记" -> shown = note)
                  /\ (NoteTitle note = "笔记" ->
                      NoteTitle shown = Server.getTitleForType (NoteType note)))
         stored notes
    /\ Forall (fun shown =>
                 NoteTitle shown = "笔记" ->
                 ~ In (NoteType shown) known_types) notes
    /\ map fix_title notes = notes.
Proof.
  unfold handleListNotes.
  destruct (ListNotes st notebookID) as [stored|e]; [|discriminate].
  intros H. injection H as <-. exists stored. split; [reflexivity|].
  split; [|split].
  - induction stored as [|note rest IH]; constructor; [|exact IH].
    destruct (fix_title_spec note) as (H1 & _ & H3 & H4 & _ & H6 & H7 & _).
    do 4 (split; [assumption|]). split; [exact H7|].
    intros Ht. unfold fix_title. rewrite Ht. reflexivity.
  - induction stored as [|note rest IH]; constructor; [|exact IH].
    apply fix_title_spec.
  - rewrite map_map. apply map_ext. intros note. apply fix_title_idem.
Qed.

Lemma handleListNotes_titles_witness :
  exists stored,
    ListNotes alice_store "nb-1" = Ok stored
    /\ Forall (fun shown =>
                 NoteTitle shown = "笔记" ->
                 ~ In (NoteType shown) known_types)
         [mkNote "n1" "nb-1" "常见问题解答" "text" "faq" [] ∅;
          mkNote "n2" "nb-1" "笔记" "text" "haiku" [] ∅;
          mkNote "n3" "nb-1" "My title" "text" "summary" [] ∅].
Proof.
  destruct (handleListNotes_titles alice_store "nb-1"
              [mkNote "n1" "nb-1" "常见问题解答" "text" "faq" [] ∅;
               mkNote "n2" "nb-1" "笔记" "text" "haiku" [] ∅;
               mkNote "n3" "nb-1" "My title" "text" "summary" [] ∅]
              ltac:(reflexivity)) as (stored & Hs & _ & Hall & _).
  now exists stored.
Defined.

End NoteListFacts.

Module ChatHandlerFacts.
Import GoStr GoStrFacts GoErr Types Handlers HandlersMore ChatHandlerSamples.

Section AnyVectorStore.

Variable VectorStore : Type.
Variable StoreIngestText :
  VectorStore -> string -> string -> string -> VectorStore * result Z.
Variable agent : VectorStore -> Agent.ChatEnv.

Local Abbreviation send := (handleSendMessage VectorStore StoreIngestText agent).
Local Abbreviation chat := (handleChat VectorStore StoreIngestText agent).

Lemma Chat_session (env : Agent.ChatEnv) (cfg : Config)
  (notebookID message : string) (history : list ChatMessage)
  (response : ChatResponse) :
  Agent.Chat env cfg notebookID message history = Ok response ->
  SessionID response = notebookID.
Proof.
  unfold Agent.Chat.
  destruct (Agent.SimilaritySearch env _ _); [|discriminate].
  destruct (Agent.FormatChatPrompt env _ _ _); [|discriminate].
  destruct (Agent.GenerateFromSinglePrompt env _); [|discriminate].
  intros H. now injection H as <-.
Qed.


(** X25. When [handleChat] replies 200, the session id of the reply is
    the session the request named or, when it named none, the session
    the store has just created for the notebook.  The question and the
    answer are handed to the store in that order after the session was
    read, and the reply does not depend on what the store answers to
    them: a message that could not be saved is lost without notice. *)
Theorem handleChat_reply (w : Server.World) (st : Store)
  (cfg : Config) (s s' : Server.state VectorStore)
  (notebookID : string) (bind : result ChatRequest)
  (ev : list event) (response : ChatResponse) :
  chat w st cfg s notebookID bind
  = (s', ev, mkReply 200 (JSONChat response)) ->
  exists req before,
    bind = Ok req
    /\ (ChatReqSessionID req <> "" ->
        SessionID response = ChatReqSessionID req)
    /\ (ChatReqSessionID req = "" ->
        CreateChatSession st notebookID "" = Ok (SessionID response))
    /\ ev = (before
               ++ [CallGetChatSession (SessionID response);
                   CallAddChatMessage (SessionID response) "user"
                     (ChatReqMessage req) [];
                   CallAddChatMessage (SessionID response) "assistant"
                     (Message response)
                     (map SummaryID (Sources response))])%list
    /\ forall other : Store,
         CreateChatSession other = CreateChatSession st ->
         GetChatSession other = GetChatSession st ->
         chat w other cfg s notebookID bind
         = (s', ev, mkReply 200 (JSONChat response)).
Proof.
  intros Hrun. pose proof Hrun as Hrun'. revert Hrun.
  unfold handleChat.
  destruct (Server.loadNotebookVectorIndex _ _ w s notebookID)
    as [[s0 loaded] err].
  destruct bind as [req|e]; [|discriminate].
  destruct (String.eqb_spec (ChatReqSessionID req) "") as [Hnone|Hnamed].
  - destruct (CreateChatSession st notebookID "") as [sessionID|e] eqn:Hnew;
      [|discriminate].
    destruct (GetChatSession st sessionID) as [messages|e] eqn:Hget;
      [|discriminate].
    destruct (Agent.Chat _ cfg notebookID _ messages) as [answer|e] eqn:Hchat;
      [|discriminate].
    intros H. injection H as <- <- <-. cbn [SessionID Message Sources].
    exists req, (map Loader loaded ++ [CallCreateChatSession notebookID ""])%list.
    split; [reflexivity|]. split; [contradiction|]. split; [now intros _|].
    split; [cbn [app]; now rewrite <- !app_assoc|].
    intros other Hc Hg. rewrite Hc, Hg, Hnew, Hget, Hchat. reflexivity.
  - destruct (GetChatSession st (ChatReqSessionID req)) as [messages|e] eqn:Hget;
      [|discriminate].
    destruct (Agent.Chat _ cfg notebookID _ messages) as [answer|e] eqn:Hchat;
      [|discriminate].
    intros H. injection H as <- <- <-. cbn [SessionID Message Sources].
    exists req, (map Loader loaded).
    split; [reflexivity|]. split; [now intros _|]. split; [contradiction|].
    split; [cbn [app]; now rewrite <- !app_assoc|].
    intros other Hc Hg. rewrite Hg, Hget, Hchat. reflexivity.
Qed.

End AnyVectorStore.


Lemma handleChat_reply_witness :
  exists s' ev response,
    handleChat (list VectorIndex.Chunk)
      (VectorIndex.IngestText VectorIndex.whole_text) ChatSamples.agent_on
      Server.all_images alice_store ChatSamples.chat_config loaded_server
      "nb" question
    = (s', ev, mkReply 200 (JSONChat response))
    /\ CreateChatSession alice_store "nb" "" = Ok (SessionID response).
Proof.
  eexists _, _, _. split; [vm_compute; reflexivity|].
  destruct (handleChat_reply (list VectorIndex.Chunk)
              (VectorIndex.IngestText VectorIndex.whole_text)
              ChatSamples.agent_on Server.all_images alice_store
              ChatSamples.chat_config loaded_server _ "nb" question _ _
              ltac:(vm_compute; reflexivity))
    as (req & before & Hb & _ & Hnew & _).
  injection Hb as <-. exact (Hnew eq_refl).
Defined.

End ChatHandlerFacts.

(** ** The transformation handler: duplicate types and the choice of
       sources *)

Module TransformGuardFacts.
Import GoStr GoStrFacts GoErr Types Server ServerMore TransformSamples.

Section AnyVectorStore.

Variable VectorStore : Type.
Variable IngestText :
  VectorStore -> string -> string -> string -> VectorStore * result Z.
Variable ToLower : string -> string.

(** X26. When notes of one type may not be repeated and the notebook
    already holds a note of the requested type, [handleTransform]
    replies 409 right after listing the notes: beyond the on-demand
    load of the index it lists no source, generates nothing and saves
    nothing. *)
Theorem duplicate_type_refused (w : World) (cfg : Config)
  (s : state VectorStore) (notebookID userID : string)
  (req : TransformationRequest) (notes : list Note) (existing : Note) :
  AllowMultipleNotesOfSameType cfg = false ->
  BindJSON w = Ok req ->
  ListNotes w notebookID = Ok notes ->
  In existing notes ->
  NoteType existing = ReqType req ->
  exists s0 loaded err,
    loadNotebookVectorIndex VectorStore IngestText w s notebookID
    = (s0, loaded, err)
    /\ handleTransform VectorStore IngestText ToLower w cfg s notebookID userID
       = Some (s0, (loaded ++ [CallListNotes notebookID])%list,
               mkReply 409
                 (ErrorResponse
                    "该笔记本已存在相同类型的笔记，不允许创建重复类型")).
Proof.
  intros Hallow Hbind Hnotes Hin Htype. unfold handleTransform.
  destruct (loadNotebookVectorIndex VectorStore IngestText w s notebookID)
    as [[s0 loaded] err].
  exists s0, loaded, err. split; [reflexivity|].
  rewrite Hbind, Hallow, Hnotes. cbn [negb].
  assert (Hex : existsb (fun note => String.eqb (NoteType note) (ReqType req))
                  notes = true).
  { apply existsb_exists. exists existing. split; [exact Hin|].
    now apply String.eqb_eq. }
  rewrite Hex. reflexivity.
Qed.

End AnyVectorStore.

Lemma duplicate_type_refused_witness :
  exists s0 loaded err,
    loadNotebookVectorIndex (list VectorIndex.Chunk)
      (VectorIndex.IngestText VectorIndex.whole_text) one_deck fresh "nb"
    = (s0, loaded, err)
    /\ handleTransform (list VectorIndex.Chunk)
         (VectorIndex.IngestText VectorIndex.whole_text) ToLowerASCII
         one_deck strict_config fresh "nb" "user-42"
       = Some (s0, (loaded ++ [CallListNotes "nb"])%list,
               mkReply 409
                 (ErrorResponse
                    "该笔记本已存在相同类型的笔记，不允许创建重复类型")).
Proof.
  exact (duplicate_type_refused (list VectorIndex.Chunk)
           (VectorIndex.IngestText VectorIndex.whole_text) ToLowerASCII
           one_deck strict_config fresh "nb" "user-42"
           (mkTransformationRequest "ppt" "medium" "markdown" "" [])
           [mkNote "note-0" "nb" "幻灯片" "old deck" "ppt" [] ∅]
           (mkNote "note-0" "nb" "幻灯片" "old deck" "ppt" [] ∅)
           eq_refl eq_refl eq_refl ltac:(now left) eq_refl).
Defined.



End TransformGuardFacts.

(** ** Where the image clients save *)

Module ProviderSaveFacts.
Import GoStr GoStrFacts Filepath GoErr ProviderPaths.

(** *** Names without a slash *)

Lemma no_slash_app (a b : string) :
  no_slash (a +:+ b) = no_slash a && no_slash b.
Proof.
  induction a as [|c a IH]; [now rewrite append_nil_l|].
  rewrite append_cons. cbn [no_slash]. rewrite IH. now rewrite andb_assoc.
Qed.

Lemma no_slash_uint (d : Decimal.uint) :
  no_slash (NilEmpty.string_of_uint d) = true.
Proof. induction d; cbn; auto. Qed.

Lemma no_slash_FormatInt (x : Z) : no_slash (FormatInt x) = true.
Proof.
  unfold FormatInt, NilZero.string_of_int, NilZero.string_of_uint.
  destruct (Z.to_int x) as [d|d]; destruct d; try reflexivity;
    cbn [no_slash Ascii.eqb Bool.eqb negb andb];
    exact (no_slash_uint _) || apply (no_slash_uint (_ _)).
Qed.

Lemma to_int_printable (x : Z) :
  Z.to_int x <> Decimal.Pos Decimal.Nil /\ Z.to_int x <> Decimal.Neg Decimal.Nil.
Proof.
  destruct x as [|p|p]; cbn; split; try discriminate;
    intros H; injection H as H; exact (DecimalPos.Unsigned.to_uint_nonnil p H).
Qed.

(** [%d] prints different numbers differently. *)
Lemma FormatInt_inj (x y : Z) : FormatInt x = FormatInt y -> x = y.
Proof.
  unfold FormatInt. intros H.
  apply (f_equal NilZero.int_of_string) in H.
  destruct (to_int_printable x) as [Hx1 Hx2].
  destruct (to_int_printable y) as [Hy1 Hy2].
  rewrite !NilZero.isi in H by assumption.
  injection H as H. now apply DecimalZ.to_int_inj.
Qed.

Lemma image_name_inj (x y : Z) : image_name x = image_name y -> x = y.
Proof.
  unfold image_name. intros H.
  apply EscapeFacts.append_inj_l, EscapeFacts.append_inj_r in H.
  now apply FormatInt_inj.
Qed.

Lemma image_name_plain (x : Z) : plain (image_name x) = true.
Proof.
  unfold plain, image_name. rewrite !no_slash_app, no_slash_FormatInt.
  reflexivity.
Qed.

Lemma plain_spec (e : string) :
  plain e = true ->
  no_slash e = true /\ e <> "" /\ e <> "." /\ e <> "..".
Proof.
  unfold plain. rewrite !andb_true_iff, !negb_true_iff.
  intros [[[H1 H2] H3] H4]. split; [exact H1|].
  repeat split; now apply String.eqb_neq.
Qed.

(** *** Cleaning a path of plain elements *)

Lemma components_app (a b : string) :
  forall cur,
    components cur (a +:+ String "/" b)
    = (components cur a ++ components "" b)%list.
Proof.
  induction a as [|c a IH]; intros cur.
  - rewrite append_nil_l. reflexivity.
  - rewrite append_cons. cbn [components].
    destruct (Ascii.eqb c "/"); [now rewrite IH | apply IH].
Qed.

Lemma components_no_slash (e : string) :
  forall cur, no_slash e = true -> components cur e = [cur +:+ e].
Proof.
  induction e as [|c e IH]; intros cur H.
  - now rewrite append_nil_r.
  - cbn [no_slash] in H. apply andb_true_iff in H. destruct H as [Hc He].
    apply negb_true_iff in Hc. cbn [components]. rewrite Hc.
    rewrite (IH _ He), append_assoc. reflexivity.
Qed.

Lemma components_Join (l : list string) :
  Forall (fun e => plain e = true) l -> l <> [] ->
  components "" (Join l "/") = l.
Proof.
  induction l as [|e rest IH]; intros Hall Hne; [contradiction|].
  inversion Hall as [|? ? He Hrest]; subst.
  apply plain_spec in He. destruct He as [Hs _].
  destruct rest as [|r rest'].
  - cbn [Join]. rewrite (components_no_slash _ _ Hs).
    now rewrite append_nil_l.
  - change (Join (e :: r :: rest') "/")
      with (e +:+ String "/" (Join (r :: rest') "/")).
    rewrite components_app, (components_no_slash _ _ Hs), append_nil_l.
    cbn [app]. f_equal. apply IH; [exact Hrest | discriminate].
Qed.

Lemma fold_clean_plain (root : bool) (l : list string) :
  forall stack,
    Forall (fun e => plain e = true) l ->
    fold_left (clean_step root) l stack = (rev l ++ stack)%list.
Proof.
  induction l as [|e l IH]; intros stack Hall; [reflexivity|].
  inversion Hall as [|? ? He Hrest]; subst.
  apply plain_spec in He. destruct He as (_ & H1 & H2 & H3).
  cbn [fold_left rev]. unfold clean_step at 2.
  apply String.eqb_neq in H1, H2, H3. rewrite H1, H2, H3. cbn [orb].
  rewrite (IH _ Hrest), <- app_assoc. reflexivity.
Qed.

Lemma Join_plain (l : list string) :
  Forall (fun e => plain e = true) l -> l <> [] ->
  rooted (Join l "/") = false /\ String.eqb (Join l "/") "" = false.
Proof.
  destruct l as [|e rest]; [contradiction|]. intros Hall _.
  inversion Hall as [|? ? He _]; subst.
  apply plain_spec in He. destruct He as (Hs & Hne & _).
  destruct e as [|c e]; [contradiction|].
  cbn [no_slash] in Hs. apply andb_true_iff in Hs. destruct Hs as [Hc _].
  apply negb_true_iff in Hc.
  assert (Hhead : exists tl, Join (String c e :: rest) "/" = String c tl).
  { destruct rest; cbn [Join]; [now eexists|].
    rewrite append_cons. now eexists. }
  destruct Hhead as [tl ->]. cbn. now split.
Qed.

(** A path of plain elements, also behind [./], is cleaned to
    itself. *)
Lemma Clean_plain (l : list string) :
  Forall (fun e => plain e = true) l -> l <> [] ->
  Clean (Join l "/") = Join l "/"
  /\ Clean ("./" +:+ Join l "/") = Join l "/".
Proof.
  intros Hall Hne. destruct (Join_plain l Hall Hne) as [Hroot Hbody].
  split.
  - unfold Clean. rewrite Hroot, (components_Join l Hall Hne).
    rewrite fold_clean_plain by exact Hall.
    rewrite app_nil_r, rev_involutive, Hbody. reflexivity.
  - unfold Clean.
    change (rooted ("./" +:+ Join l "/")) with false.
    change (components "" ("./" +:+ Join l "/"))
      with ("." :: components "" (Join l "/")).
    rewrite (components_Join l Hall Hne). cbn [fold_left].
    change (clean_step false [] ".") with (@nil string).
    rewrite fold_clean_plain by exact Hall.
    rewrite app_nil_r, rev_involutive, Hbody. reflexivity.
Qed.

Lemma user_dir_plain (userID : string) :
  plain userID = true ->
  user_dir userID = "data/uploads/" +:+ userID.
Proof.
  intros Hu. pose proof (plain_spec _ Hu) as (_ & Hne & _).
  unfold user_dir. apply String.eqb_neq in Hne. rewrite Hne. cbn [negb].
  change (JoinPath ["./data/uploads"; userID])
    with (Clean ("./" +:+ Join ["data"; "uploads"; userID] "/")).
  rewrite (proj2 (Clean_plain ["data"; "uploads"; userID]
                    ltac:(repeat constructor; exact Hu) ltac:(discriminate))).
  reflexivity.
Qed.

Lemma shared_file (name : string) :
  plain name = true ->
  JoinPath ["./data/uploads"; name] = "data/uploads/" +:+ name.
Proof.
  intros Hn.
  change (JoinPath ["./data/uploads"; name])
    with (Clean ("./" +:+ Join ["data"; "uploads"; name] "/")).
  rewrite (proj2 (Clean_plain ["data"; "uploads"; name]
                    ltac:(repeat constructor; exact Hn) ltac:(discriminate))).
  reflexivity.
Qed.

Lemma user_file (userID name : string) :
  plain userID = true -> plain name = true ->
  JoinPath ["data/uploads/" +:+ userID; name]
  = "data/uploads/" +:+ userID +:+ "/" +:+ name.
Proof.
  intros Hu Hn.
  change (JoinPath ["data/uploads/" +:+ userID; name])
    with (Clean (("data/uploads/" +:+ userID) +:+ "/" +:+ name)).
  rewrite append_assoc.
  change ("data/uploads/" +:+ userID +:+ "/" +:+ name)
    with (Join ["data"; "uploads"; userID; name] "/").
  apply (Clean_plain ["data"; "uploads"; userID; name]);
    [repeat constructor; assumption | discriminate].
Qed.

(** *** The two HTTP clients *)

Lemma save_user_image_saved (w : HTTPImage.World) (userID : string)
  (data : list ascii) (path : string) :
  snd (HTTPImage.save_user_image w userID data) = Ok path ->
  path = JoinPath [user_dir userID; image_name (HTTPImage.UnixNano w)]
  /\ fst (HTTPImage.save_user_image w userID data)
     = [HTTPImage.DoMkdirAll (user_dir userID);
        HTTPImage.DoWriteFile path data]
  /\ HTTPImage.MkdirAll w (user_dir userID) = None
  /\ HTTPImage.WriteFile w path data = None.
Proof.
  unfold HTTPImage.save_user_image. cbv zeta.
  fold (user_dir userID). fold (image_name (HTTPImage.UnixNano w)).
  destruct (HTTPImage.MkdirAll w (user_dir userID)) eqn:Hm; [discriminate|].
  destruct (HTTPImage.WriteFile w _ data) eqn:Hw; [discriminate|].
  cbn [fst snd]. intros H. injection H as <-. now repeat split.
Qed.

Lemma saved_path_forms (w : HTTPImage.World) (userID path : string) :
  path = JoinPath [user_dir userID; image_name (HTTPImage.UnixNano w)] ->
  (userID = "" ->
   path = "data/uploads/" +:+ image_name (HTTPImage.UnixNano w))
  /\ (plain userID = true ->
      path = "data/uploads/" +:+ userID +:+ "/"
               +:+ image_name (HTTPImage.UnixNano w)).
Proof.
  intros ->. split.
  - intros ->. apply shared_file, image_name_plain.
  - intros Hu. rewrite (user_dir_plain _ Hu).
    apply user_file; [exact Hu | apply image_name_plain].
Qed.

Lemma then_save_saved (w : HTTPImage.World) (userID url : string)
  (sent ev : list HTTPImage.event) (path : string) :
  List.filter is_http_write sent = [] ->
  HTTPImage.then_save w userID (HTTPImage.download_image w url) sent
  = (ev, Ok path) ->
  saved_for_user w userID ev path.
Proof.
  intros Hsent H.
  apply HTTPImageFacts.then_save_ok in H.
  destruct H as (dev & data & Hd & Hev & Hs).
  apply HTTPImageFacts.download_image_ok in Hd. destruct Hd as [-> _].
  destruct (save_user_image_saved w userID data path Hs)
    as (Hpath & Hevs & Hm & Hw).
  destruct (saved_path_forms w userID path Hpath) as [Hshared Huser].
  split; [exact Hpath|]. split; [exact Hshared|]. split; [exact Huser|].
  exists (sent ++ [HTTPImage.DoGet url])%list, data.
  split; [rewrite Hev, Hevs, <- app_assoc; reflexivity|].
  split; [rewrite List.filter_app, Hsent; reflexivity|].
  now split.
Qed.



End ProviderSaveFacts.
